(** * YouTube Live Analyzer: a shallow embedding of [app.py]

    The development follows the layout of the source file: the helpers
    ([short_number], [parse_iso8601_duration_to_seconds],
    [extract_channel_from_input]), the API helpers, the originality engine,
    the channel analyzer with its frequency texts, and the [/preview] and
    [/api/analyze] routes.

    Conventions of the embedding.
    - A Python [str] is a Rocq [string]; a character is a code point below
      256, so the model covers the Latin-1 part of Unicode, on which the
      predicates [str.isspace] and [str.isdigit] are given in full.
    - A Python [int] is a [Z].
    - A computation that may raise is an [outcome]; exceptions are values of
      [exn].  The third constructor [Beyond] marks the two places where the
      model stops short of the program: a loop that has used up its fuel and
      a float whose [repr] is in exponent notation.
    - Binary64 arithmetic whose digits reach the output ([short_number],
      [freq]) is modelled bit for bit with [SpecFloat]; the originality
      engine, whose square root goes through the platform's [pow], is
      modelled over the reals, and the average durations over the rationals
      (see the comments there).
    - A message of the source with a character above code point 255 is kept
      as the bytes of the source file; no function reads these messages. *)

From Stdlib Require Import ZArith List String Ascii Bool Lia.
From Stdlib Require Import DecimalString.
From Stdlib Require Import Floats.SpecFloat.
From Stdlib Require Import QArith Qround.
From Stdlib Require Import Reals Lra.
Import ListNotations.

Local Open Scope string_scope.
Local Open Scope list_scope.
Local Open Scope Z_scope.

(* ------------------------------------------------------------------ *)
(** * Outcomes of computations                                          *)
(* ------------------------------------------------------------------ *)

Inductive exn : Type :=
| ValueError
| TypeError
| OverflowError
| ZeroDivisionError
| AttributeError
| KeyError
| HttpError.

Inductive limit : Type :=
| OutOfFuel
| ExponentRepr.

Inductive outcome (A : Type) : Type :=
| Ok (a : A)
| Raise (e : exn)
| Beyond (l : limit).

Arguments Ok {A} a.
Arguments Raise {A} e.
Arguments Beyond {A} l.

Definition obind {A B} (x : outcome A) (k : A -> outcome B) : outcome B :=
  match x with
  | Ok a => k a
  | Raise e => Raise e
  | Beyond l => Beyond l
  end.

Declare Scope outcome_scope.
Delimit Scope outcome_scope with outcome.
Notation "'let*' x ':=' c 'in' k" := (obind c (fun x => k))
  (at level 10, x pattern, c at level 100, k at level 200) : outcome_scope.
Local Open Scope outcome_scope.

(* ------------------------------------------------------------------ *)
(** * Python strings                                                    *)
(* ------------------------------------------------------------------ *)

Module PyStr.

Definition code (c : ascii) : Z := Z.of_nat (nat_of_ascii c).

Definition in_range (lo hi : Z) (c : ascii) : bool :=
  (lo <=? code c) && (code c <=? hi).

(** [str.isspace] below code point 256: TAB..CR, FS..US, SPACE, NEL,
    NBSP. *)
Definition isspace (c : ascii) : bool :=
  in_range 9 13 c || in_range 28 32 c
  || (code c =? 133) || (code c =? 160).

(** The decimal characters, ['0'..'9']. *)
Definition isdecimal (c : ascii) : bool := in_range 48 57 c.

(** [str.isdigit] below code point 256: the decimal characters and the
    superscripts two, three and one (178, 179, 185), which have a digit
    value but are not decimal characters. *)
Definition isdigit (c : ascii) : bool :=
  isdecimal c || (code c =? 178) || (code c =? 179) || (code c =? 185).

Definition truthy (s : string) : bool :=
  match s with EmptyString => false | String _ _ => true end.

Fixpoint rev_onto (s acc : string) : string :=
  match s with
  | EmptyString => acc
  | String c s' => rev_onto s' (String c acc)
  end.

Definition rev (s : string) : string := rev_onto s EmptyString.

Fixpoint lstrip_by (p : ascii -> bool) (s : string) : string :=
  match s with
  | EmptyString => EmptyString
  | String c s' => if p c then lstrip_by p s' else s
  end.

Definition rstrip_by (p : ascii -> bool) (s : string) : string :=
  rev (lstrip_by p (rev s)).

(** [s.strip()] *)
Definition strip (s : string) : string :=
  rstrip_by isspace (lstrip_by isspace s).

(** [s.rstrip(chars)] for a one-character [chars]. *)
Definition rstrip_char (c : ascii) (s : string) : string :=
  rstrip_by (Ascii.eqb c) s.

(** [s.startswith(p)] *)
Definition startswith (p s : string) : bool := String.prefix p s.

(** [sub in s] *)
Fixpoint contains (sub s : string) : bool :=
  String.prefix sub s ||
  match s with
  | EmptyString => false
  | String _ s' => contains sub s'
  end.

(** [s.split(sep)] for a non-empty [sep]: the text is cut at the
    non-overlapping occurrences of [sep], found from the left.  [skip]
    counts the characters of an occurrence that are still to be dropped. *)
Fixpoint split_from (sep : string) (skip : nat) (s : string) : list string :=
  match s with
  | EmptyString => [EmptyString]
  | String c s' =>
      match skip with
      | S k => split_from sep k s'
      | O =>
          if String.prefix sep s
          then EmptyString :: split_from sep (Nat.pred (String.length sep)) s'
          else match split_from sep O s' with
               | h :: t => String c h :: t
               | [] => [String c EmptyString]
               end
      end
  end.

Definition split (sep s : string) : list string := split_from sep O s.

(** [s.replace(old, new)] for a non-empty [old]. *)
Fixpoint replace_from (old new : string) (skip : nat) (s : string) : string :=
  match s with
  | EmptyString => EmptyString
  | String c s' =>
      match skip with
      | S k => replace_from old new k s'
      | O =>
          if String.prefix old s
          then (new ++ replace_from old new (Nat.pred (String.length old)) s')%string
          else String c (replace_from old new O s')
      end
  end.

Definition replace (old new s : string) : string := replace_from old new O s.

(** [xs[i]] for an index the caller knows to be in range. *)
Definition item (xs : list string) (i : nat) : string := nth i xs EmptyString.

(** [xs[-1]] *)
Definition last_item (xs : list string) : string := last xs EmptyString.

(** [sep.join(xs)] *)
Definition join (sep : string) (xs : list string) : string :=
  String.concat sep xs.

(** [str(n)] for an [int]. *)
Definition of_int (n : Z) : string := NilZero.string_of_int (Z.to_int n).

(** The value of a run of decimal characters read in base ten. *)
Fixpoint decimal_value (acc : Z) (s : string) : Z :=
  match s with
  | EmptyString => acc
  | String c s' => decimal_value (10 * acc + (code c - 48)) s'
  end.

Fixpoint all_chars (p : ascii -> bool) (s : string) : bool :=
  match s with
  | EmptyString => true
  | String c s' => p c && all_chars p s'
  end.

(** [int(num)] on a non-empty buffer of [isdigit] characters, the only
    strings the duration parser hands to [int]: the decimal characters
    are read in base ten, and any other digit character is an invalid
    literal.  The cap that CPython can put on the length of a literal is
    not modelled. *)
Definition int_of_digits (num : string) : outcome Z :=
  if all_chars isdecimal num then Ok (decimal_value 0 num)
  else Raise ValueError.

End PyStr.

(* ------------------------------------------------------------------ *)
(** * Helpers                                                           *)
(* ------------------------------------------------------------------ *)

Definition MAX_CHANNELS : nat := 5.
Definition SHORTS_MAX_SECONDS : Z := 60.
Definition BATCH_SIZE : nat := 50.
Definition RECENT_DAYS : Z := 30.

(** ** [parse_iso8601_duration_to_seconds] *)

Module Duration.
Import PyStr.

(** The body of the [for ch in dur] loop, with the two loop variables
    [num] and [sec] passed along. *)
Fixpoint scan (dur : string) (num : string) (sec : Z) : outcome Z :=
  match dur with
  | EmptyString => Ok sec
  | String ch rest =>
      if isdigit ch then scan rest (num ++ String ch EmptyString)%string sec
      else if negb (truthy num) then scan rest num sec
      else if Ascii.eqb ch "H" then
        let* n := int_of_digits num in scan rest EmptyString (sec + n * 3600)
      else if Ascii.eqb ch "M" then
        let* n := int_of_digits num in scan rest EmptyString (sec + n * 60)
      else if Ascii.eqb ch "S" then
        let* n := int_of_digits num in scan rest EmptyString (sec + n)
      else scan rest EmptyString sec
  end.

Definition parse_iso8601_duration_to_seconds (dur : string) : outcome Z :=
  if negb (truthy dur) then Ok 0
  else scan (replace "PT" EmptyString dur) EmptyString 0.

(** The codec as section 4.2 of the specification words it, for the
    comparison with the source: the ["PT"] prefix is stripped if present;
    digits go to a pending buffer; ['H'], ['M'] and ['S'] add the buffered
    number times 3600, 60 and 1 and clear the buffer; any other character,
    or a unit met with an empty buffer, is ignored. *)
Definition strip_PT_prefix (s : string) : string :=
  match s with
  | String "P" (String "T" rest) => rest
  | _ => s
  end.

Fixpoint spec_scan (s : string) (buf : option Z) (total : Z) : Z :=
  match s with
  | EmptyString => total
  | String ch rest =>
      if isdecimal ch then
        spec_scan rest
          (Some (10 * match buf with Some b => b | None => 0 end
                 + (code ch - 48))) total
      else
        match buf with
        | None => spec_scan rest None total
        | Some b =>
            if Ascii.eqb ch "H" then spec_scan rest None (total + b * 3600)
            else if Ascii.eqb ch "M" then spec_scan rest None (total + b * 60)
            else if Ascii.eqb ch "S" then spec_scan rest None (total + b)
            else spec_scan rest buf total
        end
  end.

Definition parseDuration_spec (text : string) : Z :=
  spec_scan (strip_PT_prefix text) None 0.

(** The same with the other reading of "digit runs": a character that is
    neither a digit nor a unit ends the run, whose digits are dropped. *)
Fixpoint spec_scan_runs (s : string) (buf : option Z) (total : Z) : Z :=
  match s with
  | EmptyString => total
  | String ch rest =>
      if isdecimal ch then
        spec_scan_runs rest
          (Some (10 * match buf with Some b => b | None => 0 end
                 + (code ch - 48))) total
      else
        match buf with
        | None => spec_scan_runs rest None total
        | Some b =>
            if Ascii.eqb ch "H" then spec_scan_runs rest None (total + b * 3600)
            else if Ascii.eqb ch "M" then spec_scan_runs rest None (total + b * 60)
            else if Ascii.eqb ch "S" then spec_scan_runs rest None (total + b)
            else spec_scan_runs rest None total
        end
  end.

Definition parseDuration_spec_runs (text : string) : Z :=
  spec_scan_runs (strip_PT_prefix text) None 0.

End Duration.

(** ** [extract_channel_from_input] *)

Module Resolver.
Import PyStr.

(** [inp or] the empty string *)
Definition or_empty (inp : option string) : string :=
  match inp with
  | Some s => s
  | None => EmptyString
  end.

Definition channel_url (cid : string) : string :=
  ("https://www.youtube.com/channel/" ++ cid)%string.

Definition extract_channel_from_input (inp : option string)
  : option string * option string :=
  let s := strip (or_empty inp) in
  if negb (truthy s) then (None, None)
  else if startswith "UC" s && (20 <? String.length s)%nat then
    (Some s, Some (channel_url s))
  else if contains "youtube.com" s then
    if contains "/channel/" s then
      let cid :=
        item (split "?" (item (split "/" (item (split "/channel/" s) 1)) 0)) 0 in
      (Some cid, Some (channel_url cid))
    else
      let base := rstrip_char "/" (item (split "?" s) 0) in
      (None, Some base)
  else if startswith "@" s then
    (None, Some ("https://www.youtube.com/" ++ s)%string)
  else (None, Some s).

End Resolver.

(** ** Binary64 floats, as far as [short_number] needs them *)

Module Float.

Definition prec : Z := 53.
Definition emax : Z := 1024.

Definition float : Type := spec_float.

(** The float nearest to an integer (ties to even); used for the literals
    [1000], [100] and [1000.0], which are exact. *)
Definition nearest (n : Z) : float := binary_normalize prec emax n 0 false.

(** [float(n)] for an [int]: correctly rounded, [OverflowError] when the
    integer is too large. *)
Definition of_int (n : Z) : outcome float :=
  match nearest n with
  | S754_infinity _ => Raise OverflowError
  | f => Ok f
  end.

Definition abs (x : float) : float := SFabs x.
Definition ltb (x y : float) : bool := SFltb x y.
Definition geb (x y : float) : bool := SFleb y x.
Definition div (x y : float) : float := SFdiv prec emax x y.

Definition sign_text (s : bool) : string :=
  if s then "-" else EmptyString.

(** The integer nearest to [k * m * 2^e], ties to even. *)
Definition scaled_nearest_even (k : Z) (m : positive) (e : Z) : Z :=
  let num := k * Zpos m in
  if 0 <=? e then num * 2 ^ e
  else
    let den := 2 ^ (- e) in
    let q := num / den in
    let r := num mod den in
    match 2 * r ?= den with
    | Lt => q
    | Gt => q + 1
    | Eq => if Z.even q then q else q + 1
    end.

(** [int(x)]: truncation toward zero. *)
Definition to_int (x : float) : outcome Z :=
  match x with
  | S754_nan => Raise ValueError
  | S754_infinity _ => Raise OverflowError
  | S754_zero _ => Ok 0
  | S754_finite s m e =>
      let mag := if 0 <=? e then Zpos m * 2 ^ e else Zpos m / 2 ^ (- e) in
      Ok (if s then - mag else mag)
  end.

(** [int(round(x))]: the nearest integer, ties to even. *)
Definition round_to_int (x : float) : outcome Z :=
  match x with
  | S754_nan => Raise ValueError
  | S754_infinity _ => Raise OverflowError
  | S754_zero _ => Ok 0
  | S754_finite s m e =>
      let mag := scaled_nearest_even 1 m e in
      Ok (if s then - mag else mag)
  end.

(** [f"{round(x, 1)}"]: [round] gives the float nearest to the one-decimal
    number nearest to [x] (ties to even), and formatting it gives back that
    decimal, with its one fractional digit.  From 1e16 on [repr] turns to
    exponent notation, which is left out of the model. *)
Definition repr_round1 (x : float) : outcome string :=
  match x with
  | S754_nan => Ok "nan"
  | S754_infinity s => Ok (sign_text s ++ "inf")%string
  | S754_zero s => Ok (sign_text s ++ "0.0")%string
  | S754_finite s m e =>
      let r := scaled_nearest_even 10 m e in
      if 10 ^ 17 <=? r then Beyond ExponentRepr
      else Ok (sign_text s ++ PyStr.of_int (r / 10) ++ "."
               ++ PyStr.of_int (r mod 10))%string
  end.

End Float.

(** ** [short_number] *)

Module ShortNumber.

Definition units : list string := [EmptyString; "K"; "M"; "B"; "T"].

(** The [for unit in ...] loop; running off the end of the list is the
    [return] after the loop. *)
Fixpoint scale (us : list string) (value : Float.float) : outcome string :=
  match us with
  | [] =>
      let* s := Float.repr_round1 value in Ok (s ++ "T")%string
  | unit :: rest =>
      if Float.ltb (Float.abs value) (Float.nearest 1000) then
        if String.eqb unit EmptyString then
          let* i := Float.to_int value in Ok (PyStr.of_int i)
        else if Float.geb value (Float.nearest 100) then
          let* i := Float.round_to_int value in
          Ok (PyStr.of_int i ++ unit)%string
        else
          let* s := Float.repr_round1 value in Ok (s ++ unit)%string
      else scale rest (Float.div value (Float.nearest 1000))
  end.

(** The argument is an [int], as at every call site, so that [int(n)]
    returns it and the [except] branch is not entered. *)
Definition short_number (n : Z) : outcome string :=
  if n <? 1000 then Ok (PyStr.of_int n)
  else
    let* value := Float.of_int n in
    scale units value.

End ShortNumber.

(* ------------------------------------------------------------------ *)
(** * Video records                                                     *)
(* ------------------------------------------------------------------ *)

(** The dictionaries that [fetch_videos_metadata] appends to [out]. *)
Record video : Type := {
  video_id : option string;
  title : string;
  description : string;
  publishedAt : option string;
  views : Z;
  duration_seconds : Z
}.

Definition is_short (v : video) : bool :=
  duration_seconds v <=? SHORTS_MAX_SECONDS.

Definition is_long (v : video) : bool :=
  SHORTS_MAX_SECONDS <? duration_seconds v.

(** [sum(...)] over integers. *)
Definition zsum (l : list Z) : Z := fold_right Z.add 0 l.

(** [len(...)] as an [int]. *)
Definition zlen {A} (l : list A) : Z := Z.of_nat (List.length l).

(** [sum(1 for x in l if p(x))] *)
Definition count_if {A} (p : A -> bool) (l : list A) : Z := zlen (filter p l).

(* ------------------------------------------------------------------ *)
(** * Originality engine                                                *)
(* ------------------------------------------------------------------ *)

(** Python floats are read as real numbers here: a division or a square
    root is the exact one, and no operation overflows.  [x ** 0.5] is
    [sqrt x]; [int(x)] is truncation toward zero. *)

Module Originality.

Local Open Scope R_scope.

Record signals : Type := {
  desc_dup_ratio : R;
  empty_desc_ratio : R;
  shorts_ratio : R;
  dur_uniformity : R
}.

(** [Counter(descs)[d]] *)
Definition Counter (descs : list string) (d : string) : Z :=
  Z.of_nat (count_occ string_dec descs d).

(** [int(x)] for a float. *)
Definition py_int (x : R) : Z :=
  if Rlt_dec x 0 then (- Int_part (- x))%Z else Int_part x.

Definition rsum (l : list R) : R := fold_right Rplus 0 l.

(** [k / max(1, N)] *)
Definition over (k : R) (N : Z) : R := k / IZR (Z.max 1 N).

Definition clamp (score : R) : R := Rmax 0 (Rmin 100 score).

Definition explain (s : signals) : list string :=
  let explanation :=
    ((if Rgt_dec (desc_dup_ratio s) 0.2
      then ["Duplicate descriptions detected."] else [])
     ++ (if Rgt_dec (empty_desc_ratio s) 0.4
         then ["Many videos have empty descriptions."] else [])
     ++ (if Rgt_dec (shorts_ratio s) 0.85
         then ["Mostly shorts content — reused content risk."] else [])
     ++ (if Rlt_dec (dur_uniformity s) 0.3
         then ["Durations too uniform — templated content."] else []))%list in
  match explanation with
  | [] => ["No reused-content signals detected."]
  | _ => explanation
  end.

(** The list [titles] of the source is built and never read; it is left
    out. *)
Definition metadata_originality_analysis (videos_meta : list video)
  : outcome (Z * list string * signals) :=
  let N := zlen videos_meta in
  let descs := map (fun v => PyStr.strip (description v)) videos_meta in
  let durations := map duration_seconds videos_meta in
  let desc_dup_ratio :=
    over (IZR (count_if
                 (fun d => PyStr.truthy d && (1 <? Counter descs d)%Z) descs))
         N in
  let empty_desc_ratio :=
    over (IZR (count_if
                 (fun d => negb (PyStr.truthy d)
                           || (String.length d <? 10)%nat) descs))
         N in
  let shorts_ratio :=
    over (IZR (count_if (fun d => (d <=? SHORTS_MAX_SECONDS)%Z) durations)) N in
  let avg_dur := over (IZR (zsum durations)) N in
  let std_dur :=
    sqrt (over (rsum (map (fun x => (IZR x - avg_dur) ^ 2) durations)) N) in
  if Req_dec_T (avg_dur + 1) 0 then Raise ZeroDivisionError
  else
    let dur_uniformity := 1 - std_dur / (avg_dur + 1) in
    let score := 100 in
    let score := score - 20 * (desc_dup_ratio + 0.5 * empty_desc_ratio) in
    let score := score - 15 * shorts_ratio in
    let score := score - 10 * (1 - dur_uniformity) in
    let final_score := py_int (clamp score) in
    let sig := {| desc_dup_ratio := desc_dup_ratio;
                  empty_desc_ratio := empty_desc_ratio;
                  shorts_ratio := shorts_ratio;
                  dur_uniformity := dur_uniformity |} in
    Ok (final_score, explain sig, sig).

(** The score that the specification's formula gives for a set of
    signals, before clamping. *)
Definition raw_score (s : signals) : R :=
  100 - 20 * (desc_dup_ratio s + 0.5 * empty_desc_ratio s)
  - 15 * shorts_ratio s - 10 * (1 - dur_uniformity s).

End Originality.

(* ------------------------------------------------------------------ *)
(** * The YouTube client                                                *)
(* ------------------------------------------------------------------ *)

(** The Data API is a collaborator: each of the four requests the program
    makes is a function from the request's arguments to what [execute()]
    gives, already decoded into the fields the program reads.  [Failed] is
    an [execute()] that raises. *)

Module YouTube.

Inductive api_result (A : Type) : Type :=
| Returned (a : A)
| Failed.
Arguments Returned {A} a.
Arguments Failed {A}.

Record channel_item : Type := {
  ci_title : option string;
  ci_thumbnail_high : option string;
  ci_subscriberCount : option Z;
  ci_uploads : option string
}.

Record video_item : Type := {
  vi_id : option string;
  vi_title : string;
  vi_description : option string;
  vi_publishedAt : option string;
  vi_viewCount : Z;
  vi_duration : string
}.

Record service : Type := {
  (** [search().list(q=q, type="channel", maxResults=1)]: the
      [channelId] of each item, if the item has one. *)
  search_list : string -> api_result (list (option string));
  (** [channels().list(id=channel_id)] *)
  channels_list : string -> api_result (list channel_item);
  (** [playlistItems().list(playlistId, pageToken)]: the [videoId] of
      each item and the [nextPageToken]. *)
  playlistItems_list :
    string -> option string -> api_result (list (option string) * option string);
  (** [videos().list(id=",".join(batch))] *)
  videos_list : string -> api_result (list video_item)
}.

Inductive call : Type :=
| CallSearch (q : string)
| CallChannels (id : string)
| CallPlaylistItems (playlist : string) (pageToken : option string)
| CallVideos (ids : string).

End YouTube.
Import YouTube.

(** Computations that talk to the client: the requests made so far are
    recorded, whatever the outcome. *)

Definition trace : Type := list call.

Definition M (A : Type) : Type := trace -> outcome A * trace.

Definition ret {A} (a : A) : M A := fun t => (Ok a, t).

Definition bind {A B} (m : M A) (k : A -> M B) : M B :=
  fun t =>
    match m t with
    | (Ok a, t') => k a t'
    | (Raise e, t') => (Raise e, t')
    | (Beyond l, t') => (Beyond l, t')
    end.

Definition lift {A} (o : outcome A) : M A := fun t => (o, t).

Definition request {A} (c : call) (r : api_result A) : M A :=
  fun t =>
    (match r with Returned a => Ok a | Failed => Raise HttpError end,
     (t ++ [c])%list).

(** [try: body  except: handler] *)
Definition try_except {A} (body handler : M A) : M A :=
  fun t =>
    match body t with
    | (Raise _, t') => handler t'
    | r => r
    end.

Declare Scope net_scope.
Delimit Scope net_scope with net.
Notation "x <- c ;; k" := (bind c (fun x => k))
  (at level 61, c at next level, right associativity) : net_scope.
Local Open Scope net_scope.

(** Truthiness of an optional string: neither [None] nor empty. *)
Definition present (x : option string) : option string :=
  match x with
  | Some s => if PyStr.truthy s then Some s else None
  | None => None
  end.

(** [a or b] *)
Definition or_else (a b : option string) : option string :=
  match present a with
  | Some s => Some s
  | None => b
  end.

(* ------------------------------------------------------------------ *)
(** * YouTube API helpers                                               *)
(* ------------------------------------------------------------------ *)

Record channel : Type := {
  channel_id : string;
  channel_title : option string;
  profile_pic : option string;
  subscribers : Z;
  uploads_playlist : option string
}.

Module Api.
Import PyStr.

Definition fetch_channel_basic (youtube : service) (cid : string)
  : M (option channel) :=
  items <- request (CallChannels cid) (channels_list youtube cid) ;;
  match items with
  | [] => ret None
  | it :: _ =>
      ret (Some {| channel_id := cid;
                   channel_title := ci_title it;
                   profile_pic := ci_thumbnail_high it;
                   subscribers :=
                     match ci_subscriberCount it with
                     | Some n => n
                     | None => 0
                     end;
                   uploads_playlist := ci_uploads it |})
  end.

Definition resolve_handle_to_channel_id
           (youtube : service) (canonical_url_or_handle : option string)
  : M (option string) :=
  try_except
    (match canonical_url_or_handle with
     | None => lift (Raise AttributeError)
     | Some s =>
         let q := last_item (split "/" (strip s)) in
         items <- request (CallSearch q) (search_list youtube q) ;;
         match items with
         | [] => ret None
         | Some cid :: _ => ret (Some cid)
         | None :: _ => lift (Raise KeyError)
         end
     end)
    (ret None).

(** The [while True] loop; [fuel] bounds the number of pages. *)
Fixpoint playlist_pages (fuel : nat) (youtube : service) (playlist : string)
         (next_page : option string) (ids : list string) : M (list string) :=
  match fuel with
  | O => lift (Beyond OutOfFuel)
  | S fuel' =>
      resp <- request (CallPlaylistItems playlist next_page)
                      (playlistItems_list youtube playlist next_page) ;;
      let ids := (ids ++ flat_map (fun vid => match present vid with
                                             | Some x => [x]
                                             | None => []
                                             end) (fst resp))%list in
      match present (snd resp) with
      | None => ret ids
      | Some tok => playlist_pages fuel' youtube playlist (Some tok) ids
      end
  end.

Definition fetch_all_video_ids_from_playlist
           (fuel : nat) (youtube : service) (playlist : string)
  : M (list string) :=
  playlist_pages fuel youtube playlist None [].

(** [range(0, stop, step)] *)
Definition range_step (stop step : nat) : list nat :=
  map (fun k => (k * step)%nat) (seq 0 ((stop + step - 1) / step)).

(** [ids[i:i+BATCH_SIZE]] *)
Definition batch_at (ids : list string) (i : nat) : list string :=
  firstn BATCH_SIZE (skipn i ids).

Definition to_video (v : video_item) : outcome video :=
  let* dur_sec := Duration.parse_iso8601_duration_to_seconds (vi_duration v) in
  Ok {| video_id := vi_id v;
        title := vi_title v;
        description := match present (vi_description v) with
                       | Some d => d
                       | None => EmptyString
                       end;
        publishedAt := vi_publishedAt v;
        views := vi_viewCount v;
        duration_seconds := dur_sec |}.

Fixpoint to_videos (items : list video_item) : outcome (list video) :=
  match items with
  | [] => Ok []
  | v :: rest =>
      let* x := to_video v in
      let* xs := to_videos rest in
      Ok (x :: xs)
  end.

Fixpoint fetch_batches (youtube : service) (batches : list (list string))
         (out : list video) : M (list video) :=
  match batches with
  | [] => ret out
  | batch :: rest =>
      items <- request (CallVideos (join "," batch))
                       (videos_list youtube (join "," batch)) ;;
      vs <- lift (to_videos items) ;;
      fetch_batches youtube rest (out ++ vs)%list
  end.

Definition fetch_videos_metadata (youtube : service) (ids : list string)
  : M (list video) :=
  fetch_batches youtube
                (map (batch_at ids) (range_step (List.length ids) BATCH_SIZE))
                [].

End Api.

(* ------------------------------------------------------------------ *)
(** * Full channel analyzer                                             *)
(* ------------------------------------------------------------------ *)

(** What [datetime.fromisoformat] gives: a point in time, in microseconds
    since the epoch, with or without a UTC offset. *)
Inductive datetime : Type :=
| Naive (t : Z)
| Aware (t : Z).

(** The report.  Five entries of the source's dictionary are left out:
    the two frequency texts, [uploads_per_week_recent] and the two
    last-upload dates; computing them raises nothing. *)
Record report : Type := {
  r_channel_id : string;
  r_title : option string;
  r_profile_pic : option string;
  r_subscribers : Z;
  r_subscribers_fmt : string;
  r_monetization : string;
  r_originality_score : Z;
  r_originality_explanation : list string;
  r_originality_signals : Originality.signals;
  r_shorts_count : Z;
  r_videos_count : Z;
  r_videos_scanned : Z;
  r_total_shorts_views_lifetime : Z;
  r_total_long_views_lifetime : Z;
  r_total_shorts_views_lifetime_fmt : string;
  r_total_long_views_lifetime_fmt : string;
  r_shorts_30d_count : Z;
  r_videos_30d_count : Z;
  r_total_shorts_views_30d : Z;
  r_total_long_views_30d : Z;
  r_total_shorts_views_30d_fmt : string;
  r_total_long_views_30d_fmt : string;
  r_avg_short_duration_human : string;
  r_avg_long_duration_human : string
}.

(** The dictionary [analyze_channel_full] returns: with the key ["error"],
    or a report. *)
Inductive analysis : Type :=
| AnalysisError (message : string)
| Report (r : report).

Module Analyzer.

Section WithClock.

(** [datetime.fromisoformat]; [None] when it raises. *)
Variable fromisoformat : string -> option datetime.

Definition day : Z := 86400 * 1000000.

(** [datetime.now(timezone.utc) - timedelta(days=RECENT_DAYS)] *)
Definition cutoff (now : Z) : Z := now - RECENT_DAYS * day.

(** The [try] block of the 30-day loop; [None] is the [continue] of its
    [except]. *)
Definition parse_published (v : video) : option datetime :=
  match publishedAt v with
  | None => None
  | Some p => fromisoformat (PyStr.replace "Z" "+00:00" p)
  end.

(** The 30-day loop.  Comparing a naive with an aware datetime raises. *)
Fixpoint recent_split (cut : Z) (videos_meta : list video)
         (shorts_30 longs_30 : list video)
  : outcome (list video * list video) :=
  match videos_meta with
  | [] => Ok (shorts_30, longs_30)
  | v :: rest =>
      match parse_published v with
      | None => recent_split cut rest shorts_30 longs_30
      | Some (Naive _) => Raise TypeError
      | Some (Aware dt) =>
          if cut <=? dt then
            if is_short v
            then recent_split cut rest (shorts_30 ++ [v])%list longs_30
            else recent_split cut rest shorts_30 (longs_30 ++ [v])%list
          else recent_split cut rest shorts_30 longs_30
      end
  end.

(** [avg_duration]: the quotient is taken exactly, where the source has
    the binary64 number nearest to it. *)
Definition avg_duration (lst : list video) : Q :=
  match lst with
  | [] => 0%Q
  | _ => (inject_Z (zsum (map duration_seconds lst)) / inject_Z (zlen lst))%Q
  end.

(** [avg // 60] and [avg % 60] *)
Definition floordiv60 (avg : Q) : Q := inject_Z (Qfloor (avg / 60)).
Definition mod60 (avg : Q) : Q := (avg - 60 * floordiv60 avg)%Q.

(** [f"{int(avg//60)}m {int(avg%60)}s" if avg else "N/A"] *)
Definition avg_human (avg : Q) : string :=
  if negb (Qeq_bool avg 0) then
    (PyStr.of_int (Qfloor (floordiv60 avg)) ++ "m "
     ++ PyStr.of_int (Qfloor (mod60 avg)) ++ "s")%string
  else "N/A".

Definition total_views (lst : list video) : Z := zsum (map views lst).

(** The body of [analyze_channel_full] from the split on. *)
Definition build_report (ch : channel) (videos_meta : list video) (now : Z)
  : outcome report :=
  let shorts := filter is_short videos_meta in
  let longs := filter is_long videos_meta in
  let shorts_count := zlen shorts in
  let long_count := zlen longs in
  let total_shorts_views := total_views shorts in
  let total_long_views := total_views longs in
  let cut := cutoff now in
  let* recent := recent_split cut videos_meta [] [] in
  let shorts_30 := fst recent in
  let longs_30 := snd recent in
  let shorts_30_count := zlen shorts_30 in
  let longs_30_count := zlen longs_30 in
  let shorts_30_views := total_views shorts_30 in
  let longs_30_views := total_views longs_30 in
  let avg_short := avg_duration shorts in
  let avg_long := avg_duration longs in
  let avg_short_human := avg_human avg_short in
  let avg_long_human := avg_human avg_long in
  let* originality := Originality.metadata_originality_analysis videos_meta in
  let* subscribers_fmt := ShortNumber.short_number (subscribers ch) in
  let* total_shorts_views_fmt := ShortNumber.short_number total_shorts_views in
  let* total_long_views_fmt := ShortNumber.short_number total_long_views in
  let* shorts_30_views_fmt := ShortNumber.short_number shorts_30_views in
  let* longs_30_views_fmt := ShortNumber.short_number longs_30_views in
  Ok {| r_channel_id := channel_id ch;
        r_title := channel_title ch;
        r_profile_pic := profile_pic ch;
        r_subscribers := subscribers ch;
        r_subscribers_fmt := subscribers_fmt;
        r_monetization := "UNKNOWN — YouTube does not show publicly";
        r_originality_score := fst (fst originality);
        r_originality_explanation := snd (fst originality);
        r_originality_signals := snd originality;
        r_shorts_count := shorts_count;
        r_videos_count := long_count;
        r_videos_scanned := zlen videos_meta;
        r_total_shorts_views_lifetime := total_shorts_views;
        r_total_long_views_lifetime := total_long_views;
        r_total_shorts_views_lifetime_fmt := total_shorts_views_fmt;
        r_total_long_views_lifetime_fmt := total_long_views_fmt;
        r_shorts_30d_count := shorts_30_count;
        r_videos_30d_count := longs_30_count;
        r_total_shorts_views_30d := shorts_30_views;
        r_total_long_views_30d := longs_30_views;
        r_total_shorts_views_30d_fmt := shorts_30_views_fmt;
        r_total_long_views_30d_fmt := longs_30_views_fmt;
        r_avg_short_duration_human := avg_short_human;
        r_avg_long_duration_human := avg_long_human |}.

(** [analyze_channel_full] once the channel ID is known. *)
Definition analyze_resolved (fuel : nat) (youtube : service) (now : Z)
           (cid : string) : M analysis :=
  ch <- Api.fetch_channel_basic youtube cid ;;
  match ch with
  | None => ret (AnalysisError "Channel not found")
  | Some ch =>
      video_ids <- match present (uploads_playlist ch) with
                   | Some uploads =>
                       Api.fetch_all_video_ids_from_playlist fuel youtube uploads
                   | None => ret []
                   end ;;
      videos_meta <- Api.fetch_videos_metadata youtube video_ids ;;
      r <- lift (build_report ch videos_meta now) ;;
      ret (Report r)
  end.

(** Building the client ([get_youtube_service]) is not part of the
    model.  [now] is the reading of the clock during this analysis. *)
Definition analyze_channel_full (fuel : nat) (youtube : service) (now : Z)
           (channel_input : option string) : M analysis :=
  let (cid, canonical) := Resolver.extract_channel_from_input channel_input in
  match present cid with
  | Some cid => analyze_resolved fuel youtube now cid
  | None =>
      cid <- Api.resolve_handle_to_channel_id
               youtube (or_else canonical channel_input) ;;
      match present cid with
      | None => ret (AnalysisError "Could not resolve channel ID")
      | Some cid => analyze_resolved fuel youtube now cid
      end
  end.

(* -------------------------------------------------------------- *)
(** ** The [/api/analyze] route                                     *)
(* -------------------------------------------------------------- *)

Inductive response : Type :=
| Success (results : list report) (errors : list (option string * string))
| ServerError.

(** The [for c in inputs[:MAX_CHANNELS]] loop; [clock i] is the reading
    of the clock during the analysis of the [i]-th input. *)
Fixpoint analyze_each (fuel : nat) (youtube : service) (clock : nat -> Z)
         (i : nat) (inputs : list (option string))
         (results : list report) (errors : list (option string * string))
  : M (list report * list (option string * string)) :=
  match inputs with
  | [] => ret (results, errors)
  | c :: rest =>
      rep <- analyze_channel_full fuel youtube (clock i) c ;;
      match rep with
      | AnalysisError e =>
          analyze_each fuel youtube clock (S i) rest
                       results (errors ++ [(c, e)])%list
      | Report r =>
          analyze_each fuel youtube clock (S i) rest
                       (results ++ [r])%list errors
      end
  end.

Definition api_analyze (fuel : nat) (youtube : service) (clock : nat -> Z)
           (inputs : list (option string)) : M response :=
  try_except
    (out <- analyze_each fuel youtube clock 0
                         (firstn MAX_CHANNELS inputs) [] [] ;;
     ret (Success (fst out) (snd out)))
    (ret ServerError).

End WithClock.

End Analyzer.

(* ------------------------------------------------------------------ *)
(** * Upload frequency                                                  *)
(* ------------------------------------------------------------------ *)

Module Frequency.

Definition mul (x y : Float.float) : Float.float :=
  SFmul Float.prec Float.emax x y.

(** [f"{x:.1f}"]: the one-decimal number nearest to [x], ties to even. *)
Definition format_1f (x : Float.float) : string :=
  match x with
  | S754_nan => "nan"
  | S754_infinity s => (Float.sign_text s ++ "inf")%string
  | S754_zero s => (Float.sign_text s ++ "0.0")%string
  | S754_finite s m e =>
      let r := Float.scaled_nearest_even 10 m e in
      (Float.sign_text s ++ PyStr.of_int (r / 10) ++ "."
       ++ PyStr.of_int (r mod 10))%string
  end.

(** [7 / per_week] *)
Definition seven_over (per_week : Float.float) : outcome Float.float :=
  match per_week with
  | S754_zero _ => Raise ZeroDivisionError
  | _ => Ok (Float.div (Float.nearest 7) per_week)
  end.

(** The inner function [freq] of [analyze_channel_full].  [count] is the
    length of a list; it is below 2^53, so that its float is exact and
    [count / RECENT_DAYS] is the quotient of the two floats. *)
Definition freq (count : Z) : outcome string :=
  if count =? 0 then Ok "Rarely uploads"
  else
    let* c := Float.of_int count in
    let per_week :=
      mul (Float.div c (Float.nearest RECENT_DAYS)) (Float.nearest 7) in
    if Float.ltb per_week (Float.nearest 1) then
      let* q := seven_over per_week in
      let* days := Float.to_int q in
      Ok ("1 upload every " ++ PyStr.of_int days ++ " days")%string
    else Ok (format_1f per_week ++ " uploads/week")%string.

End Frequency.

(* ------------------------------------------------------------------ *)
(** * The [/preview] route                                              *)
(* ------------------------------------------------------------------ *)

Module Preview.
Import PyStr.

(** The JSON that the route answers with: the summary of the channel, or
    an error with its HTTP status. *)
Inductive preview_response : Type :=
| PreviewOk (channel_id : string) (title : option string)
            (profile_pic : option string) (subscribers : Z)
            (subscribers_fmt : string)
| PreviewFailure (status : Z) (error : string).

(** The body of the request: [None] when it is an empty or absent JSON
    value or has no key ["input"], [Some None] when reading the input
    raises, as [.strip()] does on an input that is not a string.  Building
    the client is not part of the model, and neither is the printing of the
    exception. *)
Definition preview (youtube : service) (data : option (option string))
  : M preview_response :=
  try_except
    (match data with
     | None => ret (PreviewFailure 400 "Invalid request")
     | Some None => lift (Raise AttributeError)
     | Some (Some raw) =>
         let inp := strip raw in
         let (cid, canonical) :=
           Resolver.extract_channel_from_input (Some inp) in
         cid <- match present cid with
                | Some c => ret (Some c)
                | None =>
                    Api.resolve_handle_to_channel_id
                      youtube (or_else canonical (Some inp))
                end ;;
         match present cid with
         | None => ret (PreviewFailure 404 "Channel not found")
         | Some cid =>
             ch <- Api.fetch_channel_basic youtube cid ;;
             match ch with
             | None => ret (PreviewFailure 404 "Channel not found")
             | Some ch =>
                 fmt <- lift (ShortNumber.short_number (subscribers ch)) ;;
                 ret (PreviewOk (channel_id ch) (channel_title ch)
                                (profile_pic ch) (subscribers ch) fmt)
             end
         end
     end)
    (ret (PreviewFailure 500 "Server error")).

End Preview.

(* ================================================================== *)
(** * Vocabulary of the statements                                      *)
(* ================================================================== *)

Module DurationTerms.
Import PyStr.

(** Every digit character of the text is a decimal character. *)
Definition decimal_digits_only (s : string) : bool :=
  all_chars (fun c => implb (isdigit c) (isdecimal c)) s.

(** The seconds in a unit. *)
Definition unit_seconds (ch : ascii) : option Z :=
  if Ascii.eqb ch "H" then Some 3600
  else if Ascii.eqb ch "M" then Some 60
  else if Ascii.eqb ch "S" then Some 1
  else None.

End DurationTerms.

Module ShortNumberTerms.

(** The value after [k] divisions by [1000.0]. *)
Fixpoint scaled (value : Float.float) (k : nat) : Float.float :=
  match k with
  | O => value
  | S k' => Float.div (scaled value k') (Float.nearest 1000)
  end.

(** The scaled magnitude is below 1000. *)
Definition below_1000 (value : Float.float) : bool :=
  Float.ltb (Float.abs value) (Float.nearest 1000).

(** The digits of a scaled value: none after the point from 100 on, one
    otherwise. *)
Definition digits (value : Float.float) : outcome string :=
  if Float.geb value (Float.nearest 100)
  then let* i := Float.round_to_int value in Ok (PyStr.of_int i)
  else Float.repr_round1 value.

Definition with_unit (text : outcome string) (unit : string) : outcome string :=
  let* s := text in Ok (s ++ unit)%string.

End ShortNumberTerms.

Module OriginalityTerms.
Import Originality.
Local Open Scope R_scope.

(** A short video with a description of its own. *)
Definition sample_video : video :=
  {| video_id := Some "v1"; title := "A title";
     description := "Some description of the video";
     publishedAt := Some "2024-01-01T00:00:00Z";
     views := 10; duration_seconds := 45 |}.

(** The signals of an empty list. *)
Definition no_videos_signals : signals :=
  {| desc_dup_ratio := 0; empty_desc_ratio := 0;
     shorts_ratio := 0; dur_uniformity := 1 |}.

End OriginalityTerms.

Module AnalyzerTerms.
Import Analyzer.

(** The channel ID of the first item of a search, if there is one. *)
Definition first_item (r : api_result (list (option string))) : option string :=
  match r with
  | Returned (Some cid :: _) => Some cid
  | _ => None
  end.

(** The query that [resolve_handle_to_channel_id] sends. *)
Definition query (s : string) : string :=
  PyStr.last_item (PyStr.split "/" (PyStr.strip s)).

(** The profile that [fetch_channel_basic] builds. *)
Definition profile (cid : string) (it : channel_item) : channel :=
  {| channel_id := cid;
     channel_title := ci_title it;
     profile_pic := ci_thumbnail_high it;
     subscribers := match ci_subscriberCount it with
                    | Some n => n
                    | None => 0
                    end;
     uploads_playlist := ci_uploads it |}.

(** The report on a channel without videos. *)
Definition empty_report (ch : channel) (subscribers_fmt : string) : report :=
  {| r_channel_id := channel_id ch;
     r_title := channel_title ch;
     r_profile_pic := profile_pic ch;
     r_subscribers := subscribers ch;
     r_subscribers_fmt := subscribers_fmt;
     r_monetization := "UNKNOWN — YouTube does not show publicly";
     r_originality_score := 100;
     r_originality_explanation := ["No reused-content signals detected."];
     r_originality_signals := OriginalityTerms.no_videos_signals;
     r_shorts_count := 0;
     r_videos_count := 0;
     r_videos_scanned := 0;
     r_total_shorts_views_lifetime := 0;
     r_total_long_views_lifetime := 0;
     r_total_shorts_views_lifetime_fmt := "0";
     r_total_long_views_lifetime_fmt := "0";
     r_shorts_30d_count := 0;
     r_videos_30d_count := 0;
     r_total_shorts_views_30d := 0;
     r_total_long_views_30d := 0;
     r_total_shorts_views_30d_fmt := "0";
     r_total_long_views_30d_fmt := "0";
     r_avg_short_duration_human := "N/A";
     r_avg_long_duration_human := "N/A" |}.

(** The reports among the analyses, in order. *)
Fixpoint reports_of (outs : list analysis) : list report :=
  match outs with
  | [] => []
  | Report r :: rest => r :: reports_of rest
  | AnalysisError _ :: rest => reports_of rest
  end.

(** The inputs whose analysis is an error, each with its message, in
    order. *)
Fixpoint errors_of (inputs : list (option string)) (outs : list analysis)
  : list (option string * string) :=
  match inputs, outs with
  | c :: cs, AnalysisError e :: rest => (c, e) :: errors_of cs rest
  | _ :: cs, Report _ :: rest => errors_of cs rest
  | _, _ => []
  end.

Section WithClock.

Variable fromisoformat : string -> option datetime.

(** The timestamp of the video parses to a time at or after the cutoff. *)
Definition recent (cut : Z) (v : video) : Prop :=
  exists dt, parse_published fromisoformat v = Some (Aware dt) /\ cut <= dt.

(** No timestamp of the list parses to a datetime without an offset. *)
Definition no_naive (videos_meta : list video) : Prop :=
  forall v, In v videos_meta ->
            forall t, parse_published fromisoformat v <> Some (Naive t).

(** The analyses of a batch run one after the other and each returns. *)
Inductive analysed (fuel : nat) (youtube : service) (clock : nat -> Z)
  : nat -> list (option string) -> trace -> list analysis -> trace -> Prop :=
| analysed_nil i t : analysed fuel youtube clock i [] t [] t
| analysed_cons i c rest t a t1 outs t' :
    analyze_channel_full fromisoformat fuel youtube (clock i) c t = (Ok a, t1) ->
    analysed fuel youtube clock (S i) rest t1 outs t' ->
    analysed fuel youtube clock i (c :: rest) t (a :: outs) t'.

End WithClock.

(** *** Sample data *)

(** The first of March 2024, 00:00 UTC, in microseconds. *)
Definition march_first : Z := 1709251200 * 1000000.

(** A parser that knows the two timestamps of the samples. *)
Definition sample_fromisoformat (s : string) : option datetime :=
  if String.eqb s "2024-03-01T00:00:00+00:00" then Some (Aware march_first)
  else if String.eqb s "2024-02-29T23:59:59+00:00"
       then Some (Aware (march_first - 1000000))
       else None.

Definition sample_now : Z := march_first + RECENT_DAYS * day.

Definition video_at (published : option string) (seconds : Z) : video :=
  {| video_id := Some "v"; title := "t"; description := "d";
     publishedAt := published; views := 1; duration_seconds := seconds |}.

Definition at_cutoff : video := video_at (Some "2024-03-01T00:00:00Z") 30.
Definition second_older : video := video_at (Some "2024-02-29T23:59:59Z") 30.
Definition unparsable : video := video_at (Some "yesterday") 600.

Definition sample_item : channel_item :=
  {| ci_title := Some "Valid channel";
     ci_thumbnail_high := None;
     ci_subscriberCount := Some 1500;
     ci_uploads := None |}.

(** A client that finds a channel for each of the two sample inputs; only
    the first channel has a profile, and it has no uploads playlist.
    [second] is what the profile request for the second channel gives. *)
Definition sample_service (second : api_result (list channel_item)) : service :=
  {| search_list := fun q =>
       if String.eqb q "UCvalid" then Returned [Some "UC-first"]
       else if String.eqb q "UCinvalid" then Returned [Some "UC-second"]
       else Returned [];
     channels_list := fun id =>
       if String.eqb id "UC-first" then Returned [sample_item]
       else if String.eqb id "UC-second" then second
       else Returned [];
     playlistItems_list := fun _ _ => Returned ([], None);
     videos_list := fun _ => Returned [] |}.

Definition sample_report : report :=
  empty_report (profile "UC-first" sample_item) "1.5K".

(** A client whose search answers the empty query with a channel. *)
Definition eager_service : service :=
  {| search_list := fun _ => Returned [Some "UC-first"];
     channels_list := fun _ => Returned [sample_item];
     playlistItems_list := fun _ _ => Returned ([], None);
     videos_list := fun _ => Returned [] |}.

(** What the API gives for a live broadcast: a duration of no day. *)
Definition live_item : video_item :=
  {| vi_id := Some "live";
     vi_title := "Live now";
     vi_description := None;
     vi_publishedAt := Some "2024-03-01T00:00:00Z";
     vi_viewCount := 12;
     vi_duration := "P0D" |}.

(** The record that [fetch_videos_metadata] makes of it. *)
Definition live_video : video :=
  {| video_id := Some "live";
     title := "Live now";
     description := EmptyString;
     publishedAt := Some "2024-03-01T00:00:00Z";
     views := 12;
     duration_seconds := 0 |}.

End AnalyzerTerms.

Module CodecTerms.
Import PyStr DurationTerms.

(** A run of digits and the designator that closes it. *)
Definition token : Type := (string * ascii)%type.

Definition render_token (tk : token) : string :=
  (fst tk ++ String (snd tk) EmptyString)%string.

Fixpoint render_tokens (tks : list token) : string :=
  match tks with
  | [] => EmptyString
  | tk :: rest => (render_token tk ++ render_tokens rest)%string
  end.

(** A non-empty run of decimal digits closed by ['H'], ['M'] or ['S']. *)
Definition well_formed (tk : token) : bool :=
  truthy (fst tk) && all_chars isdecimal (fst tk)
  && match unit_seconds (snd tk) with Some _ => true | None => false end.

Definition token_seconds (tk : token) : Z :=
  decimal_value 0 (fst tk)
  * match unit_seconds (snd tk) with Some k => k | None => 0 end.

Definition tokens_seconds (tks : list token) : Z :=
  zsum (map token_seconds tks).

(** The character is not the ['P'] that opens a duration. *)
Definition not_P (c : ascii) : bool := negb (Ascii.eqb c "P").

(** Twelve minutes, one hour and seven seconds, in that order. *)
Definition sample_tokens : list token :=
  [("12", "M"%char); ("1", "H"%char); ("07", "S"%char)].

End CodecTerms.

Module ResolverTerms.
Import PyStr.

(** The character [c] does not occur in [s]. *)
Definition free_of (c : ascii) (s : string) : bool :=
  all_chars (fun a => negb (Ascii.eqb a c)) s.

(** The first rule of the parser applies: a raw channel ID. *)
Definition raw_id (s : string) : bool :=
  startswith "UC" s && (20 <? String.length s)%nat.

End ResolverTerms.

Module ApiTerms.

Definition is_search (c : call) : bool :=
  match c with CallSearch _ => true | _ => false end.

Definition is_channels (c : call) : bool :=
  match c with CallChannels _ => true | _ => false end.

Definition is_playlist (c : call) : bool :=
  match c with CallPlaylistItems _ _ => true | _ => false end.

Definition is_videos (c : call) : bool :=
  match c with CallVideos _ => true | _ => false end.

(** The video IDs that the pagination loop keeps of a page. *)
Definition kept (items : list (option string)) : list string :=
  flat_map (fun vid => match present vid with
                       | Some x => [x]
                       | None => []
                       end) items.

(** From the page token [tok] on the playlist has the pages [pages], the
    last of which names no next page; [calls] are the requests for them. *)
Inductive paged (youtube : service) (playlist : string)
  : option string -> list (list (option string)) -> list call -> Prop :=
| paged_last tok items next :
    playlistItems_list youtube playlist tok = Returned (items, next) ->
    present next = None ->
    paged youtube playlist tok [items] [CallPlaylistItems playlist tok]
| paged_more tok items next tok' pages calls :
    playlistItems_list youtube playlist tok = Returned (items, next) ->
    present next = Some tok' ->
    paged youtube playlist (Some tok') pages calls ->
    paged youtube playlist tok (items :: pages)
          (CallPlaylistItems playlist tok :: calls).

(** The batches of [fetch_videos_metadata]. *)
Definition batches (ids : list string) : list (list string) :=
  map (Api.batch_at ids) (Api.range_step (List.length ids) BATCH_SIZE).

(** The exceptions that an analysis can raise. *)
Definition analysis_exn (e : exn) : bool :=
  match e with
  | HttpError | ValueError | TypeError | OverflowError => true
  | _ => false
  end.

(** A playlist of two pages, with an item that has no video ID. *)
Definition two_pages : service :=
  {| search_list := fun _ => Returned [];
     channels_list := fun _ => Returned [];
     playlistItems_list := fun _ tok =>
       match tok with
       | None => Returned ([Some "a"; None; Some "b"], Some "next")
       | Some _ => Returned ([Some "c"; Some EmptyString], None)
       end;
     videos_list := fun _ => Returned [] |}.

End ApiTerms.

Module ScorerTerms.
Import Originality.

(** The notes of the explanation. *)
Definition note_duplicates : string := "Duplicate descriptions detected.".
Definition note_empty : string := "Many videos have empty descriptions.".
Definition note_shorts : string :=
  "Mostly shorts content — reused content risk.".
Definition note_uniform : string :=
  "Durations too uniform — templated content.".
Definition note_none : string := "No reused-content signals detected.".

(** A record with a given duration and a given description. *)
Definition plain_video (seconds : Z) (text : string) : video :=
  {| video_id := None; title := EmptyString; description := text;
     publishedAt := None; views := 0; duration_seconds := seconds |}.

End ScorerTerms.

Module ReportTerms.
Import Analyzer ApiTerms.

(** The test of the 30-day loop: the timestamp parses to a time with an
    offset, at or after the cutoff. *)
Definition recent_b (fromisoformat : string -> option datetime)
           (cut : Z) (v : video) : bool :=
  match parse_published fromisoformat v with
  | Some (Aware dt) => cut <=? dt
  | _ => false
  end.

(** A request for the pages of a playlist or for videos. *)
Definition is_listing (c : call) : bool := is_playlist c || is_videos c.

(** A search or a request for a channel. *)
Definition is_lookup (c : call) : bool := is_search c || is_channels c.

(** The two messages of an analysis that ends in an error. *)
Definition unresolved : string := "Could not resolve channel ID".
Definition not_found : string := "Channel not found".

(** A channel with an uploads playlist. *)
Definition one_item : channel_item :=
  {| ci_title := Some "One";
     ci_thumbnail_high := None;
     ci_subscriberCount := Some 12;
     ci_uploads := Some "UU-one" |}.

(** A client with that channel, one page of one video, and that video. *)
Definition one_video_service : service :=
  {| search_list := fun _ => Returned [Some "UC-one"];
     channels_list := fun _ => Returned [one_item];
     playlistItems_list := fun _ _ => Returned ([Some "vid1"], None);
     videos_list := fun _ =>
       Returned [{| vi_id := Some "vid1";
                    vi_title := "First";
                    vi_description := Some "About the first video";
                    vi_publishedAt := Some "2024-03-01T00:00:00Z";
                    vi_viewCount := 40;
                    vi_duration := "PT1M5S" |}] |}.

(** The record of that video. *)
Definition one_video : video :=
  {| video_id := Some "vid1";
     title := "First";
     description := "About the first video";
     publishedAt := Some "2024-03-01T00:00:00Z";
     views := 40;
     duration_seconds := 65 |}.

(** A raw channel ID, and the requests of the analysis of it with that
    client. *)
Definition one_id : string := "UCabcdefghijklmnopqrstuv".

Definition one_trace : trace :=
  [CallChannels one_id; CallPlaylistItems "UU-one" None; CallVideos "vid1"].

End ReportTerms.

Module FrequencyTerms.

(** The days between two uploads that the text names, for one to four
    recent uploads: 30, 15, 9 and 7. *)
Definition days_between (count : Z) : Z :=
  if count =? 3 then 9 else RECENT_DAYS / count.

(** Seven thirtieths of [count], in tenths, to the nearest. *)
Definition tenths (count : Z) : Z := (7 * count + 1) / 3.

(** The text for [count] recent uploads, in integers. *)
Definition frequency_text (count : Z) : string :=
  if count =? 0 then "Rarely uploads"
  else if count <=? 4 then
    ("1 upload every " ++ PyStr.of_int (days_between count) ++ " days")%string
  else
    (PyStr.of_int (tenths count / 10) ++ "."
     ++ PyStr.of_int (tenths count mod 10) ++ " uploads/week")%string.

Definition agrees (count : Z) : bool :=
  match Frequency.freq count with
  | Ok s => String.eqb s (frequency_text count)
  | _ => false
  end.

(** [freq] gives the text in integers for every count up to [n]. *)
Definition agrees_up_to (n : Z) : bool :=
  forallb agrees (map Z.of_nat (seq 0 (S (Z.to_nat n)))).

End FrequencyTerms.

Module PreviewTerms.
Import Preview ApiTerms AnalyzerTerms.

(** The response of the route is one of its four kinds. *)
Definition is_response (r : preview_response) : bool :=
  match r with
  | PreviewOk _ _ _ _ _ => true
  | PreviewFailure status error =>
      (status =? 400) && String.eqb error "Invalid request"
      || (status =? 404) && String.eqb error "Channel not found"
      || (status =? 500) && String.eqb error "Server error"
  end.

(** What the route answers once the channel ID is known. *)
Definition answer (youtube : service) (cid : string)
  : outcome preview_response :=
  match channels_list youtube cid with
  | Failed => Ok (PreviewFailure 500 "Server error")
  | Returned [] => Ok (PreviewFailure 404 "Channel not found")
  | Returned (it :: _) =>
      match ShortNumber.short_number (subscribers (profile cid it)) with
      | Ok fmt =>
          Ok (PreviewOk cid (ci_title it) (ci_thumbnail_high it)
                        (subscribers (profile cid it)) fmt)
      | Raise _ => Ok (PreviewFailure 500 "Server error")
      | Beyond l => Beyond l
      end
  end.

End PreviewTerms.

Module BatchTerms.
Import ApiTerms.

(** The number of requests of one kind. *)
Definition count_calls (p : call -> bool) (calls : list call) : nat :=
  List.length (filter p calls).

(** Seven times the same name. *)
Definition seven_inputs : list (option string) := repeat (Some "nobody") 7.

End BatchTerms.

(* ================================================================== *)
(** * Properties                                                        *)
(* ================================================================== *)

(** ** Strings *)

Module PyStrFacts.
Import PyStr.

Lemma rev_onto_empty s acc :
  rev_onto s acc = EmptyString -> s = EmptyString /\ acc = EmptyString.
Proof.
  revert acc. induction s as [|c s IH]; intros acc H; simpl in H.
  - now split.
  - apply IH in H. destruct H as [_ H]. discriminate H.
Qed.

Lemma all_chars_rev_onto p s acc :
  all_chars p (rev_onto s acc) = all_chars p s && all_chars p acc.
Proof.
  revert acc. induction s as [|c s IH]; intros acc; simpl.
  - reflexivity.
  - rewrite IH. simpl. destruct (p c), (all_chars p s); reflexivity.
Qed.

Lemma all_chars_rev p s : all_chars p (rev s) = all_chars p s.
Proof. unfold rev. rewrite all_chars_rev_onto. simpl. apply andb_true_r. Qed.

Lemma lstrip_by_empty p s :
  lstrip_by p s = EmptyString <-> all_chars p s = true.
Proof.
  induction s as [|c s IH]; simpl.
  - tauto.
  - destruct (p c); simpl.
    + exact IH.
    + split; discriminate.
Qed.

Lemma rstrip_by_empty p s :
  rstrip_by p s = EmptyString <-> all_chars p s = true.
Proof.
  unfold rstrip_by. split.
  - intros H. apply rev_onto_empty in H. destruct H as [H _].
    apply lstrip_by_empty in H. now rewrite all_chars_rev in H.
  - intros H. rewrite <- all_chars_rev in H.
    apply lstrip_by_empty in H. now rewrite H.
Qed.

(** What [lstrip_by] leaves is empty or starts with a character that is
    kept. *)
Lemma lstrip_by_head p s :
  all_chars p (lstrip_by p s) = true -> lstrip_by p s = EmptyString.
Proof.
  induction s as [|c s IH]; simpl; [reflexivity|].
  destruct (p c) eqn:E; [exact IH|].
  simpl. rewrite E. discriminate.
Qed.

(** [s.strip()] is empty exactly when [s] is made of whitespace. *)
Lemma strip_empty_iff s :
  strip s = EmptyString <-> all_chars isspace s = true.
Proof.
  unfold strip. rewrite rstrip_by_empty. split.
  - intros H. apply lstrip_by_head in H. now apply lstrip_by_empty.
  - intros H. apply lstrip_by_empty in H. now rewrite H.
Qed.

Lemma truthy_false s : truthy s = false <-> s = EmptyString.
Proof. destruct s; simpl; split; congruence. Qed.

Lemma split_from_nonempty sep skip s : split_from sep skip s <> [].
Proof.
  revert skip. induction s as [|c s IH]; intros skip; cbn [split_from].
  - discriminate.
  - destruct skip as [|k]; [|apply IH].
    destruct (String.prefix sep (String c s)); [discriminate|].
    destruct (split_from sep 0 s); discriminate.
Qed.

(** Where the separator occurs, [split] gives at least two pieces, so
    that [s.split(sep)[1]] is in range. *)
Lemma split_contains sep s :
  sep <> EmptyString ->
  contains sep s = true -> (2 <= List.length (split sep s))%nat.
Proof.
  intros Hsep. unfold split. induction s as [|c s IH]; intros H.
  - destruct sep; [congruence|discriminate H].
  - cbn [contains] in H. cbn [split_from].
    destruct (String.prefix sep (String c s)) eqn:E.
    + pose proof (split_from_nonempty sep (Nat.pred (String.length sep)) s) as N.
      destruct (split_from sep (Nat.pred (String.length sep)) s);
        [congruence|simpl; lia].
    + simpl in H. specialize (IH H).
      destruct (split_from sep 0 s); simpl in *; lia.
Qed.

End PyStrFacts.

(** ** The identifier parser *)

Module ResolverFacts.
Import PyStr Resolver.

(** The three subscripts of the [/channel/] branch are in range. *)
Lemma channel_branch_in_range s :
  contains "/channel/" s = true ->
  (1 < List.length (split "/channel/" s))%nat
  /\ (0 < List.length (split "/" (item (split "/channel/" s) 1)))%nat
  /\ (0 < List.length
            (split "?" (item (split "/" (item (split "/channel/" s) 1)) 0)))%nat.
Proof.
  intros H. split; [|split].
  - apply PyStrFacts.split_contains in H; [lia|discriminate].
  - unfold split.
    pose proof (PyStrFacts.split_from_nonempty "/" 0
                  (item (split_from "/channel/" 0 s) 1)) as N.
    destruct (split_from "/" 0 (item (split_from "/channel/" 0 s) 1));
      [congruence|simpl; lia].
  - unfold split.
    match goal with |- (0 < List.length ?l)%nat =>
      pose proof (PyStrFacts.split_from_nonempty "?" 0
        (item (split_from "/" 0 (item (split_from "/channel/" 0 s) 1)) 0)) as N;
      destruct l; [congruence|simpl; lia]
    end.
Qed.


End ResolverFacts.

(** ** The duration codec *)

Module DurationFacts.
Import PyStr Duration DurationTerms.

Lemma all_chars_app p s1 s2 :
  all_chars p (s1 ++ s2)%string = all_chars p s1 && all_chars p s2.
Proof.
  induction s1 as [|c s1 IH]; simpl; [reflexivity|].
  rewrite IH. apply andb_assoc.
Qed.

Lemma all_chars_replace_from p old skip s :
  all_chars p s = true ->
  all_chars p (replace_from old EmptyString skip s) = true.
Proof.
  revert skip. induction s as [|c s IH]; intros skip H; cbn [replace_from].
  - reflexivity.
  - simpl in H. apply andb_true_iff in H. destruct H as [Hc Hs].
    destruct skip as [|k]; [|now apply IH].
    destruct (String.prefix old (String c s)).
    + simpl. now apply IH.
    + simpl. rewrite Hc. now apply IH.
Qed.

Lemma isdecimal_code c : isdecimal c = true -> 0 <= code c - 48.
Proof.
  unfold isdecimal, in_range. intros H.
  apply andb_true_iff in H. destruct H as [H _].
  apply Z.leb_le in H. lia.
Qed.

Lemma decimal_value_nonneg s :
  forall acc, all_chars isdecimal s = true -> 0 <= acc ->
              0 <= decimal_value acc s.
Proof.
  induction s as [|c s IH]; intros acc H Hacc; cbn [decimal_value].
  - exact Hacc.
  - cbn [all_chars] in H. apply andb_true_iff in H. destruct H as [Hc Hs].
    apply IH; [exact Hs|]. apply isdecimal_code in Hc. lia.
Qed.

(** With decimal digits only, the loop does not raise and keeps the sum
    non-negative. *)
Lemma scan_total dur :
  forall num sec,
    decimal_digits_only dur = true ->
    all_chars isdecimal num = true ->
    0 <= sec ->
    exists n, scan dur num sec = Ok n /\ 0 <= n.
Proof.
  unfold decimal_digits_only.
  induction dur as [|ch rest IH]; intros num sec Hd Hn Hs; cbn [scan].
  - now exists sec.
  - simpl in Hd. apply andb_true_iff in Hd. destruct Hd as [Hch Hrest].
    destruct (isdigit ch) eqn:Edig.
    + simpl in Hch. apply IH; auto.
      rewrite all_chars_app, Hn. simpl. now rewrite Hch.
    + assert (Hv : 0 <= decimal_value 0 num)
        by (apply decimal_value_nonneg; [exact Hn|lia]).
      destruct (negb (truthy num)); [now apply IH|].
      unfold int_of_digits. rewrite Hn. cbn [obind].
      destruct (Ascii.eqb ch "H"); [apply IH; auto; lia|].
      destruct (Ascii.eqb ch "M"); [apply IH; auto; lia|].
      destruct (Ascii.eqb ch "S"); [apply IH; auto; lia|].
      now apply IH.
Qed.

(** A run of decimal digits closed by a unit adds its value, in seconds,
    to the sum and empties the buffer. *)
Lemma scan_unit ds :
  forall num ch k rest sec,
    all_chars isdecimal num = true ->
    all_chars isdecimal ds = true ->
    truthy (num ++ ds) = true ->
    isdigit ch = false ->
    unit_seconds ch = Some k ->
    scan (ds ++ String ch rest) num sec
    = scan rest EmptyString (sec + decimal_value 0 (num ++ ds) * k).
Proof.
  induction ds as [|d ds IH]; intros num ch k rest sec Hn Hd Ht Hch Hk.
  - cbn [append scan]. rewrite Hch.
    assert (E : (num ++ EmptyString)%string = num)
      by (clear; induction num; simpl; congruence).
    rewrite E in *. rewrite Ht. cbn [negb].
    unfold int_of_digits. rewrite Hn. cbn [obind].
    unfold unit_seconds in Hk.
    destruct (Ascii.eqb ch "H"); [injection Hk as <-; reflexivity|].
    destruct (Ascii.eqb ch "M"); [injection Hk as <-; reflexivity|].
    destruct (Ascii.eqb ch "S"); [injection Hk as <-|discriminate].
    now rewrite Z.mul_1_r.
  - cbn [append scan]. simpl in Hd. apply andb_true_iff in Hd.
    destruct Hd as [Hd Hds].
    assert (Edig : isdigit d = true) by (unfold isdigit; now rewrite Hd).
    rewrite Edig.
    assert (E : ((num ++ String d EmptyString) ++ ds)%string
                = (num ++ String d ds)%string)
      by (clear; induction num; simpl; congruence).
    rewrite (IH (num ++ String d EmptyString)%string ch k rest sec); auto.
    + now rewrite E.
    + rewrite all_chars_app, Hn. simpl. now rewrite Hd.
    + now rewrite E.
Qed.

(** A run of digits closed by a character that is neither a digit nor a
    unit is dropped. *)
Lemma scan_other ds :
  forall num ch rest sec,
    all_chars isdigit ds = true ->
    isdigit ch = false ->
    unit_seconds ch = None ->
    scan (ds ++ String ch rest) num sec = scan rest EmptyString sec.
Proof.
  induction ds as [|d ds IH]; intros num ch rest sec Hd Hch Hk.
  - cbn [append scan]. rewrite Hch.
    unfold unit_seconds in Hk.
    destruct num as [|c num]; cbn [truthy negb].
    +
      reflexivity.
    + destruct (Ascii.eqb ch "H"); [discriminate|].
      destruct (Ascii.eqb ch "M"); [discriminate|].
      destruct (Ascii.eqb ch "S"); [discriminate|reflexivity].
  - cbn [append scan]. simpl in Hd. apply andb_true_iff in Hd.
    destruct Hd as [Hd Hds]. rewrite Hd. now apply IH.
Qed.

(** A character that is not a digit, met with an empty buffer, is
    skipped. *)
Lemma scan_skip ch rest sec :
  isdigit ch = false ->
  scan (String ch rest) EmptyString sec = scan rest EmptyString sec.
Proof. intros H. cbn [scan]. now rewrite H. Qed.

Lemma parse_is_scan dur :
  parse_iso8601_duration_to_seconds dur
  = scan (replace "PT" EmptyString dur) EmptyString 0.
Proof.
  unfold parse_iso8601_duration_to_seconds.
  destruct dur; reflexivity.
Qed.




End DurationFacts.

(** ** The short-number formatter *)

Module ShortNumberFacts.
Import ShortNumber ShortNumberTerms.

Lemma scaled_succ value k :
  scaled (Float.div value (Float.nearest 1000)) k = scaled value (S k).
Proof.
  induction k as [|k IH]; [reflexivity|].
  cbn [scaled]. now rewrite IH.
Qed.

(** The loop stops at the first unit at which the magnitude is below
    1000. *)
Lemma scale_first us :
  forall value k unit,
    nth_error us k = Some unit ->
    (forall j, (j < k)%nat -> below_1000 (scaled value j) = false) ->
    below_1000 (scaled value k) = true ->
    scale us value
    = if String.eqb unit EmptyString
      then let* i := Float.to_int (scaled value k) in Ok (PyStr.of_int i)
      else with_unit (digits (scaled value k)) unit.
Proof.
  induction us as [|u us IH]; intros value k unit Hk Hlt Hk1.
  - destruct k; discriminate Hk.
  - destruct k as [|k].
    + injection Hk as <-. cbn [scale scaled] in *.
      unfold below_1000 in Hk1. rewrite Hk1.
      unfold with_unit, digits.
      destruct (String.eqb u EmptyString); [reflexivity|].
      destruct (Float.geb value (Float.nearest 100)); [|reflexivity].
      destruct (Float.round_to_int value); reflexivity.
    + cbn [scale]. cbn [nth_error] in Hk.
      pose proof (Hlt O (Nat.lt_0_succ k)) as H0.
      unfold below_1000 in H0. cbn [scaled] in H0. rewrite H0.
      rewrite (IH _ k unit Hk).
      * now rewrite scaled_succ.
      * intros j Hj. rewrite scaled_succ. apply Hlt. lia.
      * now rewrite scaled_succ.
Qed.




End ShortNumberFacts.

(** ** The originality engine *)

Module OriginalityFacts.
Import Originality OriginalityTerms.
Local Open Scope R_scope.

Lemma count_if_bounds {A} (p : A -> bool) (l : list A) :
  (0 <= count_if p l <= zlen l)%Z.
Proof.
  unfold count_if, zlen. pose proof (filter_length_le p l). lia.
Qed.

Lemma zlen_map {A B} (f : A -> B) (l : list A) : zlen (map f l) = zlen l.
Proof. unfold zlen. now rewrite length_map. Qed.

Lemma over_unit k N :
  (0 <= k <= N)%Z -> 0 <= over (IZR k) N <= 1.
Proof.
  intros [H0 H1]. unfold over.
  assert (Hd : 1 <= IZR (Z.max 1 N)) by (apply IZR_le; lia).
  assert (Hk0 : 0 <= IZR k) by (apply IZR_le; exact H0).
  assert (Hk1 : IZR k <= IZR (Z.max 1 N)) by (apply IZR_le; lia).
  set (d := IZR (Z.max 1 N)) in *.
  assert (Hi : 0 < / d) by (apply Rinv_0_lt_compat; lra).
  assert (E : d * / d = 1) by (apply Rinv_r; lra).
  unfold Rdiv. split; nra.
Qed.

Lemma over_nonneg k N : 0 <= k -> 0 <= over k N.
Proof.
  intros H. unfold over.
  assert (Hd : 1 <= IZR (Z.max 1 N)) by (apply IZR_le; lia).
  assert (Hi : 0 < / IZR (Z.max 1 N)) by (apply Rinv_0_lt_compat; lra).
  unfold Rdiv. nra.
Qed.

Lemma zsum_nonneg l : Forall (fun x => (0 <= x)%Z) l -> (0 <= zsum l)%Z.
Proof.
  induction 1 as [|x l Hx _ IH]; simpl; lia.
Qed.

Lemma clamp_range x : 0 <= clamp x <= 100.
Proof.
  unfold clamp. split.
  - apply Rmax_l.
  - apply Rmax_lub; [lra|apply Rmin_l].
Qed.

(** On a non-negative number [int] is the integer part. *)
Lemma py_int_nonneg x :
  0 <= x -> IZR (py_int x) <= x < IZR (py_int x) + 1.
Proof.
  intros H. unfold py_int.
  destruct (Rlt_dec x 0); [lra|].
  destruct (base_Int_part x). lra.
Qed.

Lemma py_int_range x : 0 <= x <= 100 -> (0 <= py_int x <= 100)%Z.
Proof.
  intros [H0 H1]. destruct (py_int_nonneg x H0) as [Ha Hb]. split.
  - apply Z.lt_succ_r. apply lt_IZR. rewrite succ_IZR. lra.
  - apply le_IZR. lra.
Qed.



Lemma py_int_100 : py_int (clamp 100) = 100%Z.
Proof.
  assert (E : clamp 100 = 100).
  { unfold clamp. rewrite Rmin_left by lra. apply Rmax_right. lra. }
  rewrite E. unfold py_int. destruct (Rlt_dec 100 0); [lra|].
  symmetry. apply Int_part_spec. lra.
Qed.

Lemma originality_nil :
  metadata_originality_analysis []
  = Ok (100%Z, ["No reused-content signals detected."], no_videos_signals).
Proof.
  unfold metadata_originality_analysis.
  cbn [map zlen List.length count_if filter zsum fold_right rsum Z.of_nat].
  assert (E0 : over 0 0 = 0) by (unfold over; simpl; lra).
  rewrite !E0. rewrite sqrt_0.
  destruct (Req_dec_T (0 + 1) 0) as [E|_]; [lra|].
  replace (1 - 0 / (0 + 1)) with 1 by lra.
  replace (100 - 20 * (0 + 0.5 * 0) - 15 * 0 - 10 * (1 - 1)) with 100 by lra.
  rewrite py_int_100. unfold explain, no_videos_signals.
  cbn [desc_dup_ratio empty_desc_ratio shorts_ratio dur_uniformity].
  destruct (Rgt_dec 0 0.2); [lra|].
  destruct (Rgt_dec 0 0.4); [lra|].
  destruct (Rgt_dec 0 0.85); [lra|].
  destruct (Rlt_dec 1 0.3); [lra|].
  reflexivity.
Qed.

(** C3, as the source has it.  On an empty list the three ratios are 0,
    each a count of 0 over the floor 1 of the denominator; the duration
    uniformity is 1, and the score is 100. *)
Theorem originality_of_no_videos :
  exists explanation sig,
    metadata_originality_analysis [] = Ok (100%Z, explanation, sig)
    /\ desc_dup_ratio sig = 0
    /\ empty_desc_ratio sig = 0
    /\ shorts_ratio sig = 0
    /\ dur_uniformity sig = 1.
Proof.
  eexists _, _. split; [apply originality_nil|].
  repeat split.
Qed.

(** C3 as the specification states it fails on the source: the duration
    uniformity of an empty list is not 0. *)
Lemma originality_of_no_videos_counterexample :
  ~ (exists score explanation sig,
        metadata_originality_analysis [] = Ok (score, explanation, sig)
        /\ desc_dup_ratio sig = 0
        /\ empty_desc_ratio sig = 0
        /\ shorts_ratio sig = 0
        /\ dur_uniformity sig = 0).
Proof.
  intros (score & explanation & sig & H & _ & _ & _ & Hu).
  rewrite originality_nil in H. injection H as _ _ <-.
  simpl in Hu. lra.
Qed.

End OriginalityFacts.

(** ** The channel analyzer *)

Module AnalyzerFacts.
Import Analyzer AnalyzerTerms.

Section WithClock.

Variable fromisoformat : string -> option datetime.

Local Abbreviation parse_published := (parse_published fromisoformat).
Local Abbreviation recent_split := (recent_split fromisoformat).
Local Abbreviation build_report := (build_report fromisoformat).
Local Abbreviation recent := (recent fromisoformat).
Local Abbreviation no_naive := (no_naive fromisoformat).

(** *** The lifetime split *)

Lemma short_or_long v : is_long v = negb (is_short v).
Proof.
  unfold is_long, is_short.
  destruct (Z.leb_spec (duration_seconds v) SHORTS_MAX_SECONDS);
    destruct (Z.ltb_spec SHORTS_MAX_SECONDS (duration_seconds v));
    simpl; lia || reflexivity.
Qed.

Lemma split_lengths (videos_meta : list video) :
  zlen (filter is_short videos_meta) + zlen (filter is_long videos_meta)
  = zlen videos_meta.
Proof.
  unfold zlen. induction videos_meta as [|v l IH]; [reflexivity|].
  cbn [filter]. pose proof (short_or_long v) as E.
  destruct (is_short v), (is_long v); try discriminate E;
    cbn [List.length]; lia.
Qed.

Lemma split_covers (videos_meta : list video) v :
  In v videos_meta ->
  In v (filter is_short videos_meta ++ filter is_long videos_meta).
Proof.
  intros H. apply in_or_app.
  destruct (is_short v) eqn:E.
  - left. apply filter_In. now split.
  - right. apply filter_In. split; [exact H|].
    rewrite short_or_long, E. reflexivity.
Qed.

(** *** The 30-day loop *)

Lemma recent_split_spec cut videos_meta :
  no_naive videos_meta ->
  forall shorts_30 longs_30,
  exists s l,
    recent_split cut videos_meta shorts_30 longs_30 = Ok (s, l)
    /\ (forall v, In v s <->
                  In v shorts_30
                  \/ (In v videos_meta /\ recent cut v /\ is_short v = true))
    /\ (forall v, In v l <->
                  In v longs_30
                  \/ (In v videos_meta /\ recent cut v /\ is_short v = false)).
Proof.
  induction videos_meta as [|x rest IH]; intros Hn shorts_30 longs_30.
  - exists shorts_30, longs_30. split; [reflexivity|].
    split; intros v; simpl; tauto.
  - assert (Hrest : no_naive rest)
      by (intros v Hv; apply Hn; now right).
    cbn [Analyzer.recent_split].
    destruct (parse_published x) as [[t|dt]|] eqn:E.
    + exfalso. apply (Hn x (or_introl eq_refl) t E).
    + destruct (Z.leb_spec cut dt) as [Hle|Hlt].
      * assert (Rx : recent cut x) by (now exists dt).
        destruct (is_short x) eqn:Es.
        -- destruct (IH Hrest (shorts_30 ++ [x])%list longs_30)
             as (s & l & -> & Hs & Hl).
           exists s, l. split; [reflexivity|].
           split; intros v; rewrite ?Hs, ?Hl, ?in_app_iff; simpl;
             intuition (subst; auto; congruence).
        -- destruct (IH Hrest shorts_30 (longs_30 ++ [x])%list)
             as (s & l & -> & Hs & Hl).
           exists s, l. split; [reflexivity|].
           split; intros v; rewrite ?Hs, ?Hl, ?in_app_iff; simpl;
             intuition (subst; auto; congruence).
      * assert (Rx : ~ recent cut x).
        { intros (dt' & E' & Hle). rewrite E in E'. injection E' as <-. lia. }
        destruct (IH Hrest shorts_30 longs_30) as (s & l & -> & Hs & Hl).
        exists s, l. split; [reflexivity|].
        split; intros v; rewrite ?Hs, ?Hl; simpl;
          intuition (subst; auto; contradiction).
    + assert (Rx : ~ recent cut x).
      { intros (dt' & E' & _). congruence. }
      destruct (IH Hrest shorts_30 longs_30) as (s & l & -> & Hs & Hl).
      exists s, l. split; [reflexivity|].
      split; intros v; rewrite ?Hs, ?Hl; simpl;
        intuition (subst; auto; contradiction).
Qed.


(** *** The report *)

Lemma build_report_fields ch videos_meta now r :
  build_report ch videos_meta now = Ok r ->
  r_shorts_count r = zlen (filter is_short videos_meta)
  /\ r_videos_count r = zlen (filter is_long videos_meta)
  /\ r_videos_scanned r = zlen videos_meta
  /\ r_avg_short_duration_human r
     = avg_human (avg_duration (filter is_short videos_meta))
  /\ r_avg_long_duration_human r
     = avg_human (avg_duration (filter is_long videos_meta))
  /\ exists shorts_30 longs_30,
      recent_split (cutoff now) videos_meta [] [] = Ok (shorts_30, longs_30)
      /\ r_shorts_30d_count r = zlen shorts_30
      /\ r_videos_30d_count r = zlen longs_30.
Proof.
  unfold Analyzer.build_report.
  destruct (recent_split (cutoff now) videos_meta [] [])
    as [[s l]|e|b]; cbn [obind]; try discriminate.
  destruct (Originality.metadata_originality_analysis videos_meta)
    as [o|e|b]; cbn [obind]; try discriminate.
  destruct (ShortNumber.short_number (subscribers ch));
    cbn [obind]; try discriminate.
  destruct (ShortNumber.short_number (total_views (filter is_short videos_meta)));
    cbn [obind]; try discriminate.
  destruct (ShortNumber.short_number (total_views (filter is_long videos_meta)));
    cbn [obind]; try discriminate.
  destruct (ShortNumber.short_number (total_views (fst (s, l))));
    cbn [obind]; try discriminate.
  destruct (ShortNumber.short_number (total_views (snd (s, l))));
    cbn [obind]; try discriminate.
  intros H. injection H as <-. cbn.
  repeat split. exists s, l. repeat split.
Qed.

(** *** Running an analysis *)

Local Abbreviation analyze_resolved := (analyze_resolved fromisoformat).
Local Abbreviation analyze_channel_full := (analyze_channel_full fromisoformat).
Local Abbreviation analyze_each := (analyze_each fromisoformat).
Local Abbreviation api_analyze := (api_analyze fromisoformat).
Local Abbreviation analysed := (analysed fromisoformat).

Lemma resolve_handle_some youtube s t :
  Api.resolve_handle_to_channel_id youtube (Some s) t
  = (Ok (first_item (search_list youtube (query s))),
     (t ++ [CallSearch (query s)])%list).
Proof.
  unfold Api.resolve_handle_to_channel_id, try_except, bind, request, query.
  destruct (search_list youtube _) as [[|[cid|] more]|]; reflexivity.
Qed.

Lemma resolve_handle_none youtube t :
  Api.resolve_handle_to_channel_id youtube None t = (Ok None, t).
Proof. reflexivity. Qed.

Lemma analyze_resolved_absent fuel youtube now cid t :
  channels_list youtube cid = Returned [] ->
  analyze_resolved fuel youtube now cid t
  = (Ok (AnalysisError "Channel not found"), (t ++ [CallChannels cid])%list).
Proof.
  intros H. unfold Analyzer.analyze_resolved, Api.fetch_channel_basic,
              bind, request.
  now rewrite H.
Qed.

Lemma analyze_resolved_failed fuel youtube now cid t :
  channels_list youtube cid = Failed ->
  analyze_resolved fuel youtube now cid t
  = (Raise HttpError, (t ++ [CallChannels cid])%list).
Proof.
  intros H. unfold Analyzer.analyze_resolved, Api.fetch_channel_basic,
              bind, request.
  now rewrite H.
Qed.

Lemma analyze_resolved_no_uploads fuel youtube now cid t it more r :
  channels_list youtube cid = Returned (it :: more) ->
  present (ci_uploads it) = None ->
  build_report (profile cid it) [] now = Ok r ->
  analyze_resolved fuel youtube now cid t
  = (Ok (Report r), (t ++ [CallChannels cid])%list).
Proof.
  intros H Hu Hr. unfold Analyzer.analyze_resolved, Api.fetch_channel_basic,
                  bind, request.
  rewrite H. cbn [ret uploads_playlist]. rewrite Hu.
  unfold Api.fetch_videos_metadata, lift, ret.
  cbn [List.length Api.range_step Api.fetch_batches map].
  change (Api.range_step 0 BATCH_SIZE) with (@nil nat).
  cbn [map Api.fetch_batches ret].
  fold (profile cid it). now rewrite Hr.
Qed.

Lemma analyze_resolved_report fuel youtube now cid t r t' :
  analyze_resolved fuel youtube now cid t = (Ok (Report r), t') ->
  exists ch videos_meta, build_report ch videos_meta now = Ok r.
Proof.
  unfold Analyzer.analyze_resolved, bind.
  destruct (Api.fetch_channel_basic youtube cid t) as [[[ch|]|e|b] t1];
    try discriminate.
  destruct (match present (uploads_playlist ch) with
            | Some uploads =>
                Api.fetch_all_video_ids_from_playlist fuel youtube uploads
            | None => ret []
            end t1) as [[ids|e|b] t2]; try discriminate.
  destruct (Api.fetch_videos_metadata youtube ids t2) as [[vm|e|b] t3];
    try discriminate.
  unfold lift, ret.
  destruct (build_report ch vm now) as [r'|e|b] eqn:E; try discriminate.
  intros H. injection H as <- _. eauto.
Qed.

(** An input from which no channel ID is read goes through the search. *)
Lemma analyze_via_search fuel youtube now inp canonical cid0 s t :
  Resolver.extract_channel_from_input inp = (cid0, canonical) ->
  present cid0 = None ->
  or_else canonical inp = Some s ->
  analyze_channel_full fuel youtube now inp t
  = match present (first_item (search_list youtube (query s))) with
    | None => (Ok (AnalysisError "Could not resolve channel ID"),
               (t ++ [CallSearch (query s)])%list)
    | Some cid =>
        analyze_resolved fuel youtube now cid (t ++ [CallSearch (query s)])%list
    end.
Proof.
  intros He Hc Hs. unfold Analyzer.analyze_channel_full.
  rewrite He, Hc, Hs. unfold bind at 1. rewrite resolve_handle_some.
  destruct (present (first_item (search_list youtube (query s))));
    reflexivity.
Qed.

Lemma analyze_report fuel youtube now inp t r t' :
  analyze_channel_full fuel youtube now inp t = (Ok (Report r), t') ->
  exists ch videos_meta, build_report ch videos_meta now = Ok r.
Proof.
  unfold Analyzer.analyze_channel_full.
  destruct (Resolver.extract_channel_from_input inp) as [cid0 canonical].
  destruct (present cid0) as [cid|].
  - apply analyze_resolved_report.
  - unfold bind at 1.
    destruct (Api.resolve_handle_to_channel_id youtube
                (or_else canonical inp) t) as [[cid|e|b] t1];
      try discriminate.
    destruct (present cid) as [cid'|]; [|discriminate].
    apply analyze_resolved_report.
Qed.

(** C9.  The split by the threshold of 60 seconds is a partition: the
    numbers of shorts and of long videos add up to the number of videos
    scanned, which is the length of the list of metadata; this holds of the
    lists, of the report built from them, and of every report that an
    analysis returns. *)
Theorem shorts_and_longs_partition :
  (forall videos_meta,
      zlen (filter is_short videos_meta) + zlen (filter is_long videos_meta)
      = zlen videos_meta)
  /\ (forall ch videos_meta now r,
         build_report ch videos_meta now = Ok r ->
         r_shorts_count r + r_videos_count r = r_videos_scanned r
         /\ r_videos_scanned r = zlen videos_meta)
  /\ (forall fuel youtube now inp t r t',
         analyze_channel_full fuel youtube now inp t = (Ok (Report r), t') ->
         r_shorts_count r + r_videos_count r = r_videos_scanned r).
Proof.
  assert (P : forall ch videos_meta now r,
             build_report ch videos_meta now = Ok r ->
             r_shorts_count r + r_videos_count r = r_videos_scanned r
             /\ r_videos_scanned r = zlen videos_meta).
  { intros ch videos_meta now r H.
    destruct (build_report_fields ch videos_meta now r H)
      as (-> & -> & -> & _).
    split; [apply split_lengths|reflexivity]. }
  split; [exact split_lengths|]. split; [exact P|].
  intros fuel youtube now inp t r t' H.
  destruct (analyze_report fuel youtube now inp t r t' H) as (ch & vm & E).
  apply (P ch vm now r E).
Qed.

Lemma build_report_nil ch now fmt :
  ShortNumber.short_number (subscribers ch) = Ok fmt ->
  build_report ch [] now = Ok (empty_report ch fmt).
Proof.
  intros H. unfold Analyzer.build_report.
  cbn [filter Analyzer.recent_split obind fst snd].
  rewrite OriginalityFacts.originality_nil. cbn [obind].
  rewrite H. cbn [obind].
  change (total_views []) with 0.
  change (ShortNumber.short_number 0) with (@Ok string "0").
  cbn [obind]. reflexivity.
Qed.

(** *** The batch *)

Lemma analysed_length fuel youtube clock i inputs t outs t' :
  analysed fuel youtube clock i inputs t outs t' ->
  List.length outs = List.length inputs.
Proof. induction 1; simpl; congruence. Qed.

Lemma one_entry_each inputs :
  forall outs,
    List.length outs = List.length inputs ->
    (List.length (reports_of outs) + List.length (errors_of inputs outs)
     = List.length inputs)%nat.
Proof.
  induction inputs as [|c cs IH]; intros [|[e|r] outs] H;
    try discriminate H; [reflexivity| |];
    injection H as H; specialize (IH outs H); simpl; lia.
Qed.

Lemma analyze_each_spec fuel youtube clock inputs :
  forall i rs es t rs' es' t',
    analyze_each fuel youtube clock i inputs rs es t = (Ok (rs', es'), t')
    <-> exists outs,
        analysed fuel youtube clock i inputs t outs t'
        /\ rs' = (rs ++ reports_of outs)%list
        /\ es' = (es ++ errors_of inputs outs)%list.
Proof.
  induction inputs as [|c rest IH]; intros i rs es t rs' es' t'.
  - cbn [Analyzer.analyze_each]. unfold ret. split.
    + intros H. injection H as <- <- <-. exists [].
      split; [constructor|]. now rewrite !app_nil_r.
    + intros (outs & H & -> & ->). inversion H; subst.
      now rewrite !app_nil_r.
  - cbn [Analyzer.analyze_each]. unfold bind at 1. split.
    + destruct (analyze_channel_full fuel youtube (clock i) c t)
        as [[[e|r]|e|b] t1] eqn:E; try discriminate; intros H;
        apply IH in H; destruct H as (outs & Ha & -> & ->).
      * exists (AnalysisError e :: outs).
        split; [econstructor; eauto|].
        cbn [reports_of errors_of]. now rewrite <- app_assoc.
      * exists (Report r :: outs).
        split; [econstructor; eauto|].
        cbn [reports_of errors_of]. now rewrite <- app_assoc.
    + intros (outs & Ha & -> & ->). inversion Ha; subst.
      match goal with H : analyze_channel_full _ _ _ _ _ = _ |- _ =>
        rewrite H end.
      destruct a as [e|r]; apply IH; exists outs0;
        (split; [assumption|]);
        cbn [reports_of errors_of]; now rewrite <- !app_assoc.
Qed.

Lemma analyze_each_raise fuel youtube clock pre :
  forall i c rest rs es t outs t1 e t2,
    analysed fuel youtube clock i pre t outs t1 ->
    analyze_channel_full fuel youtube (clock (i + List.length pre)%nat) c t1
    = (Raise e, t2) ->
    analyze_each fuel youtube clock i (pre ++ c :: rest) rs es t
    = (Raise e, t2).
Proof.
  induction pre as [|p pre IH]; intros i c rest rs es t outs t1 e t2 Ha Hr.
  - inversion Ha; subst. cbn [app Analyzer.analyze_each]. unfold bind.
    cbn [List.length] in Hr. rewrite Nat.add_0_r in Hr. now rewrite Hr.
  - inversion Ha; subst. cbn [app Analyzer.analyze_each]. unfold bind at 1.
    match goal with H : analyze_channel_full _ _ _ _ _ = _ |- _ =>
      rewrite H end.
    cbn [List.length] in Hr. rewrite Nat.add_succ_r in Hr.
    destruct a; eapply IH; eauto.
Qed.

Lemma analyze_each_run fuel youtube clock inputs t outs t' :
  analysed fuel youtube clock 0 inputs t outs t' ->
  analyze_each fuel youtube clock 0 inputs [] [] t
  = (Ok (reports_of outs, errors_of inputs outs), t').
Proof.
  intros H. apply analyze_each_spec. exists outs.
  split; [exact H|]. split; reflexivity.
Qed.

Lemma api_analyze_success fuel youtube clock inputs t rs es t' :
  api_analyze fuel youtube clock inputs t = (Ok (Success rs es), t')
  <-> exists outs,
      analysed fuel youtube clock 0 (firstn MAX_CHANNELS inputs) t outs t'
      /\ rs = reports_of outs
      /\ es = errors_of (firstn MAX_CHANNELS inputs) outs.
Proof.
  unfold Analyzer.api_analyze, try_except, bind. split.
  - destruct (analyze_each fuel youtube clock 0
                (firstn MAX_CHANNELS inputs) [] [] t)
      as [[[rs0 es0]|e|b] t0] eqn:E; try discriminate.
    apply analyze_each_spec in E. destruct E as (outs & Ha & -> & ->).
    cbn [ret fst snd app]. intros H. injection H as <- <- <-. eauto.
  - intros (outs & Ha & -> & ->).
    now rewrite (analyze_each_run _ _ _ _ _ _ _ Ha).
Qed.

Lemma api_analyze_raise fuel youtube clock inputs pre c rest t outs t1 e t2 :
  firstn MAX_CHANNELS inputs = (pre ++ c :: rest)%list ->
  analysed fuel youtube clock 0 pre t outs t1 ->
  analyze_channel_full fuel youtube (clock (List.length pre)) c t1
  = (Raise e, t2) ->
  api_analyze fuel youtube clock inputs t = (Ok ServerError, t2).
Proof.
  intros Hf Ha Hr. unfold Analyzer.api_analyze, try_except, bind.
  rewrite Hf.
  now rewrite (analyze_each_raise fuel youtube clock pre 0 c rest [] []
                 t outs t1 e t2 Ha Hr).
Qed.

(** The batch of the two sample inputs, when the first analysis returns a
    report and the profile of the channel found for the second is absent. *)
Lemma api_analyze_sample fuel youtube clock t r t1 cid2 :
  analyze_channel_full fuel youtube (clock 0%nat) (Some "UCvalid") t
  = (Ok (Report r), t1) ->
  present (first_item (search_list youtube "UCinvalid")) = Some cid2 ->
  channels_list youtube cid2 = Returned [] ->
  api_analyze fuel youtube clock [Some "UCvalid"; Some "UCinvalid"] t
  = (Ok (Success [r] [(Some "UCinvalid", "Channel not found")]),
     (t1 ++ [CallSearch "UCinvalid"; CallChannels cid2])%list).
Proof.
  intros H1 Hs Hc. apply api_analyze_success.
  exists [Report r; AnalysisError "Channel not found"].
  split; [|split; reflexivity].
  change (firstn MAX_CHANNELS [Some "UCvalid"; Some "UCinvalid"])
    with [Some "UCvalid"; Some "UCinvalid"].
  econstructor; [exact H1|]. econstructor; [|constructor].
  rewrite (analyze_via_search fuel youtube (clock 1%nat) (Some "UCinvalid")
             (Some "UCinvalid") None "UCinvalid" t1);
    try reflexivity.
  change (query "UCinvalid") with "UCinvalid".
  rewrite Hs. rewrite (analyze_resolved_absent _ _ _ _ _ Hc).
  now rewrite <- app_assoc.
Qed.

(** C2, as the source has it.  The response of the route is a success
    exactly when every analysis of the batch, cut to its first five inputs,
    returns; its results are then the reports and its errors the inputs
    whose analysis is an error, each with its message, both in the order of
    the batch, so that each analysed channel has exactly one entry and an
    error of one channel leaves the reports of the others as they are.
    When an analysis raises, the response is the server error and carries
    no entry.  For the batch of ["UCvalid"] and ["UCinvalid"], when the
    first analysis returns a report and the profile of the channel found
    for the second is absent, the response has that report alone as its
    results and one error, which names ["UCinvalid"]. *)
Theorem batch_entries fuel youtube clock :
  (forall inputs t rs es t',
      api_analyze fuel youtube clock inputs t = (Ok (Success rs es), t')
      <-> exists outs,
          analysed fuel youtube clock 0 (firstn MAX_CHANNELS inputs) t outs t'
          /\ rs = reports_of outs
          /\ es = errors_of (firstn MAX_CHANNELS inputs) outs)
  /\ (forall inputs t outs t',
         analysed fuel youtube clock 0 (firstn MAX_CHANNELS inputs) t outs t' ->
         (List.length (reports_of outs)
          + List.length (errors_of (firstn MAX_CHANNELS inputs) outs)
          = List.length (firstn MAX_CHANNELS inputs))%nat)
  /\ (forall inputs pre c rest t outs t1 e t2,
         firstn MAX_CHANNELS inputs = (pre ++ c :: rest)%list ->
         analysed fuel youtube clock 0 pre t outs t1 ->
         analyze_channel_full fuel youtube (clock (List.length pre)) c t1
         = (Raise e, t2) ->
         api_analyze fuel youtube clock inputs t = (Ok ServerError, t2))
  /\ (forall t r t1 cid2,
         analyze_channel_full fuel youtube (clock 0%nat) (Some "UCvalid") t
         = (Ok (Report r), t1) ->
         present (first_item (search_list youtube "UCinvalid")) = Some cid2 ->
         channels_list youtube cid2 = Returned [] ->
         api_analyze fuel youtube clock [Some "UCvalid"; Some "UCinvalid"] t
         = (Ok (Success [r] [(Some "UCinvalid", "Channel not found")]),
            (t1 ++ [CallSearch "UCinvalid"; CallChannels cid2])%list)).
Proof.
  split; [intros; apply api_analyze_success|].
  split.
  { intros inputs t outs t' H. apply one_entry_each.
    eapply analysed_length; eauto. }
  split.
  { intros. eapply api_analyze_raise; eauto. }
  intros. now apply api_analyze_sample.
Qed.

(** *** Blank inputs *)

Lemma extract_blank s :
  PyStr.strip s = EmptyString ->
  Resolver.extract_channel_from_input (Some s) = (None, None).
Proof.
  intros H. unfold Resolver.extract_channel_from_input.
  cbn [Resolver.or_empty]. now rewrite H.
Qed.

Lemma analyze_blank fuel youtube now s t :
  PyStr.strip s = EmptyString ->
  analyze_channel_full fuel youtube now (Some s) t
  = match present (first_item (search_list youtube EmptyString)) with
    | None => (Ok (AnalysisError "Could not resolve channel ID"),
               (t ++ [CallSearch EmptyString])%list)
    | Some cid =>
        analyze_resolved fuel youtube now cid (t ++ [CallSearch EmptyString])%list
    end.
Proof.
  intros H.
  rewrite (analyze_via_search fuel youtube now (Some s) None None s t
             (extract_blank s H) eq_refl eq_refl).
  unfold query. rewrite H. reflexivity.
Qed.

Lemma analyze_none fuel youtube now t :
  analyze_channel_full fuel youtube now None t
  = (Ok (AnalysisError "Could not resolve channel ID"), t).
Proof. reflexivity. Qed.

(** C8, as the source has it.  For an input that is empty or made of
    whitespace the parser gives neither an ID nor a hint, and the analysis
    then sends one search request, with the empty query.  When that search
    fails or gives no channel ID, the analysis ends in the resolution error
    with that one request made and no request for a channel, a playlist or
    videos; when the search gives an ID, the analysis goes on with it.  An
    absent input ends in the resolution error with no request made. *)
Theorem blank_input_analysis fuel youtube now :
  (forall s, PyStr.strip s = EmptyString ->
             Resolver.extract_channel_from_input (Some s) = (None, None))
  /\ (forall t,
         analyze_channel_full fuel youtube now None t
         = (Ok (AnalysisError "Could not resolve channel ID"), t))
  /\ (forall s t,
         PyStr.strip s = EmptyString ->
         present (first_item (search_list youtube EmptyString)) = None ->
         analyze_channel_full fuel youtube now (Some s) t
         = (Ok (AnalysisError "Could not resolve channel ID"),
            (t ++ [CallSearch EmptyString])%list))
  /\ (forall s t cid,
         PyStr.strip s = EmptyString ->
         present (first_item (search_list youtube EmptyString)) = Some cid ->
         analyze_channel_full fuel youtube now (Some s) t
         = analyze_resolved fuel youtube now cid
             (t ++ [CallSearch EmptyString])%list).
Proof.
  split; [exact extract_blank|].
  split; [apply analyze_none|].
  split.
  - intros s t H Hs. rewrite (analyze_blank _ _ _ _ _ H). now rewrite Hs.
  - intros s t cid H Hs. rewrite (analyze_blank _ _ _ _ _ H). now rewrite Hs.
Qed.

End WithClock.

(** *** Sample runs *)


Lemma sample_first_analysis second now t :
  analyze_channel_full sample_fromisoformat 1 (sample_service second) now
                       (Some "UCvalid") t
  = (Ok (Report sample_report),
     (t ++ [CallSearch "UCvalid"; CallChannels "UC-first"])%list).
Proof.
  rewrite (analyze_via_search sample_fromisoformat 1 (sample_service second)
             now (Some "UCvalid") (Some "UCvalid") None "UCvalid" t
             eq_refl eq_refl eq_refl).
  change (query "UCvalid") with "UCvalid".
  change (present (first_item (search_list (sample_service second) "UCvalid")))
    with (Some "UC-first").
  cbv iota beta.
  rewrite (analyze_resolved_no_uploads sample_fromisoformat 1
             (sample_service second) now "UC-first" _ sample_item []
             sample_report eq_refl eq_refl).
  - now rewrite <- app_assoc.
  - apply build_report_nil. reflexivity.
Qed.

Lemma batch_entries_witness :
  api_analyze sample_fromisoformat 1 (sample_service (Returned []))
              (fun _ => sample_now) [Some "UCvalid"; Some "UCinvalid"] []
  = (Ok (Success [sample_report] [(Some "UCinvalid", "Channel not found")]),
     [CallSearch "UCvalid"; CallChannels "UC-first";
      CallSearch "UCinvalid"; CallChannels "UC-second"]).
Proof.
  apply (proj2 (proj2 (proj2
           (batch_entries sample_fromisoformat 1 (sample_service (Returned []))
                          (fun _ => sample_now))))
           [] sample_report
           [CallSearch "UCvalid"; CallChannels "UC-first"] "UC-second").
  - apply sample_first_analysis.
  - reflexivity.
  - reflexivity.
Defined.

(** C2 as the specification states it fails on the source: when the
    profile request for the second channel fails, the response is the
    server error, and the report of the first channel, whose analysis
    returned, is not in it. *)
Lemma batch_entries_counterexample :
  analyze_channel_full sample_fromisoformat 1 (sample_service Failed)
                       sample_now (Some "UCvalid") []
  = (Ok (Report sample_report),
     [CallSearch "UCvalid"; CallChannels "UC-first"])
  /\ api_analyze sample_fromisoformat 1 (sample_service Failed)
                 (fun _ => sample_now) [Some "UCvalid"; Some "UCinvalid"] []
     = (Ok ServerError,
        [CallSearch "UCvalid"; CallChannels "UC-first";
         CallSearch "UCinvalid"; CallChannels "UC-second"]).
Proof.
  split; [apply sample_first_analysis|].
  apply (api_analyze_raise sample_fromisoformat 1 (sample_service Failed)
           (fun _ => sample_now) [Some "UCvalid"; Some "UCinvalid"]
           [Some "UCvalid"] (Some "UCinvalid") [] []
           [Report sample_report]
           [CallSearch "UCvalid"; CallChannels "UC-first"] HttpError).
  - reflexivity.
  - econstructor; [apply sample_first_analysis|constructor].
  - rewrite (analyze_via_search sample_fromisoformat 1 (sample_service Failed)
               sample_now (Some "UCinvalid") (Some "UCinvalid") None
               "UCinvalid" _ eq_refl eq_refl eq_refl).
    change (query "UCinvalid") with "UCinvalid".
    change (present (first_item
                       (search_list (sample_service Failed) "UCinvalid")))
      with (Some "UC-second").
    cbv iota beta.
    now rewrite (analyze_resolved_failed sample_fromisoformat 1
                   (sample_service Failed) sample_now "UC-second" _ eq_refl).
Qed.

Lemma shorts_and_longs_partition_witness :
  r_shorts_count sample_report + r_videos_count sample_report
  = r_videos_scanned sample_report
  /\ r_videos_scanned sample_report = zlen (@nil video).
Proof.
  apply (proj1 (proj2 (shorts_and_longs_partition sample_fromisoformat))
           (profile "UC-first" sample_item) [] sample_now sample_report).
  apply build_report_nil. reflexivity.
Defined.

Lemma blank_input_analysis_witness :
  analyze_channel_full sample_fromisoformat 1 (sample_service (Returned []))
                       sample_now (Some "   ") []
  = (Ok (AnalysisError "Could not resolve channel ID"),
     [CallSearch EmptyString]).
Proof.
  apply (proj1 (proj2 (proj2
           (blank_input_analysis sample_fromisoformat 1
              (sample_service (Returned [])) sample_now)))
           "   " []).
  - reflexivity.
  - reflexivity.
Defined.

(** C8 as the specification states it fails on the source: the analysis of
    a blank input sends a search request, and when the search answers the
    empty query with a channel the analysis does not fail at all. *)
Lemma blank_input_counterexample :
  analyze_channel_full sample_fromisoformat 1 (sample_service (Returned []))
                       sample_now (Some "   ") []
  = (Ok (AnalysisError "Could not resolve channel ID"),
     [CallSearch EmptyString])
  /\ analyze_channel_full sample_fromisoformat 1 eager_service
                          sample_now (Some "   ") []
     = (Ok (Report sample_report),
        [CallSearch EmptyString; CallChannels "UC-first"]).
Proof.
  split.
  - now rewrite (analyze_blank sample_fromisoformat 1
                   (sample_service (Returned [])) sample_now "   " [] eq_refl).
  - rewrite (analyze_blank sample_fromisoformat 1 eager_service sample_now
               "   " [] eq_refl).
    change (present (first_item (search_list eager_service EmptyString)))
      with (Some "UC-first").
    cbv iota beta.
    rewrite (analyze_resolved_no_uploads sample_fromisoformat 1 eager_service
               sample_now "UC-first" _ sample_item [] sample_report
               eq_refl eq_refl).
    + reflexivity.
    + apply build_report_nil. reflexivity.
Qed.

End AnalyzerFacts.

(** ** The average durations *)

Module AverageFacts.
Import Analyzer AnalyzerTerms.

(** C7 fails on the source.  A list whose one video has a duration of 0
    seconds, as the record of a live broadcast has, gives a split of shorts
    that is not empty, and the text of its average duration is ["N/A"], not
    ["0m 0s"]. *)
Theorem average_of_zero_durations :
  Api.to_video live_item = Ok live_video
  /\ filter is_short [live_video] = [live_video]
  /\ avg_human (avg_duration (filter is_short [live_video])) = "N/A".
Proof. repeat split. Qed.

(** The same in the report. *)
Lemma report_of_zero_durations fromisoformat ch now r :
  build_report fromisoformat ch [live_video] now = Ok r ->
  r_shorts_count r = 1 /\ r_avg_short_duration_human r = "N/A".
Proof.
  intros H.
  destruct (AnalyzerFacts.build_report_fields fromisoformat ch
              [live_video] now r H) as (-> & _ & _ & -> & _).
  split; reflexivity.
Qed.


(** Where the claim holds: the text of a split whose durations do not add up
    to 0, and the split of long videos. *)

Lemma zlen_cons (x : video) lst :
  zlen (x :: lst) = Zpos (Pos.of_succ_nat (List.length lst)).
Proof. reflexivity. Qed.

Lemma floordiv60_floor s p :
  Qfloor (floordiv60 (inject_Z s / inject_Z (Zpos p))) = s / Zpos p / 60.
Proof.
  unfold floordiv60, Qdiv, Qmult, Qinv, inject_Z, Qfloor. cbn.
  rewrite !Z.mul_1_r, Z.div_1_r, Pos2Z.inj_mul.
  now rewrite Z.div_div by lia.
Qed.

Lemma mod60_floor s p :
  Qfloor (mod60 (inject_Z s / inject_Z (Zpos p))) = (s / Zpos p) mod 60.
Proof.
  unfold mod60, floordiv60.
  set (k := Qfloor (inject_Z s / inject_Z (Zpos p) / 60)).
  assert (Hk : k = s / Zpos p / 60).
  { subst k. unfold Qdiv, Qmult, Qinv, inject_Z, Qfloor. cbn.
    rewrite !Z.mul_1_r, Pos2Z.inj_mul. now rewrite Z.div_div by lia. }
  unfold Qminus, Qplus, Qopp, Qdiv, Qmult, Qinv, inject_Z, Qfloor.
  cbn [Qnum Qden].
  change (Zpos (1 * 1)) with 1. change (Zpos (1 * p)) with (Zpos p).
  change (1 * p * (1 * 1))%positive with (p * 1)%positive.
  rewrite Pos.mul_1_r, !Z.mul_1_r.
  replace (s + - (60 * k) * Zpos p) with (s + (- (60 * k)) * Zpos p)
    by reflexivity.
  rewrite Z.div_add by lia. rewrite Hk.
  rewrite (Z.mod_eq (s / Zpos p) 60) by lia. lia.
Qed.

Lemma average_is_zero s p :
  Qeq_bool (inject_Z s / inject_Z (Zpos p)) 0 = (s =? 0).
Proof.
  unfold Qeq_bool, Qdiv, Qmult, Qinv, inject_Z. cbn.
  rewrite !Z.mul_1_r. destruct s; reflexivity.
Qed.

Lemma avg_human_render (x : video) lst :
  let total := zsum (map duration_seconds (x :: lst)) in
  let avg := total / zlen (x :: lst) in
  total <> 0 ->
  avg_human (avg_duration (x :: lst))
  = (PyStr.of_int (avg / 60) ++ "m " ++ PyStr.of_int (avg mod 60) ++ "s")%string.
Proof.
  intros total avg H. unfold avg_human, avg_duration.
  fold total. rewrite zlen_cons in *.
  rewrite average_is_zero, floordiv60_floor, mod60_floor.
  destruct (Z.eqb_spec total 0); [contradiction|reflexivity].
Qed.

Lemma rendered_is_not_NA a b :
  (a ++ "m " ++ b ++ "s")%string <> "N/A".
Proof.
  destruct a as [|c1 [|c2 [|c3 a]]]; cbn; intros H;
    injection H; intros; try discriminate.
  destruct a; discriminate.
Qed.

Lemma avg_human_NA lst :
  avg_human (avg_duration lst) = "N/A"
  <-> lst = [] \/ zsum (map duration_seconds lst) = 0.
Proof.
  destruct lst as [|x lst].
  - split; [now left|reflexivity].
  - destruct (Z.eq_dec (zsum (map duration_seconds (x :: lst))) 0) as [E|E].
    + split; [now right|]. intros _.
      unfold avg_human, avg_duration. rewrite zlen_cons, average_is_zero, E.
      reflexivity.
    + rewrite (avg_human_render x lst E). split.
      * intros H. now apply rendered_is_not_NA in H.
      * intros [H|H]; [discriminate|contradiction].
Qed.

Lemma long_total_positive videos_meta :
  filter is_long videos_meta <> [] ->
  0 < zsum (map duration_seconds (filter is_long videos_meta)).
Proof.
  assert (G : forall l, Forall (fun v => is_long v = true) l -> l <> [] ->
                        0 < zsum (map duration_seconds l)).
  { induction 1 as [|v l Hv Hl IH]; intros Hne; [congruence|].
    cbn [map zsum fold_right]. unfold is_long, SHORTS_MAX_SECONDS in Hv.
    apply Z.ltb_lt in Hv.
    destruct l as [|w l]; [simpl; lia|].
    assert (0 < zsum (map duration_seconds (w :: l))) by (apply IH; discriminate).
    unfold zsum in *. lia. }
  apply G. apply Forall_forall. intros v Hv. now apply filter_In in Hv.
Qed.

(** The text of the long split is ["N/A"] exactly when the split is
    empty. *)
Lemma avg_long_NA videos_meta :
  avg_human (avg_duration (filter is_long videos_meta)) = "N/A"
  <-> filter is_long videos_meta = [].
Proof.
  rewrite avg_human_NA. split; [|now left].
  intros [H|H]; [exact H|].
  destruct (filter is_long videos_meta) as [|v l] eqn:E; [reflexivity|].
  assert (P : 0 < zsum (map duration_seconds (filter is_long videos_meta)))
    by (apply long_total_positive; rewrite E; discriminate).
  rewrite E in P. lia.
Qed.

End AverageFacts.

(* ================================================================== *)
(** * Further properties                                                *)
(* ================================================================== *)

(** ** The duration codec on well-formed texts *)

Module CodecFacts.
Import PyStr Duration DurationTerms CodecTerms.

Lemma append_assoc (a b c : string) :
  ((a ++ b) ++ c)%string = (a ++ (b ++ c))%string.
Proof. induction a as [|x a IH]; simpl; congruence. Qed.

Lemma replace_PT_without_P s :
  all_chars not_P s = true -> replace "PT" EmptyString s = s.
Proof.
  unfold replace. induction s as [|c s IH]; intros H; [reflexivity|].
  cbn [all_chars] in H. apply andb_true_iff in H. destruct H as [Hc Hs].
  cbn [replace_from].
  assert (E : String.prefix "PT" (String c s) = false).
  { cbn [String.prefix]. destruct (ascii_dec "P" c) as [<-|_];
      [discriminate Hc|reflexivity]. }
  rewrite E. now rewrite IH.
Qed.

Lemma replace_PT_after_P y :
  all_chars not_P y = true ->
  String.prefix "T" y = false ->
  replace "PT" EmptyString (String "P" y) = String "P" y.
Proof.
  intros HP HT. unfold replace. cbn [replace_from].
  assert (F : String.prefix "PT" (String "P" y) = false).
  { cbn [String.prefix]. destruct (ascii_dec "P" "P") as [_|N];
      [exact HT|congruence]. }
  rewrite F. f_equal. now apply replace_PT_without_P.
Qed.

Lemma replace_PT_prefix s :
  replace "PT" EmptyString (String "P" (String "T" s))
  = replace "PT" EmptyString s.
Proof. destruct s; reflexivity. Qed.

Lemma isdigit_not_P c : isdigit c = true -> not_P c = true.
Proof.
  intros H. unfold not_P.
  destruct (Ascii.eqb_spec c "P") as [->|_]; [discriminate H|reflexivity].
Qed.

Lemma unit_is_not_digit ch k :
  unit_seconds ch = Some k -> isdigit ch = false /\ not_P ch = true.
Proof.
  unfold unit_seconds. intros H.
  destruct (Ascii.eqb_spec ch "H") as [->|_]; [now split|].
  destruct (Ascii.eqb_spec ch "M") as [->|_]; [now split|].
  destruct (Ascii.eqb_spec ch "S") as [->|_]; [now split|discriminate].
Qed.

Lemma all_chars_weaken (p q : ascii -> bool) s :
  (forall c, p c = true -> q c = true) ->
  all_chars p s = true -> all_chars q s = true.
Proof.
  intros Hpq. induction s as [|c s IH]; [reflexivity|].
  cbn [all_chars]. intros H. apply andb_true_iff in H. destruct H as [Hc Hs].
  now rewrite (Hpq c Hc), IH.
Qed.

Lemma well_formed_parts tk :
  well_formed tk = true ->
  truthy (fst tk) = true /\ all_chars isdecimal (fst tk) = true
  /\ exists k, unit_seconds (snd tk) = Some k.
Proof.
  unfold well_formed. intros H.
  apply andb_true_iff in H. destruct H as [H Hu].
  apply andb_true_iff in H. destruct H as [Ht Hd].
  split; [exact Ht|]. split; [exact Hd|].
  destruct (unit_seconds (snd tk)) as [k|]; [now exists k|discriminate].
Qed.

Lemma decimal_is_digit c : isdecimal c = true -> isdigit c = true.
Proof. intros H. unfold isdigit. now rewrite H. Qed.

Lemma render_tokens_without_P tks :
  forallb well_formed tks = true -> all_chars not_P (render_tokens tks) = true.
Proof.
  induction tks as [|tk tks IH]; [reflexivity|].
  cbn [forallb render_tokens]. intros H.
  apply andb_true_iff in H. destruct H as [Hw Hr].
  destruct (well_formed_parts tk Hw) as (_ & Hd & k & Hk).
  unfold render_token. rewrite !DurationFacts.all_chars_app.
  cbn [all_chars]. rewrite (proj2 (unit_is_not_digit _ _ Hk)), (IH Hr).
  rewrite (all_chars_weaken isdecimal not_P); [reflexivity| |exact Hd].
  intros c Hc. now apply isdigit_not_P, decimal_is_digit.
Qed.

Lemma scan_tokens tks :
  forall sec,
    forallb well_formed tks = true ->
    scan (render_tokens tks) EmptyString sec = Ok (sec + tokens_seconds tks).
Proof.
  induction tks as [|tk tks IH]; intros sec H.
  - cbn. now rewrite Z.add_0_r.
  - cbn [forallb] in H. apply andb_true_iff in H. destruct H as [Hw Hr].
    destruct (well_formed_parts tk Hw) as (Ht & Hd & k & Hk).
    cbn [render_tokens]. unfold render_token.
    rewrite append_assoc. cbn [append].
    rewrite (DurationFacts.scan_unit (fst tk) EmptyString (snd tk) k
               (render_tokens tks) sec eq_refl Hd Ht
               (proj1 (unit_is_not_digit _ _ Hk)) Hk).
    rewrite (IH _ Hr). unfold tokens_seconds, token_seconds.
    cbn [map zsum fold_right append]. rewrite Hk. f_equal. unfold zsum. lia.
Qed.





Lemma int_of_digits_cases num :
  (exists n, int_of_digits num = Ok n /\ 0 <= n)
  \/ int_of_digits num = Raise ValueError.
Proof.
  unfold int_of_digits. destruct (all_chars isdecimal num) eqn:E.
  - left. eexists. split; [reflexivity|].
    apply DurationFacts.decimal_value_nonneg; [exact E|lia].
  - now right.
Qed.

Lemma scan_cases dur :
  forall num sec,
    0 <= sec ->
    (exists n, scan dur num sec = Ok n /\ 0 <= n)
    \/ scan dur num sec = Raise ValueError.
Proof.
  induction dur as [|ch rest IH]; intros num sec Hs; cbn [scan].
  - left. now exists sec.
  - destruct (isdigit ch); [now apply IH|].
    destruct (negb (truthy num)); [now apply IH|].
    destruct (int_of_digits_cases num) as [(n & -> & Hn)| ->]; cbn [obind].
    + destruct (Ascii.eqb ch "H"); [apply IH; lia|].
      destruct (Ascii.eqb ch "M"); [apply IH; lia|].
      destruct (Ascii.eqb ch "S"); [apply IH; lia|].
      now apply IH.
    + destruct (Ascii.eqb ch "H"); [now right|].
      destruct (Ascii.eqb ch "M"); [now right|].
      destruct (Ascii.eqb ch "S"); [now right|].
      now apply IH.
Qed.

(** X3.  Whatever the text, the codec either returns a number of seconds
    that is not negative or raises [ValueError]; it raises nothing else. *)
Theorem parse_outcomes (dur : string) :
  (exists n, parse_iso8601_duration_to_seconds dur = Ok n /\ 0 <= n)
  \/ parse_iso8601_duration_to_seconds dur = Raise ValueError.
Proof.
  rewrite DurationFacts.parse_is_scan. apply scan_cases. lia.
Qed.

End CodecFacts.

(** ** Stripping and splitting *)

Module StripFacts.
Import PyStr ResolverTerms.

Lemma append_nil_r (s : string) : (s ++ EmptyString)%string = s.
Proof. induction s as [|c s IH]; simpl; congruence. Qed.

Lemma rev_onto_app s :
  forall acc, rev_onto s acc = (rev s ++ acc)%string.
Proof.
  unfold rev. induction s as [|c s IH]; intros acc; cbn [rev_onto].
  - reflexivity.
  - rewrite (IH (String c acc)), (IH (String c EmptyString)).
    now rewrite CodecFacts.append_assoc.
Qed.

Lemma rev_cons c s : rev (String c s) = (rev s ++ String c EmptyString)%string.
Proof. unfold rev at 1. cbn [rev_onto]. apply rev_onto_app. Qed.

Lemma rev_app a b : rev (a ++ b) = (rev b ++ rev a)%string.
Proof.
  induction a as [|c a IH]; cbn [append].
  - now rewrite append_nil_r.
  - now rewrite !rev_cons, IH, CodecFacts.append_assoc.
Qed.

Lemma rev_involutive s : rev (rev s) = s.
Proof.
  induction s as [|c s IH]; [reflexivity|].
  now rewrite rev_cons, rev_app, IH.
Qed.

Lemma lstrip_idem p s : lstrip_by p (lstrip_by p s) = lstrip_by p s.
Proof.
  induction s as [|c s IH]; [reflexivity|].
  cbn [lstrip_by]. destruct (p c) eqn:E; [exact IH|].
  cbn [lstrip_by]. now rewrite E.
Qed.

(** What [lstrip_by] leaves starts with a character that is kept. *)
Lemma lstrip_head p s c y :
  lstrip_by p s = String c y -> p c = false.
Proof.
  induction s as [|a s IH]; [discriminate|].
  cbn [lstrip_by]. destruct (p a) eqn:E; [exact IH|].
  intros H. injection H as <- _. exact E.
Qed.

Lemma lstrip_app p x y :
  lstrip_by p x <> EmptyString ->
  lstrip_by p (x ++ y) = (lstrip_by p x ++ y)%string.
Proof.
  induction x as [|c x IH]; intros H; [now elim H|].
  cbn [append lstrip_by] in *. destruct (p c); [now apply IH|reflexivity].
Qed.

Lemma lstrip_snoc p x c :
  p c = false ->
  lstrip_by p (x ++ String c EmptyString)
  = (lstrip_by p x ++ String c EmptyString)%string.
Proof.
  intros Hc. induction x as [|a x IH]; cbn [append lstrip_by].
  - now rewrite Hc.
  - destruct (p a); [exact IH|reflexivity].
Qed.

Lemma rstrip_cons p c y :
  p c = false -> rstrip_by p (String c y) = String c (rstrip_by p y).
Proof.
  intros Hc. unfold rstrip_by.
  now rewrite rev_cons, (lstrip_snoc p _ c Hc), rev_app.
Qed.

Lemma rstrip_idem p s : rstrip_by p (rstrip_by p s) = rstrip_by p s.
Proof. unfold rstrip_by. now rewrite rev_involutive, lstrip_idem. Qed.

(** Stripping on the right what starts with a kept character leaves that
    character in front. *)
Lemma lstrip_rstrip p y :
  lstrip_by p (rstrip_by p (lstrip_by p y)) = rstrip_by p (lstrip_by p y).
Proof.
  destruct (lstrip_by p y) as [|c z] eqn:E; [reflexivity|].
  pose proof (lstrip_head p y c z E) as Hc.
  rewrite (rstrip_cons p c z Hc). cbn [lstrip_by]. now rewrite Hc.
Qed.

Lemma strip_idem s : strip (strip s) = strip s.
Proof. unfold strip. now rewrite lstrip_rstrip, rstrip_idem. Qed.

Lemma rstrip_app p a s :
  rstrip_by p s <> EmptyString ->
  rstrip_by p (a ++ s) = (a ++ rstrip_by p s)%string.
Proof.
  intros H. unfold rstrip_by in *. rewrite rev_app.
  rewrite lstrip_app.
  - now rewrite rev_app, rev_involutive.
  - intros E. apply H. now rewrite E.
Qed.

Lemma all_chars_lstrip q p s :
  all_chars q s = true -> all_chars q (lstrip_by p s) = true.
Proof.
  induction s as [|c s IH]; [reflexivity|].
  cbn [all_chars lstrip_by]. intros H.
  destruct (p c); [|exact H].
  apply andb_true_iff in H. now apply IH.
Qed.

Lemma all_chars_rstrip q p s :
  all_chars q s = true -> all_chars q (rstrip_by p s) = true.
Proof.
  intros H. unfold rstrip_by.
  rewrite PyStrFacts.all_chars_rev. apply all_chars_lstrip.
  now rewrite PyStrFacts.all_chars_rev.
Qed.

(** *** Splitting at one character *)

Lemma split_char_cons c a rest :
  split (String c EmptyString) (String a rest)
  = if Ascii.eqb c a
    then EmptyString :: split (String c EmptyString) rest
    else match split (String c EmptyString) rest with
         | h :: t => String a h :: t
         | [] => [String a EmptyString]
         end.
Proof.
  unfold split. cbn [split_from String.prefix String.length Nat.pred].
  destruct (ascii_dec c a) as [<-|N].
  - rewrite Ascii.eqb_refl. destruct rest; reflexivity.
  - destruct (Ascii.eqb_spec c a); [contradiction|reflexivity].
Qed.

Lemma split_pieces_chars q sep s :
  forall skip,
    all_chars q s = true ->
    Forall (fun piece => all_chars q piece = true) (split_from sep skip s).
Proof.
  induction s as [|a s IH]; intros skip H; cbn [split_from].
  - repeat constructor.
  - cbn [all_chars] in H. apply andb_true_iff in H. destruct H as [Ha Hs].
    destruct skip as [|k]; [|now apply IH].
    destruct (String.prefix sep (String a s)).
    + constructor; [reflexivity|now apply IH].
    + specialize (IH O Hs).
      destruct (split_from sep 0 s) as [|h t].
      * repeat constructor. cbn. now rewrite Ha.
      * inversion IH; subst. constructor; [|assumption].
        cbn [all_chars]. now rewrite Ha.
Qed.

Lemma item_chars q xs i :
  Forall (fun piece => all_chars q piece = true) xs ->
  all_chars q (item xs i) = true.
Proof.
  intros H. unfold item. revert i.
  induction H as [|x xs Hx _ IH]; intros [|i]; cbn; auto.
Qed.

(** The first piece of a split at [c] is free of [c]. *)
Lemma first_piece_free c s :
  free_of c (item (split (String c EmptyString) s) 0) = true.
Proof.
  unfold free_of. induction s as [|a s IH]; [reflexivity|].
  rewrite split_char_cons.
  destruct (Ascii.eqb_spec c a) as [->|N]; [reflexivity|].
  destruct (split (String c EmptyString) s) as [|h t] eqn:E.
  - cbn. destruct (Ascii.eqb_spec a c); [congruence|reflexivity].
  - cbn in *. rewrite IH.
    destruct (Ascii.eqb_spec a c); [congruence|reflexivity].
Qed.

(** A text free of [c] is the one piece of its split at [c]. *)
Lemma split_free c s :
  free_of c s = true -> split (String c EmptyString) s = [s].
Proof.
  unfold free_of. induction s as [|a s IH]; [reflexivity|].
  cbn [all_chars]. intros H. apply andb_true_iff in H. destruct H as [Ha Hs].
  rewrite split_char_cons, (IH Hs).
  destruct (Ascii.eqb_spec c a) as [->|_]; [|reflexivity].
  now rewrite Ascii.eqb_refl in Ha.
Qed.

Lemma last_cons_more (x : string) xs :
  xs <> [] -> last_item (x :: xs) = last_item xs.
Proof. destruct xs; [congruence|reflexivity]. Qed.

(** The last piece of a split at [c] is what follows the last [c]. *)
Lemma last_piece_app c x s :
  last_item (split (String c EmptyString) (x ++ String c s))
  = last_item (split (String c EmptyString) s).
Proof.
  induction x as [|a x IH]; cbn [append].
  - rewrite split_char_cons, Ascii.eqb_refl.
    apply last_cons_more. apply PyStrFacts.split_from_nonempty.
  - rewrite split_char_cons.
    destruct (Ascii.eqb c a).
    + rewrite last_cons_more by apply PyStrFacts.split_from_nonempty.
      exact IH.
    + assert (L : (2 <= List.length (split (String c EmptyString)
                                        (x ++ String c s)))%nat).
      { apply PyStrFacts.split_contains; [discriminate|].
        clear. induction x as [|b x IH]; cbn [append contains].
        - cbn [String.prefix]. destruct (ascii_dec c c); [|congruence].
          destruct s; reflexivity.
        - rewrite IH. apply orb_true_r. }
      destruct (split (String c EmptyString) (x ++ String c s))
        as [|h [|h' t]]; cbn in L; try lia.
      exact IH.
Qed.

End StripFacts.

(** ** More on the identifier parser *)

Module ParserFacts.
Import PyStr Resolver ResolverTerms Analyzer AnalyzerTerms.

Lemma extract_strip s :
  extract_channel_from_input (Some (strip s))
  = extract_channel_from_input (Some s).
Proof.
  unfold extract_channel_from_input. cbn [or_empty].
  now rewrite StripFacts.strip_idem.
Qed.

Lemma query_strip s : query (strip s) = query s.
Proof. unfold query. now rewrite StripFacts.strip_idem. Qed.

(** X4.  White space around the input changes nothing: the parser gives
    the same pair for an input and for the input stripped, and the analysis
    of the two makes the same requests and has the same outcome. *)
Theorem whitespace_is_ignored fromisoformat fuel youtube now s t :
  extract_channel_from_input (Some (strip s))
  = extract_channel_from_input (Some s)
  /\ analyze_channel_full fromisoformat fuel youtube now (Some (strip s)) t
     = analyze_channel_full fromisoformat fuel youtube now (Some s) t.
Proof.
  split; [apply extract_strip|].
  unfold analyze_channel_full. rewrite extract_strip.
  destruct (extract_channel_from_input (Some s)) as [cid0 canonical].
  destruct (present cid0); [reflexivity|].
  unfold or_else. destruct (present canonical); [reflexivity|].
  unfold bind.
  rewrite !(AnalyzerFacts.resolve_handle_some), query_strip.
  reflexivity.
Qed.

Lemma contains_nonempty sub s :
  sub <> EmptyString -> contains sub s = true -> truthy s = true.
Proof.
  intros Hs H. destruct s; [|reflexivity].
  destruct sub; [congruence|discriminate H].
Qed.

(** X5.  From a URL with a [/channel/] part the parser takes an ID in
    which neither ['/'] nor ['?'] occurs, and the URL it returns is the
    channel URL of that ID. *)
Theorem channel_url_id_is_clean (inp : option string) :
  let s := strip (or_empty inp) in
  raw_id s = false ->
  contains "youtube.com" s = true ->
  contains "/channel/" s = true ->
  exists cid,
    extract_channel_from_input inp = (Some cid, Some (channel_url cid))
    /\ free_of "/" cid = true
    /\ free_of "?" cid = true.
Proof.
  intros s Hraw Hy Hc. unfold extract_channel_from_input. fold s.
  rewrite (contains_nonempty "youtube.com" s) by (discriminate || exact Hy).
  unfold raw_id in Hraw. cbn [negb]. rewrite Hraw, Hy, Hc.
  eexists. split; [reflexivity|]. split.
  - apply StripFacts.item_chars. apply StripFacts.split_pieces_chars.
    apply (StripFacts.first_piece_free "/").
  - apply (StripFacts.first_piece_free "?").
Qed.

Lemma channel_url_id_is_clean_witness :
  exists cid,
    extract_channel_from_input
      (Some " https://www.youtube.com/channel/UCabc123/videos?view=0 ")
    = (Some cid, Some (channel_url cid))
    /\ free_of "/" cid = true
    /\ free_of "?" cid = true.
Proof.
  apply (channel_url_id_is_clean
           (Some " https://www.youtube.com/channel/UCabc123/videos?view=0 "));
    reflexivity.
Defined.

(** X6.  From a URL without a [/channel/] part the parser takes no ID, and
    the hint it returns has no ['?'] in it and does not end in ['/']. *)
Theorem url_hint_is_trimmed (inp : option string) :
  let s := strip (or_empty inp) in
  raw_id s = false ->
  contains "youtube.com" s = true ->
  contains "/channel/" s = false ->
  exists base,
    extract_channel_from_input inp = (None, Some base)
    /\ free_of "?" base = true
    /\ rstrip_char "/" base = base.
Proof.
  intros s Hraw Hy Hc. unfold extract_channel_from_input. fold s.
  rewrite (contains_nonempty "youtube.com" s) by (discriminate || exact Hy).
  unfold raw_id in Hraw. cbn [negb]. rewrite Hraw, Hy, Hc.
  eexists. split; [reflexivity|]. split.
  - unfold free_of, rstrip_char. apply StripFacts.all_chars_rstrip.
    apply (StripFacts.first_piece_free "?").
  - unfold rstrip_char. apply StripFacts.rstrip_idem.
Qed.

Lemma url_hint_is_trimmed_witness :
  exists base,
    extract_channel_from_input (Some "https://youtube.com/c/Some/?a=b/")
    = (None, Some base)
    /\ free_of "?" base = true
    /\ rstrip_char "/" base = base.
Proof.
  apply (url_hint_is_trimmed (Some "https://youtube.com/c/Some/?a=b/"));
    reflexivity.
Defined.

Lemma rstrip_strip s : rstrip_by isspace (strip s) = strip s.
Proof. unfold strip. apply StripFacts.rstrip_idem. Qed.

Lemma truthy_nonempty s : truthy s = true -> s <> EmptyString.
Proof. destruct s; [discriminate|discriminate]. Qed.

(** The query made from the hint of a name without ['/']. *)
Lemma query_of_name raw :
  let s := strip raw in
  truthy s = true ->
  free_of "/" s = true ->
  query s = s /\ query ("https://www.youtube.com/" ++ s) = s.
Proof.
  intros s Ht Hf. split.
  - unfold query, s. rewrite StripFacts.strip_idem. fold s.
    now rewrite (StripFacts.split_free "/" s Hf).
  - unfold query.
    assert (E : strip ("https://www.youtube.com/" ++ s)
                = ("https://www.youtube.com/" ++ s)%string).
    { unfold strip.
      replace (lstrip_by isspace ("https://www.youtube.com/" ++ s))
        with ("https://www.youtube.com/" ++ s)%string by reflexivity.
      rewrite StripFacts.rstrip_app; unfold s; rewrite rstrip_strip;
        [reflexivity|now apply truthy_nonempty]. }
    rewrite E.
    change ("https://www.youtube.com/" ++ s)%string
      with ("https://www.youtube.com" ++ String "/" s)%string.
    rewrite StripFacts.last_piece_app.
    now rewrite (StripFacts.split_free "/" s Hf).
Qed.

(** X7.  A handle or a bare name, that is an input which, stripped, is
    neither a raw ID nor a text with [youtube.com] in it, and which has no
    ['/'], is looked up by one search whose query is the stripped input
    itself; when the search gives no channel ID the analysis ends in the
    resolution error with that one request made. *)
Theorem name_is_searched_as_it_is fromisoformat fuel youtube now raw t :
  let s := strip raw in
  truthy s = true ->
  raw_id s = false ->
  contains "youtube.com" s = false ->
  free_of "/" s = true ->
  analyze_channel_full fromisoformat fuel youtube now (Some raw) t
  = match present (first_item (search_list youtube s)) with
    | None => (Ok (AnalysisError "Could not resolve channel ID"),
               (t ++ [CallSearch s])%list)
    | Some cid =>
        analyze_resolved fromisoformat fuel youtube now cid
                         (t ++ [CallSearch s])%list
    end.
Proof.
  intros s Ht Hraw Hy Hf.
  destruct (query_of_name raw Ht Hf) as [Q1 Q2]. fold s in Q1, Q2.
  assert (E : extract_channel_from_input (Some raw)
              = if startswith "@" s
                then (None, Some ("https://www.youtube.com/" ++ s)%string)
                else (None, Some s)).
  { unfold extract_channel_from_input. cbn [or_empty]. fold s.
    unfold raw_id in Hraw. rewrite Ht, Hraw, Hy. reflexivity. }
  destruct (startswith "@" s).
  - rewrite (AnalyzerFacts.analyze_via_search fromisoformat fuel youtube now
               (Some raw) (Some ("https://www.youtube.com/" ++ s)%string)
               None ("https://www.youtube.com/" ++ s)%string t E eq_refl eq_refl).
    now rewrite Q2.
  - rewrite (AnalyzerFacts.analyze_via_search fromisoformat fuel youtube now
               (Some raw) (Some s) None s t E eq_refl).
    + now rewrite Q1.
    + unfold or_else, present. now rewrite Ht.
Qed.

Lemma name_is_searched_as_it_is_witness :
  analyze_channel_full sample_fromisoformat 1 (sample_service (Returned []))
                       sample_now (Some " @somehandle ") []
  = match present (first_item
                     (search_list (sample_service (Returned []))
                                  (strip " @somehandle "))) with
    | None => (Ok (AnalysisError "Could not resolve channel ID"),
               ([] ++ [CallSearch (strip " @somehandle ")])%list)
    | Some cid =>
        analyze_resolved sample_fromisoformat 1 (sample_service (Returned []))
                         sample_now cid
                         ([] ++ [CallSearch (strip " @somehandle ")])%list
    end.
Proof.
  apply (name_is_searched_as_it_is sample_fromisoformat 1
           (sample_service (Returned [])) sample_now " @somehandle " []);
    reflexivity.
Defined.

End ParserFacts.

(** ** The API helpers *)

Module ApiFacts.
Import PyStr Analyzer AnalyzerTerms ApiTerms.

(** *** The search *)

(** X8.  The lookup by search never raises: whatever the client answers,
    it returns, with a channel ID or with nothing; it makes one search
    request, or none when there is no text to search for; and a search
    that fails gives nothing. *)
Theorem resolve_never_raises youtube (x : option string) t :
  exists r calls,
    Api.resolve_handle_to_channel_id youtube x t = (Ok r, (t ++ calls)%list)
    /\ (calls = [] \/ exists q, calls = [CallSearch q])
    /\ (x = None -> r = None /\ calls = [])
    /\ (forall s, x = Some s ->
                  calls = [CallSearch (query s)]
                  /\ (search_list youtube (query s) = Failed -> r = None)
                  /\ (search_list youtube (query s) = Returned [] -> r = None)).
Proof.
  destruct x as [s|].
  - exists (first_item (search_list youtube (query s))), [CallSearch (query s)].
    split; [apply AnalyzerFacts.resolve_handle_some|].
    split; [right; eauto|]. split; [discriminate|].
    intros s' E. injection E as <-. split; [reflexivity|].
    split; intros ->; reflexivity.
  - exists None, []. rewrite app_nil_r.
    split; [reflexivity|]. split; [now left|]. split; [now split|discriminate].
Qed.

(** *** The pages of a playlist *)

Lemma playlist_pages_run youtube playlist tok pages calls :
  paged youtube playlist tok pages calls ->
  forall fuel ids t,
    (List.length pages <= fuel)%nat ->
    Api.playlist_pages fuel youtube playlist tok ids t
    = (Ok (ids ++ kept (List.concat pages))%list, (t ++ calls)%list).
Proof.
  induction 1 as [tok items next E P|tok items next tok' pages calls E P _ IH];
    intros fuel ids t Hf; (destruct fuel as [|fuel]; [cbn in Hf; lia|]);
    cbn [Api.playlist_pages]; unfold bind, request; rewrite E;
    cbn [fst snd]; rewrite P.
  - cbn [List.concat]. rewrite app_nil_r. reflexivity.
  - rewrite IH by (cbn in Hf; lia).
    cbn [List.concat]. unfold kept at 2. rewrite flat_map_app.
    now rewrite <- !app_assoc.
Qed.

Lemma playlist_pages_short youtube playlist tok pages calls :
  paged youtube playlist tok pages calls ->
  forall fuel ids t,
    (fuel < List.length pages)%nat ->
    fst (Api.playlist_pages fuel youtube playlist tok ids t) = Beyond OutOfFuel.
Proof.
  induction 1 as [tok items next E P|tok items next tok' pages calls E P _ IH];
    intros fuel ids t Hf; (destruct fuel as [|fuel]; [reflexivity|]).
  - cbn in Hf. lia.
  - cbn [Api.playlist_pages]. unfold bind, request. rewrite E.
    cbn [fst snd]. rewrite P. apply IH. cbn in Hf. lia.
Qed.

(** X9.  When the playlist has finitely many pages, the listing of its
    videos, given fuel for at least that many pages, requests each page
    once, in order, and returns the video IDs of all pages in playlist
    order, without the items that have no ID; with less fuel the model
    runs out of fuel. *)
Theorem playlist_is_read_to_the_end youtube playlist pages calls :
  paged youtube playlist None pages calls ->
  List.length calls = List.length pages
  /\ (forall fuel t,
         (List.length pages <= fuel)%nat ->
         Api.fetch_all_video_ids_from_playlist fuel youtube playlist t
         = (Ok (kept (List.concat pages)), (t ++ calls)%list))
  /\ (forall fuel t,
         (fuel < List.length pages)%nat ->
         fst (Api.fetch_all_video_ids_from_playlist fuel youtube playlist t)
         = Beyond OutOfFuel).
Proof.
  intros H. split; [|split].
  - induction H; cbn; congruence.
  - intros fuel t Hf. unfold Api.fetch_all_video_ids_from_playlist.
    now rewrite (playlist_pages_run _ _ _ _ _ H fuel [] t Hf).
  - intros fuel t Hf. unfold Api.fetch_all_video_ids_from_playlist.
    now apply (playlist_pages_short _ _ _ _ _ H).
Qed.

Lemma playlist_is_read_to_the_end_witness :
  List.length [CallPlaylistItems "UU1" None;
               CallPlaylistItems "UU1" (Some "next")]
  = List.length [[Some "a"; None; Some "b"]; [Some "c"; Some EmptyString]]
  /\ (forall fuel t,
         (List.length [[Some "a"; None; Some "b"]; [Some "c"; Some EmptyString]]
          <= fuel)%nat ->
         Api.fetch_all_video_ids_from_playlist fuel two_pages "UU1" t
         = (Ok (kept (List.concat [[Some "a"; None; Some "b"];
                              [Some "c"; Some EmptyString]])),
            (t ++ [CallPlaylistItems "UU1" None;
                   CallPlaylistItems "UU1" (Some "next")])%list))
  /\ (forall fuel t,
         (fuel < List.length [[Some "a"; None; Some "b"];
                              [Some "c"; Some EmptyString]])%nat ->
         fst (Api.fetch_all_video_ids_from_playlist fuel two_pages "UU1" t)
         = Beyond OutOfFuel).
Proof.
  apply (playlist_is_read_to_the_end two_pages "UU1").
  eapply paged_more; [reflexivity|reflexivity|].
  eapply paged_last; reflexivity.
Defined.

Lemma kept_truthy items : Forall (fun x => truthy x = true) (kept items).
Proof.
  unfold kept. induction items as [|[x|] items IH]; cbn; auto.
  destruct (truthy x) eqn:E; cbn; auto.
Qed.

Lemma playlist_pages_ids fuel youtube playlist :
  forall tok ids t ids' t',
    Forall (fun x => truthy x = true) ids ->
    Api.playlist_pages fuel youtube playlist tok ids t = (Ok ids', t') ->
    Forall (fun x => truthy x = true) ids'.
Proof.
  induction fuel as [|fuel IH]; intros tok ids t ids' t' Hi; [discriminate|].
  cbn [Api.playlist_pages]. unfold bind, request.
  destruct (playlistItems_list youtube playlist tok) as [[items next]|];
    [|discriminate].
  cbn [fst snd].
  assert (Hk : Forall (fun x => truthy x = true) (ids ++ kept items))
    by (apply Forall_app; split; [exact Hi|apply kept_truthy]).
  destruct (present next) as [tok'|].
  - now apply IH.
  - unfold ret. intros H. now injection H as <- _.
Qed.

(** X10.  No video ID that the listing returns is empty. *)
Theorem listed_ids_are_not_empty fuel youtube playlist t ids t' :
  Api.fetch_all_video_ids_from_playlist fuel youtube playlist t = (Ok ids, t') ->
  Forall (fun x => truthy x = true) ids.
Proof.
  unfold Api.fetch_all_video_ids_from_playlist.
  apply playlist_pages_ids. constructor.
Qed.

Lemma listed_ids_are_not_empty_witness :
  Forall (fun x => truthy x = true) ["a"; "b"; "c"].
Proof.
  apply (listed_ids_are_not_empty 2 two_pages "UU1" [] ["a"; "b"; "c"]
           [CallPlaylistItems "UU1" None;
            CallPlaylistItems "UU1" (Some "next")]).
  reflexivity.
Defined.

(** *** The batches of video IDs *)

Lemma firstn_plus {A} (a b : nat) (l : list A) :
  firstn (a + b) l = (firstn a l ++ firstn b (skipn a l))%list.
Proof.
  revert l. induction a as [|a IH]; intros l; [reflexivity|].
  destruct l as [|x l]; cbn [Nat.add firstn skipn app].
  - now rewrite firstn_nil.
  - now rewrite IH.
Qed.

Lemma chunks_concat {A} (n m : nat) (l : list A) :
  List.concat (map (fun i => firstn n (skipn i l))
                   (map (fun k => (k * n)%nat) (seq 0 m)))
  = firstn (m * n) l.
Proof.
  induction m as [|m IH]; [reflexivity|].
  rewrite seq_S, !map_app, concat_app, IH. cbn [map List.concat Nat.add].
  rewrite app_nil_r. replace (S m * n)%nat with (m * n + n)%nat by lia.
  now rewrite firstn_plus.
Qed.

Lemma batch_count (n : nat) :
  (n <= (n + BATCH_SIZE - 1) / BATCH_SIZE * BATCH_SIZE)%nat
  /\ (forall k, (k < (n + BATCH_SIZE - 1) / BATCH_SIZE)%nat ->
                (k * BATCH_SIZE < n)%nat).
Proof.
  unfold BATCH_SIZE.
  pose proof (Nat.div_mod_eq (n + 50 - 1) 50) as E.
  pose proof (Nat.mod_upper_bound (n + 50 - 1) 50 ltac:(lia)) as U.
  set (m := ((n + 50 - 1) / 50)%nat) in *.
  split; [lia|]. intros k Hk. nia.
Qed.

(** X11.  The video IDs are asked for in batches that, put end to end,
    are the list of IDs itself: every ID is requested once, in order.
    Each batch has at least one and at most fifty IDs, and a successful
    fetch has made exactly one request per batch, for the IDs of the batch
    joined by commas. *)
Theorem batches_cover_the_ids youtube (ids : list string) :
  List.concat (batches ids) = ids
  /\ Forall (fun b => (1 <= List.length b <= BATCH_SIZE)%nat) (batches ids)
  /\ List.length (batches ids)
     = ((List.length ids + BATCH_SIZE - 1) / BATCH_SIZE)%nat
  /\ (forall t vs t',
         Api.fetch_videos_metadata youtube ids t = (Ok vs, t') ->
         t' = (t ++ map (fun b => CallVideos (join "," b)) (batches ids))%list).
Proof.
  destruct (batch_count (List.length ids)) as [Hup Hlow].
  split; [|split; [|split]].
  - unfold batches, Api.range_step, Api.batch_at.
    rewrite chunks_concat. now apply firstn_all2.
  - unfold batches, Api.range_step. apply Forall_forall. intros b Hb.
    apply in_map_iff in Hb. destruct Hb as (i & <- & Hi).
    apply in_map_iff in Hi. destruct Hi as (k & <- & Hk).
    apply in_seq in Hk. specialize (Hlow k ltac:(lia)).
    unfold Api.batch_at. rewrite length_firstn, length_skipn.
    unfold BATCH_SIZE in *. lia.
  - unfold batches, Api.range_step. now rewrite !length_map, length_seq.
  - unfold Api.fetch_videos_metadata. fold (batches ids).
    generalize (batches ids). intros bs.
    assert (G : forall out t vs t',
               Api.fetch_batches youtube bs out t = (Ok vs, t') ->
               t' = (t ++ map (fun b => CallVideos (join "," b)) bs)%list).
    { induction bs as [|b bs IH]; intros out t vs t'; cbn [Api.fetch_batches map].
      - unfold ret. intros H. injection H as _ <-. now rewrite app_nil_r.
      - unfold bind, request, lift.
        destruct (videos_list youtube (join "," b)) as [items|]; [|discriminate].
        destruct (Api.to_videos items) as [xs|e|l]; try discriminate.
        intros H. apply IH in H. rewrite H. now rewrite <- app_assoc. }
    apply G.
Qed.

(** *** The records *)

Lemma to_video_duration v x :
  Api.to_video v = Ok x -> 0 <= duration_seconds x.
Proof.
  unfold Api.to_video.
  rewrite DurationFacts.parse_is_scan.
  destruct (CodecFacts.scan_cases
              (replace "PT" EmptyString (vi_duration v)) EmptyString 0
              ltac:(lia)) as [(n & -> & Hn)| ->]; [|discriminate].
  cbn [obind]. intros H. now injection H as <-.
Qed.

Lemma to_video_raises v e : Api.to_video v = Raise e -> e = ValueError.
Proof.
  unfold Api.to_video.
  rewrite DurationFacts.parse_is_scan.
  destruct (CodecFacts.scan_cases
              (replace "PT" EmptyString (vi_duration v)) EmptyString 0
              ltac:(lia)) as [(n & -> & Hn)| ->]; cbn [obind]; congruence.
Qed.

Lemma to_video_within v l : Api.to_video v <> Beyond l.
Proof.
  unfold Api.to_video.
  rewrite DurationFacts.parse_is_scan.
  destruct (CodecFacts.scan_cases
              (replace "PT" EmptyString (vi_duration v)) EmptyString 0
              ltac:(lia)) as [(n & -> & Hn)| ->]; cbn [obind]; congruence.
Qed.

Lemma to_videos_cases items :
  (exists xs, Api.to_videos items = Ok xs
              /\ Forall (fun x => 0 <= duration_seconds x) xs)
  \/ Api.to_videos items = Raise ValueError.
Proof.
  induction items as [|v items IH]; cbn [Api.to_videos].
  - left. exists []. now split.
  - destruct (Api.to_video v) as [x|e|l] eqn:E; cbn [obind].
    + destruct IH as [(xs & -> & Hxs)| ->]; cbn [obind]; [left|now right].
      exists (x :: xs). split; [reflexivity|].
      constructor; [now apply (to_video_duration v)|exact Hxs].
    + right. now rewrite (to_video_raises v e E).
    + now elim (to_video_within v l).
Qed.

Lemma fetch_batches_cases youtube bs :
  forall out t,
    Forall (fun x => 0 <= duration_seconds x) out ->
    (exists vs t', Api.fetch_batches youtube bs out t = (Ok vs, t')
                   /\ Forall (fun x => 0 <= duration_seconds x) vs)
    \/ (exists e t', Api.fetch_batches youtube bs out t = (Raise e, t')
                     /\ (e = HttpError \/ e = ValueError)).
Proof.
  induction bs as [|b bs IH]; intros out t Ho; cbn [Api.fetch_batches].
  - left. exists out, t. now split.
  - unfold bind, request, lift.
    destruct (videos_list youtube (join "," b)) as [items|].
    + destruct (to_videos_cases items) as [(xs & -> & Hxs)| ->].
      * apply IH. apply Forall_app. now split.
      * right. eexists _, _. split; [reflexivity|now right].
    + right. eexists _, _. split; [reflexivity|now left].
Qed.

(** X12.  Every record that a successful fetch of the videos returns has a
    duration that is not negative. *)
Theorem fetched_durations_are_not_negative youtube ids t vs t' :
  Api.fetch_videos_metadata youtube ids t = (Ok vs, t') ->
  Forall (fun x => 0 <= duration_seconds x) vs.
Proof.
  unfold Api.fetch_videos_metadata. intros H.
  destruct (fetch_batches_cases youtube
              (map (Api.batch_at ids)
                   (Api.range_step (List.length ids) BATCH_SIZE))
              [] t (Forall_nil _))
    as [(vs0 & t0 & E & Hv)|(e & t0 & E & _)];
    rewrite E in H; [|discriminate].
  now injection H as <- _.
Qed.

Lemma one_video_fetch t :
  Api.fetch_videos_metadata ReportTerms.one_video_service ["vid1"] t
  = (Ok [ReportTerms.one_video], (t ++ [CallVideos "vid1"])%list).
Proof. reflexivity. Qed.

Lemma batches_cover_the_ids_witness :
  [CallVideos "vid1"]
  = ([] ++ map (fun b => CallVideos (join "," b)) (batches ["vid1"]))%list.
Proof.
  apply (proj2 (proj2 (proj2
           (batches_cover_the_ids ReportTerms.one_video_service ["vid1"])))
           [] [ReportTerms.one_video] [CallVideos "vid1"]).
  apply one_video_fetch.
Defined.

Lemma fetched_durations_are_not_negative_witness :
  Forall (fun x => 0 <= duration_seconds x) [ReportTerms.one_video].
Proof.
  apply (fetched_durations_are_not_negative ReportTerms.one_video_service
           ["vid1"] [] [ReportTerms.one_video] [CallVideos "vid1"]).
  apply one_video_fetch.
Defined.

End ApiFacts.

(** ** More on the originality engine *)

Module ScorerFacts.
Import Originality OriginalityTerms ScorerTerms.
Local Open Scope R_scope.

(** On durations that are not negative the scorer returns, with the
    signals and the explanation that its body computes. *)
Lemma scorer_returns (videos_meta : list video) :
  Forall (fun v => (0 <= duration_seconds v)%Z) videos_meta ->
  exists score sig,
    metadata_originality_analysis videos_meta = Ok (score, explain sig, sig)
    /\ score = py_int (clamp (raw_score sig))
    /\ 0 <= desc_dup_ratio sig
    /\ 0 <= empty_desc_ratio sig
    /\ 0 <= shorts_ratio sig
    /\ dur_uniformity sig
       = 1 - sqrt (over (rsum (map (fun x =>
                     (IZR x - over (IZR (zsum (map duration_seconds videos_meta)))
                                   (zlen videos_meta)) ^ 2)
                   (map duration_seconds videos_meta))) (zlen videos_meta))
             / (over (IZR (zsum (map duration_seconds videos_meta)))
                     (zlen videos_meta) + 1)
    /\ 0 <= over (IZR (zsum (map duration_seconds videos_meta)))
                 (zlen videos_meta).
Proof.
  intros Hdur. unfold metadata_originality_analysis.
  set (descs := map (fun v => PyStr.strip (description v)) videos_meta).
  set (durations := map duration_seconds videos_meta).
  set (N := zlen videos_meta).
  set (avg := over (IZR (zsum durations)) N).
  assert (Havg : 0 <= avg).
  { apply OriginalityFacts.over_nonneg. apply IZR_le.
    apply OriginalityFacts.zsum_nonneg. subst durations. now apply Forall_map. }
  destruct (Req_dec_T (avg + 1) 0) as [E|_]; [lra|].
  eexists _, _. split; [reflexivity|].
  cbn [desc_dup_ratio empty_desc_ratio shorts_ratio dur_uniformity].
  assert (Hd : zlen descs = N)
    by (subst descs N; apply OriginalityFacts.zlen_map).
  assert (Hu : zlen durations = N)
    by (subst durations N; apply OriginalityFacts.zlen_map).
  split; [reflexivity|].
  repeat split; try exact Havg;
    try (apply OriginalityFacts.over_unit; rewrite <- ?Hd;
         apply OriginalityFacts.count_if_bounds);
    try (apply OriginalityFacts.over_unit; rewrite <- ?Hu;
         apply OriginalityFacts.count_if_bounds).
Qed.



(** What each note of an explanation says of the signals. *)
Lemma explain_notes (s : signals) :
  (In note_duplicates (explain s) <-> desc_dup_ratio s > 0.2)
  /\ (In note_empty (explain s) <-> empty_desc_ratio s > 0.4)
  /\ (In note_shorts (explain s) <-> shorts_ratio s > 0.85)
  /\ (In note_uniform (explain s) <-> dur_uniformity s < 0.3)
  /\ (In note_none (explain s)
      <-> ~ desc_dup_ratio s > 0.2 /\ ~ empty_desc_ratio s > 0.4
          /\ ~ shorts_ratio s > 0.85 /\ ~ dur_uniformity s < 0.3)
  /\ (1 <= List.length (explain s) <= 4)%nat.
Proof.
  unfold explain, note_duplicates, note_empty, note_shorts, note_uniform,
    note_none.
  destruct (Rgt_dec (desc_dup_ratio s) 0.2);
    destruct (Rgt_dec (empty_desc_ratio s) 0.4);
    destruct (Rgt_dec (shorts_ratio s) 0.85);
    destruct (Rlt_dec (dur_uniformity s) 0.3);
    cbn [app In List.length];
    repeat split; try lia; intros;
    repeat match goal with
           | H : _ \/ _ |- _ => destruct H
           | H : _ /\ _ |- _ => destruct H
           | H : False |- _ => destruct H
           | H : @eq string _ _ |- _ => discriminate H || clear H
           end;
    try contradiction; try assumption; auto 6.
Qed.

(** X14.  The explanation that the scorer returns has between one and
    four notes.  Each of the four notes is in it exactly when its signal is
    past its threshold: the duplicate ratio above 0.2, the empty ratio
    above 0.4, the shorts ratio above 0.85, the duration uniformity below
    0.3; and the note that nothing was detected is in it exactly when none
    is. *)
Theorem explanation_follows_the_signals videos_meta score explanation sig :
  metadata_originality_analysis videos_meta = Ok (score, explanation, sig) ->
  (In note_duplicates explanation <-> desc_dup_ratio sig > 0.2)
  /\ (In note_empty explanation <-> empty_desc_ratio sig > 0.4)
  /\ (In note_shorts explanation <-> shorts_ratio sig > 0.85)
  /\ (In note_uniform explanation <-> dur_uniformity sig < 0.3)
  /\ (In note_none explanation
      <-> ~ desc_dup_ratio sig > 0.2 /\ ~ empty_desc_ratio sig > 0.4
          /\ ~ shorts_ratio sig > 0.85 /\ ~ dur_uniformity sig < 0.3)
  /\ (1 <= List.length explanation <= 4)%nat.
Proof.
  unfold metadata_originality_analysis.
  match goal with |- context [Req_dec_T ?a ?b] => destruct (Req_dec_T a b) end;
    [discriminate|].
  intros H. injection H as _ <- <-. apply explain_notes.
Qed.

Lemma explanation_follows_the_signals_witness :
  (In note_duplicates [note_none] <-> desc_dup_ratio no_videos_signals > 0.2)
  /\ (In note_empty [note_none] <-> empty_desc_ratio no_videos_signals > 0.4)
  /\ (In note_shorts [note_none] <-> shorts_ratio no_videos_signals > 0.85)
  /\ (In note_uniform [note_none] <-> dur_uniformity no_videos_signals < 0.3)
  /\ (In note_none [note_none]
      <-> ~ desc_dup_ratio no_videos_signals > 0.2
          /\ ~ empty_desc_ratio no_videos_signals > 0.4
          /\ ~ shorts_ratio no_videos_signals > 0.85
          /\ ~ dur_uniformity no_videos_signals < 0.3)
  /\ (1 <= List.length [note_none] <= 4)%nat.
Proof.
  apply (explanation_follows_the_signals [] 100%Z [note_none] no_videos_signals).
  apply OriginalityFacts.originality_nil.
Defined.

Lemma zsum_const d l :
  Forall (fun x => x = d) l -> zsum l = (zlen l * d)%Z.
Proof.
  unfold zlen. induction 1 as [|x l -> _ IH]; [reflexivity|].
  cbn [zsum fold_right List.length]. unfold zsum in IH. rewrite IH. lia.
Qed.

Lemma rsum_zero {A} (f : A -> R) l :
  Forall (fun x => f x = 0) l -> rsum (map f l) = 0.
Proof.
  induction 1 as [|x l Hx _ IH]; [reflexivity|].
  cbn [map rsum fold_right]. unfold rsum in IH. rewrite Hx, IH. lra.
Qed.

Lemma over_zero N : over 0 N = 0.
Proof. unfold over, Rdiv. apply Rmult_0_l. Qed.

Lemma over_all N : (1 <= N)%Z -> over (IZR N) N = 1.
Proof.
  intros H. unfold over. rewrite Z.max_r by lia.
  assert (0 < IZR N) by (apply IZR_lt; lia). now field_simplify; [|lra].
Qed.

Lemma over_product N d : (1 <= N)%Z -> over (IZR (N * d)) N = IZR d.
Proof.
  intros H. unfold over. rewrite Z.max_r by lia. rewrite mult_IZR.
  assert (0 < IZR N) by (apply IZR_lt; lia). field. lra.
Qed.



Lemma scorer_dup_ratio videos_meta score explanation sig :
  metadata_originality_analysis videos_meta = Ok (score, explanation, sig) ->
  let descs := map (fun v => PyStr.strip (description v)) videos_meta in
  desc_dup_ratio sig
  = over (IZR (count_if (fun d => PyStr.truthy d && (1 <? Counter descs d)%Z)
                         descs))
         (zlen videos_meta).
Proof.
  unfold metadata_originality_analysis.
  match goal with |- context [Req_dec_T ?a ?b] => destruct (Req_dec_T a b) end;
    [discriminate|].
  intros H. injection H as _ _ <-. reflexivity.
Qed.

Lemma filter_none {A} (p : A -> bool) l :
  (forall x, In x l -> p x = false) -> filter p l = [].
Proof.
  induction l as [|x l IH]; intros H; [reflexivity|].
  cbn [filter]. rewrite (H x (or_introl eq_refl)).
  apply IH. intros y Hy. apply H. now right.
Qed.

Lemma filter_all {A} (p : A -> bool) l :
  (forall x, In x l -> p x = true) -> filter p l = l.
Proof.
  induction l as [|x l IH]; intros H; [reflexivity|].
  cbn [filter]. rewrite (H x (or_introl eq_refl)). f_equal.
  apply IH. intros y Hy. apply H. now right.
Qed.

Lemma count_occ_all (d : string) l :
  Forall (fun x => x = d) l ->
  count_occ string_dec l d = List.length l.
Proof.
  induction 1 as [|x l -> _ IH]; [reflexivity|].
  cbn [count_occ List.length]. destruct (string_dec d d); congruence.
Qed.

(** X16.  The duplicate ratio is 0 when the stripped descriptions of the
    videos are all different, and 1 when two or more videos have all the
    same stripped description and it is not empty. *)
Theorem duplicate_ratio_extremes videos_meta score explanation sig :
  metadata_originality_analysis videos_meta = Ok (score, explanation, sig) ->
  let descs := map (fun v => PyStr.strip (description v)) videos_meta in
  (NoDup descs -> desc_dup_ratio sig = 0)
  /\ (forall d, PyStr.truthy d = true ->
                (2 <= List.length videos_meta)%nat ->
                Forall (fun x => x = d) descs ->
                desc_dup_ratio sig = 1).
Proof.
  intros E descs. rewrite (scorer_dup_ratio _ _ _ _ E). fold descs. split.
  - intros Hnd. unfold count_if. rewrite filter_none; [apply over_zero|].
    intros x _. pose proof (proj1 (NoDup_count_occ string_dec descs) Hnd x).
    unfold Counter. destruct (Z.ltb_spec 1 (Z.of_nat (count_occ string_dec descs x)));
      [lia|apply andb_false_r].
  - intros d Ht Hlen Hall. unfold count_if. rewrite filter_all.
    + assert (L : zlen descs = zlen videos_meta)
        by (apply OriginalityFacts.zlen_map).
      rewrite L. apply over_all. unfold zlen. lia.
    + intros x Hx.
      assert (x = d) by (eapply Forall_forall in Hall; eauto). subst x.
      rewrite Ht. unfold Counter. rewrite (count_occ_all d descs Hall).
      unfold descs. rewrite length_map.
      destruct (Z.ltb_spec 1 (Z.of_nat (List.length videos_meta)));
        [reflexivity|lia].
Qed.

Lemma duplicate_ratio_extremes_witness :
  exists sig,
    (NoDup (map (fun v => PyStr.strip (description v))
                [sample_video; sample_video]) ->
     desc_dup_ratio sig = 0)
    /\ (forall d, PyStr.truthy d = true ->
                  (2 <= List.length [sample_video; sample_video])%nat ->
                  Forall (fun x => x = d)
                         (map (fun v => PyStr.strip (description v))
                              [sample_video; sample_video]) ->
                  desc_dup_ratio sig = 1).
Proof.
  destruct (scorer_returns [sample_video; sample_video])
    as (score & sig & E & _).
  - repeat constructor; simpl; lia.
  - exists sig.
    apply (duplicate_ratio_extremes [sample_video; sample_video]
             score (explain sig) sig E).
Defined.

End ScorerFacts.

(** ** More on the report *)

Module ReportFacts.
Import PyStr Analyzer AnalyzerTerms ApiTerms ReportTerms.

Section WithClock.

Variable fromisoformat : string -> option datetime.

Local Abbreviation recent_split := (recent_split fromisoformat).
Local Abbreviation build_report := (build_report fromisoformat).
Local Abbreviation recent_b := (recent_b fromisoformat).
Local Abbreviation analyze_resolved := (analyze_resolved fromisoformat).
Local Abbreviation analyze_channel_full := (analyze_channel_full fromisoformat).

(** The two recent lists are the videos that pass the test of the loop, in
    the order of the list. *)
Lemma recent_split_filter cut videos_meta :
  forall shorts_30 longs_30 s l,
    recent_split cut videos_meta shorts_30 longs_30 = Ok (s, l) ->
    s = (shorts_30
         ++ filter (fun v => recent_b cut v && is_short v) videos_meta)%list
    /\ l = (longs_30
            ++ filter (fun v => recent_b cut v && negb (is_short v))
                      videos_meta)%list.
Proof.
  induction videos_meta as [|x rest IH]; intros shorts_30 longs_30 s l;
    cbn [Analyzer.recent_split filter].
  - intros H. injection H as <- <-. now rewrite !app_nil_r.
  - unfold ReportTerms.recent_b.
    destruct (parse_published fromisoformat x) as [[t|dt]|];
      [discriminate| |].
    + destruct (cut <=? dt); cbn [andb].
      * destruct (is_short x); cbn [negb]; intros H; apply IH in H;
          destruct H as [-> ->]; now rewrite <- ?app_assoc.
      * apply IH.
    + cbn [andb]. apply IH.
Qed.

Lemma recent_split_raises cut videos_meta :
  forall shorts_30 longs_30,
    match recent_split cut videos_meta shorts_30 longs_30 with
    | Ok _ => True
    | Raise e => e = TypeError
    | Beyond _ => False
    end.
Proof.
  induction videos_meta as [|x rest IH]; intros shorts_30 longs_30;
    cbn [Analyzer.recent_split]; [exact I|].
  destruct (parse_published fromisoformat x) as [[t|dt]|];
    [reflexivity| |apply IH].
  destruct (cut <=? dt); [|apply IH].
  destruct (is_short x); apply IH.
Qed.

(** The entries of a report, read off the list of videos. *)
Lemma build_report_totals ch videos_meta now r :
  build_report ch videos_meta now = Ok r ->
  r_shorts_count r = zlen (filter is_short videos_meta)
  /\ r_videos_count r = zlen (filter is_long videos_meta)
  /\ r_videos_scanned r = zlen videos_meta
  /\ r_total_shorts_views_lifetime r
     = total_views (filter is_short videos_meta)
  /\ r_total_long_views_lifetime r
     = total_views (filter is_long videos_meta)
  /\ r_shorts_30d_count r
     = zlen (filter (fun v => recent_b (cutoff now) v && is_short v)
                    videos_meta)
  /\ r_videos_30d_count r
     = zlen (filter (fun v => recent_b (cutoff now) v && negb (is_short v))
                    videos_meta)
  /\ r_total_shorts_views_30d r
     = total_views (filter (fun v => recent_b (cutoff now) v && is_short v)
                           videos_meta)
  /\ r_total_long_views_30d r
     = total_views (filter (fun v => recent_b (cutoff now) v
                                     && negb (is_short v)) videos_meta)
  /\ r_avg_short_duration_human r
     = avg_human (avg_duration (filter is_short videos_meta))
  /\ r_avg_long_duration_human r
     = avg_human (avg_duration (filter is_long videos_meta))
  /\ r_subscribers r = subscribers ch
  /\ r_channel_id r = channel_id ch
  /\ ShortNumber.short_number (subscribers ch) = Ok (r_subscribers_fmt r).
Proof.
  unfold Analyzer.build_report.
  destruct (recent_split (cutoff now) videos_meta [] [])
    as [[s l]|e|b] eqn:E; cbn [obind]; try discriminate.
  apply recent_split_filter in E. cbn [app] in E. destruct E as [-> ->].
  destruct (Originality.metadata_originality_analysis videos_meta)
    as [o|e|b]; cbn [obind]; try discriminate.
  destruct (ShortNumber.short_number (subscribers ch));
    cbn [obind]; try discriminate.
  destruct (ShortNumber.short_number (total_views (filter is_short videos_meta)));
    cbn [obind]; try discriminate.
  destruct (ShortNumber.short_number (total_views (filter is_long videos_meta)));
    cbn [obind]; try discriminate.
  match goal with |- context [ShortNumber.short_number (total_views (fst ?p))] =>
    destruct (ShortNumber.short_number (total_views (fst p)));
      cbn [obind]; try discriminate;
    destruct (ShortNumber.short_number (total_views (snd p)));
      cbn [obind]; try discriminate
  end.
  intros H. injection H as <-. cbn. repeat split.
Qed.

Lemma filter_and_length {A} (p q : A -> bool) l :
  zlen (filter (fun x => p x && q x) l) <= zlen (filter q l).
Proof.
  unfold zlen. induction l as [|x l IH]; [reflexivity|].
  cbn [filter]. destruct (p x), (q x); cbn [andb List.length]; lia.
Qed.

Lemma filter_and_views (p q : video -> bool) l :
  Forall (fun v => 0 <= views v) l ->
  total_views (filter (fun x => p x && q x) l) <= total_views (filter q l).
Proof.
  unfold total_views, zsum. induction 1 as [|x l Hx _ IH]; [reflexivity|].
  cbn [filter]. destruct (p x), (q x); cbn [andb map fold_right]; lia.
Qed.

Lemma views_split (p : video -> bool) l :
  total_views (filter p l) + total_views (filter (fun v => negb (p v)) l)
  = total_views l.
Proof.
  unfold total_views, zsum. induction l as [|x l IH]; [reflexivity|].
  cbn [filter]. destruct (p x); cbn [negb map fold_right]; lia.
Qed.

Lemma filter_twice {A} (p q : A -> bool) l :
  filter q (filter p l) = filter (fun x => p x && q x) l.
Proof.
  induction l as [|x l IH]; [reflexivity|].
  cbn [filter]. destruct (p x); cbn [filter andb]; [|exact IH].
  destruct (q x); now rewrite IH.
Qed.

Lemma filter_long l :
  filter is_long l = filter (fun v => negb (is_short v)) l.
Proof.
  apply filter_ext. intros v. apply AnalyzerFacts.short_or_long.
Qed.

(** X17.  In every report the views of the shorts and the views of the
    long videos add up to the views of all videos scanned, and the views of
    the recent shorts and recent long videos to the views of the recent
    videos. *)
Theorem views_are_partitioned ch videos_meta now r :
  build_report ch videos_meta now = Ok r ->
  r_total_shorts_views_lifetime r + r_total_long_views_lifetime r
  = total_views videos_meta
  /\ r_total_shorts_views_30d r + r_total_long_views_30d r
     = total_views (filter (recent_b (cutoff now)) videos_meta).
Proof.
  intros H.
  destruct (build_report_totals ch videos_meta now r H)
    as (_ & _ & _ & -> & -> & _ & _ & -> & -> & _).
  split.
  - rewrite filter_long. apply views_split.
  - rewrite <- (views_split is_short (filter (recent_b (cutoff now)) videos_meta)).
    now rewrite !filter_twice.
Qed.

(** X18.  In every report the recent counts are at most the lifetime
    counts, for the shorts and for the long videos, and so are the recent
    views when no video has a negative number of views. *)
Theorem recent_is_within_lifetime ch videos_meta now r :
  build_report ch videos_meta now = Ok r ->
  r_shorts_30d_count r <= r_shorts_count r
  /\ r_videos_30d_count r <= r_videos_count r
  /\ (Forall (fun v => 0 <= views v) videos_meta ->
      r_total_shorts_views_30d r <= r_total_shorts_views_lifetime r
      /\ r_total_long_views_30d r <= r_total_long_views_lifetime r).
Proof.
  intros H.
  destruct (build_report_totals ch videos_meta now r H)
    as (-> & -> & _ & -> & -> & -> & -> & -> & -> & _).
  rewrite !filter_long.
  split; [apply filter_and_length|].
  split; [apply (filter_and_length _ (fun v => negb (is_short v)))|].
  intros Hv. split.
  - now apply filter_and_views.
  - now apply (filter_and_views _ (fun v => negb (is_short v))).
Qed.

(** *** The requests of an analysis *)

Lemma playlist_pages_trace fuel youtube playlist :
  forall tok ids t o t',
    Api.playlist_pages fuel youtube playlist tok ids t = (o, t') ->
    exists p, t' = (t ++ p)%list
              /\ Forall (fun c => is_playlist c = true) p
              /\ forall e, o = Raise e -> e = HttpError.
Proof.
  induction fuel as [|fuel IH]; intros tok ids t o t'.
  - cbn. intros H. injection H as <- <-. exists [].
    rewrite app_nil_r. repeat split; [constructor|discriminate].
  - cbn [Api.playlist_pages]. unfold bind, request.
    destruct (playlistItems_list youtube playlist tok) as [[items next]|].
    + cbn [fst snd]. destruct (present next) as [tok'|].
      * intros H. apply IH in H. destruct H as (p & -> & Hp & He).
        exists (CallPlaylistItems playlist tok :: p).
        rewrite <- app_assoc. repeat split; [now constructor|exact He].
      * unfold ret. intros H. injection H as <- <-.
        exists [CallPlaylistItems playlist tok].
        repeat split; [now repeat constructor|discriminate].
    + intros H. injection H as <- <-.
      exists [CallPlaylistItems playlist tok].
      repeat split; [now repeat constructor|congruence].
Qed.

Lemma fetch_batches_trace youtube bs :
  forall out t o t',
    Api.fetch_batches youtube bs out t = (o, t') ->
    exists v, t' = (t ++ v)%list /\ Forall (fun c => is_videos c = true) v.
Proof.
  induction bs as [|b bs IH]; intros out t o t'; cbn [Api.fetch_batches].
  - unfold ret. intros H. injection H as <- <-. exists [].
    rewrite app_nil_r. now split.
  - unfold bind, request, lift.
    destruct (videos_list youtube (join "," b)) as [items|].
    + destruct (Api.to_videos items) as [xs|e|l].
      * intros H. apply IH in H. destruct H as (v & -> & Hv).
        exists (CallVideos (join "," b) :: v). rewrite <- app_assoc.
        split; [reflexivity|now constructor].
      * intros H. injection H as <- <-. exists [CallVideos (join "," b)].
        split; [reflexivity|now repeat constructor].
      * intros H. injection H as <- <-. exists [CallVideos (join "," b)].
        split; [reflexivity|now repeat constructor].
    + intros H. injection H as <- <-. exists [CallVideos (join "," b)].
      split; [reflexivity|now repeat constructor].
Qed.

(** What an analysis does once it has a channel ID: the request for the
    channel, then pages of the playlist, then batches of videos; an error
    is the missing channel, found out with the first request. *)
Lemma analyze_resolved_shape fuel youtube now cid t o t' :
  analyze_resolved fuel youtube now cid t = (o, t') ->
  exists p v,
    t' = (t ++ CallChannels cid :: p ++ v)%list
    /\ Forall (fun c => is_playlist c = true) p
    /\ Forall (fun c => is_videos c = true) v
    /\ (forall e, o = Ok (AnalysisError e) ->
                  e = not_found /\ p = [] /\ v = []
                  /\ channels_list youtube cid = Returned []).
Proof.
  unfold Analyzer.analyze_resolved, Api.fetch_channel_basic, bind, request.
  destruct (channels_list youtube cid) as [[|it more]|] eqn:E.
  - unfold ret. intros H. injection H as <- <-. exists [], [].
    split; [reflexivity|]. split; [constructor|]. split; [constructor|].
    intros e He. injection He as <-. auto.
  - cbn [ret].
    destruct (match present (uploads_playlist _) with
              | Some uploads =>
                  Api.fetch_all_video_ids_from_playlist fuel youtube uploads
              | None => ret []
              end (t ++ [CallChannels cid])%list) as [o1 t1] eqn:E1.
    assert (P : exists p, t1 = ((t ++ [CallChannels cid]) ++ p)%list
                          /\ Forall (fun c => is_playlist c = true) p).
    { destruct (present (uploads_playlist _)).
      - unfold Api.fetch_all_video_ids_from_playlist in E1.
        apply playlist_pages_trace in E1. destruct E1 as (p & -> & Hp & _).
        eauto.
      - unfold ret in E1. injection E1 as _ <-. exists [].
        rewrite app_nil_r. now split. }
    destruct P as (p & -> & Hp).
    assert (Done : forall (o' : outcome analysis) v,
               Forall (fun c => is_videos c = true) v ->
               (forall e, o' <> Ok (AnalysisError e)) ->
               exists p0 v0,
                 (((t ++ [CallChannels cid]) ++ p) ++ v)%list
                 = (t ++ CallChannels cid :: p0 ++ v0)%list
                 /\ Forall (fun c => is_playlist c = true) p0
                 /\ Forall (fun c => is_videos c = true) v0
                 /\ (forall e, o' = Ok (AnalysisError e) ->
                               e = not_found /\ p0 = [] /\ v0 = []
                               /\ Returned (it :: more) = Returned [])).
    { intros o' v Hv Hne. exists p, v. split; [now rewrite <- !app_assoc|].
      split; [exact Hp|]. split; [exact Hv|].
      intros e He. now elim (Hne e). }
    destruct o1 as [ids|e|l].
    + unfold Api.fetch_videos_metadata.
      destruct (Api.fetch_batches youtube _ [] _) as [o2 t2] eqn:E2.
      apply fetch_batches_trace in E2. destruct E2 as (v & -> & Hv).
      destruct o2 as [vm|e|l]; unfold lift, ret.
      * destruct (build_report _ vm now) as [r|e|l];
          intros H; injection H as <- <-; apply Done; auto; discriminate.
      * intros H; injection H as <- <-; apply Done; auto; discriminate.
      * intros H; injection H as <- <-; apply Done; auto; discriminate.
    + intros H. injection H as <- <-.
      rewrite <- (app_nil_r ((t ++ [CallChannels cid]) ++ p)%list).
      apply Done; [constructor|discriminate].
    + intros H. injection H as <- <-.
      rewrite <- (app_nil_r ((t ++ [CallChannels cid]) ++ p)%list).
      apply Done; [constructor|discriminate].
  - intros H. injection H as <- <-. exists [], [].
    split; [reflexivity|]. split; [constructor|]. split; [constructor|].
    discriminate.
Qed.

(** The requests of an analysis, in their order. *)
Lemma analyze_shape fuel youtube now inp t o t' :
  analyze_channel_full fuel youtube now inp t = (o, t') ->
  exists s c p v,
    t' = (t ++ s ++ c ++ p ++ v)%list
    /\ (List.length s <= 1)%nat /\ (List.length c <= 1)%nat
    /\ Forall (fun x => is_search x = true) s
    /\ Forall (fun x => is_channels x = true) c
    /\ Forall (fun x => is_playlist x = true) p
    /\ Forall (fun x => is_videos x = true) v
    /\ (c = [] -> p = [] /\ v = [])
    /\ (forall e, o = Ok (AnalysisError e) ->
                  (e = unresolved \/ e = not_found) /\ p = [] /\ v = []).
Proof.
  unfold Analyzer.analyze_channel_full.
  destruct (Resolver.extract_channel_from_input inp) as [cid0 canonical].
  destruct (present cid0) as [cid|].
  - intros H. apply analyze_resolved_shape in H.
    destruct H as (p & v & -> & Hp & Hv & He).
    exists [], [CallChannels cid], p, v. cbn [app List.length].
    split; [reflexivity|]. split; [lia|]. split; [lia|].
    split; [constructor|]. split; [now repeat constructor|].
    split; [exact Hp|]. split; [exact Hv|]. split; [discriminate|].
    intros e Ho. destruct (He e Ho) as (-> & -> & -> & _). auto.
  - unfold bind at 1.
    destruct (or_else canonical inp) as [x|].
    + rewrite AnalyzerFacts.resolve_handle_some.
      destruct (present (first_item (search_list youtube (query x)))) as [cid|].
      * intros H. apply analyze_resolved_shape in H.
        destruct H as (p & v & -> & Hp & Hv & He).
        exists [CallSearch (query x)], [CallChannels cid], p, v.
        rewrite <- app_assoc. cbn [app List.length].
        split; [reflexivity|]. split; [lia|]. split; [lia|].
        split; [now repeat constructor|]. split; [now repeat constructor|].
        split; [exact Hp|]. split; [exact Hv|]. split; [discriminate|].
        intros e Ho. destruct (He e Ho) as (-> & -> & -> & _). auto.
      * unfold ret. intros H. injection H as <- <-.
        exists [CallSearch (query x)], [], [], []. cbn [app List.length].
        split; [reflexivity|]. split; [lia|]. split; [lia|].
        split; [now repeat constructor|]. split; [constructor|].
        split; [constructor|]. split; [constructor|]. split; [auto|].
        intros e Ho. injection Ho as <-. split; [now left|auto].
    + rewrite AnalyzerFacts.resolve_handle_none. cbn [present].
      unfold ret. intros H. injection H as <- <-.
      exists [], [], [], []. cbn [app List.length]. rewrite app_nil_r.
      split; [reflexivity|]. split; [lia|]. split; [lia|].
      split; [constructor|]. split; [constructor|].
      split; [constructor|]. split; [constructor|]. split; [auto|].
      intros e Ho. injection Ho as <-. split; [now left|auto].
Qed.

(** X19.  The requests of an analysis come in one order: at most one
    search, then at most one request for the channel, then the pages of the
    playlist, then the batches of videos; and without a request for the
    channel there is no request for a playlist or for videos. *)
Theorem requests_go_forward fuel youtube now inp t o t' :
  analyze_channel_full fuel youtube now inp t = (o, t') ->
  exists s c p v,
    t' = (t ++ s ++ c ++ p ++ v)%list
    /\ (List.length s <= 1)%nat /\ (List.length c <= 1)%nat
    /\ Forall (fun x => is_search x = true) s
    /\ Forall (fun x => is_channels x = true) c
    /\ Forall (fun x => is_playlist x = true) p
    /\ Forall (fun x => is_videos x = true) v
    /\ (c = [] -> p = [] /\ v = []).
Proof.
  intros H. destruct (analyze_shape _ _ _ _ _ _ _ H)
    as (s & c & p & v & Ht & Hs & Hc & Fs & Fc & Fp & Fv & Hn & _).
  exists s, c, p, v. repeat split; auto; now apply Hn.
Qed.

(** X20.  An analysis that ends in an error has one of two messages, that
    the channel ID could not be resolved or that the channel was not
    found, and has made at most two requests, a search and a request for
    the channel: it has listed no playlist and fetched no video. *)
Theorem errors_come_early fuel youtube now inp t e t' :
  analyze_channel_full fuel youtube now inp t = (Ok (AnalysisError e), t') ->
  (e = unresolved \/ e = not_found)
  /\ exists calls,
      t' = (t ++ calls)%list
      /\ (List.length calls <= 2)%nat
      /\ Forall (fun c => is_lookup c = true) calls.
Proof.
  intros H. destruct (analyze_shape _ _ _ _ _ _ _ H)
    as (s & c & p & v & Ht & Hs & Hc & Fs & Fc & _ & _ & _ & He).
  destruct (He e eq_refl) as (Hm & -> & ->).
  split; [exact Hm|]. exists (s ++ c)%list.
  rewrite Ht, !app_nil_r. split; [reflexivity|].
  split; [rewrite length_app; lia|].
  apply Forall_app. split.
  - eapply Forall_impl; [|exact Fs]. intros x Hx. unfold is_lookup.
    now rewrite Hx.
  - eapply Forall_impl; [|exact Fc]. intros x Hx. unfold is_lookup.
    rewrite Hx. apply orb_true_r.
Qed.

(** X21.  A raw channel ID, that is an input which, stripped, starts with
    [UC] and has more than twenty characters, is analysed without a
    search: the first request is the one for the channel with the stripped
    input as its ID, and what follows are requests for the playlist and
    for videos only. *)
Theorem raw_id_needs_no_search fuel youtube now raw t :
  ResolverTerms.raw_id (strip raw) = true ->
  analyze_channel_full fuel youtube now (Some raw) t
  = analyze_resolved fuel youtube now (strip raw) t
  /\ forall o t',
      analyze_channel_full fuel youtube now (Some raw) t = (o, t') ->
      exists rest,
        t' = (t ++ CallChannels (strip raw) :: rest)%list
        /\ Forall (fun c => is_listing c = true) rest.
Proof.
  intros Hraw.
  assert (E : analyze_channel_full fuel youtube now (Some raw) t
              = analyze_resolved fuel youtube now (strip raw) t).
  { unfold Analyzer.analyze_channel_full, Resolver.extract_channel_from_input.
    cbn [Resolver.or_empty]. unfold ResolverTerms.raw_id in Hraw.
    destruct (strip raw) as [|c s] eqn:Es; [discriminate Hraw|].
    cbn [truthy negb]. rewrite Hraw. reflexivity. }
  split; [exact E|]. intros o t'. rewrite E. intros H.
  apply analyze_resolved_shape in H. destruct H as (p & v & -> & Hp & Hv & _).
  exists (p ++ v)%list. split; [reflexivity|].
  apply Forall_app. split.
  - eapply Forall_impl; [|exact Hp]. intros x Hx. unfold is_listing.
    now rewrite Hx.
  - eapply Forall_impl; [|exact Hv]. intros x Hx. unfold is_listing.
    rewrite Hx. apply orb_true_r.
Qed.

(** X22.  A channel without an uploads playlist is not an error: its
    report is the report on no video, with counts and views of 0, both
    averages ["N/A"] and a score of 100, and it costs the request for the
    channel and no other. *)
Theorem no_uploads_is_no_error fuel youtube now cid t it more fmt :
  channels_list youtube cid = Returned (it :: more) ->
  present (ci_uploads it) = None ->
  ShortNumber.short_number (subscribers (profile cid it)) = Ok fmt ->
  analyze_resolved fuel youtube now cid t
  = (Ok (Report (empty_report (profile cid it) fmt)),
     (t ++ [CallChannels cid])%list).
Proof.
  intros Hc Hu Hs.
  apply (AnalyzerFacts.analyze_resolved_no_uploads fromisoformat fuel youtube
           now cid t it more _ Hc Hu).
  now apply AnalyzerFacts.build_report_nil.
Qed.

(** *** The exceptions of an analysis *)

Lemma scale_raises us :
  forall value e,
    ShortNumber.scale us value = Raise e ->
    e = ValueError \/ e = OverflowError.
Proof.
  assert (R : forall v e, Float.repr_round1 v <> Raise e).
  { intros [s|s| |s m ex] e; unfold Float.repr_round1; try discriminate.
    destruct (10 ^ 17 <=? _); discriminate. }
  assert (T : forall v e, Float.to_int v = Raise e ->
                          e = ValueError \/ e = OverflowError).
  { intros [s|s| |s m ex] e; unfold Float.to_int; intros H;
      try discriminate H; injection H as <-; auto. }
  assert (N : forall v e, Float.round_to_int v = Raise e ->
                          e = ValueError \/ e = OverflowError).
  { intros [s|s| |s m ex] e; unfold Float.round_to_int; intros H;
      try discriminate H; injection H as <-; auto. }
  induction us as [|u us IH]; intros value e; cbn [ShortNumber.scale].
  - destruct (Float.repr_round1 value) as [x|e0|l] eqn:E; cbn [obind];
      try discriminate. now elim (R value e0).
  - destruct (Float.ltb (Float.abs value) (Float.nearest 1000)); [|apply IH].
    destruct (String.eqb u EmptyString).
    + destruct (Float.to_int value) as [x|e0|l] eqn:E; cbn [obind];
        try discriminate. intros H. injection H as <-. now apply (T value).
    + destruct (Float.geb value (Float.nearest 100)).
      * destruct (Float.round_to_int value) as [x|e0|l] eqn:E; cbn [obind];
          try discriminate. intros H. injection H as <-. now apply (N value).
      * destruct (Float.repr_round1 value) as [x|e0|l] eqn:E; cbn [obind];
          try discriminate. now elim (R value e0).
Qed.

Lemma short_number_raises n e :
  ShortNumber.short_number n = Raise e ->
  e = ValueError \/ e = OverflowError.
Proof.
  unfold ShortNumber.short_number. destruct (n <? 1000); [discriminate|].
  unfold Float.of_int.
  destruct (Float.nearest n) as [s|s| |s m ex]; cbn [obind];
    try apply scale_raises.
  intros H. injection H as <-. now right.
Qed.

Lemma build_report_raises ch videos_meta now e :
  Forall (fun v => 0 <= duration_seconds v) videos_meta ->
  build_report ch videos_meta now = Raise e ->
  analysis_exn e = true.
Proof.
  intros Hd. unfold Analyzer.build_report.
  pose proof (recent_split_raises (cutoff now) videos_meta [] []) as HR.
  destruct (recent_split (cutoff now) videos_meta [] []) as [[s l]|e0|b];
    cbn [obind]; [| |contradiction].
  2: { intros H. injection H as <-. now rewrite HR. }
  destruct (ScorerFacts.scorer_returns videos_meta Hd)
    as (score & sig & -> & _).
  cbn [obind].
  repeat match goal with
  | |- context [obind (ShortNumber.short_number ?n) _] =>
      let E := fresh "E" in
      destruct (ShortNumber.short_number n) as [?|?e1|?] eqn:E; cbn [obind];
      [ | let H := fresh "H" in
          intros H; injection H as <-; apply short_number_raises in E;
          destruct E as [->| ->]; reflexivity
        | discriminate ]
  end.
  discriminate.
Qed.

Lemma analyze_resolved_raises fuel youtube now cid t e t' :
  analyze_resolved fuel youtube now cid t = (Raise e, t') ->
  analysis_exn e = true.
Proof.
  unfold Analyzer.analyze_resolved, Api.fetch_channel_basic, bind, request.
  destruct (channels_list youtube cid) as [[|it more]|].
  - discriminate.
  - cbn [ret].
    destruct (match present (uploads_playlist _) with
              | Some uploads =>
                  Api.fetch_all_video_ids_from_playlist fuel youtube uploads
              | None => ret []
              end (t ++ [CallChannels cid])%list) as [o1 t1] eqn:E1.
    assert (P : forall e1, o1 = Raise e1 -> e1 = HttpError).
    { destruct (present (uploads_playlist _)).
      - unfold Api.fetch_all_video_ids_from_playlist in E1.
        apply playlist_pages_trace in E1. destruct E1 as (p & _ & _ & He).
        exact He.
      - unfold ret in E1. injection E1 as <- _. discriminate. }
    destruct o1 as [ids|e1|l].
    + unfold Api.fetch_videos_metadata.
      destruct (ApiFacts.fetch_batches_cases youtube
                  (map (Api.batch_at ids)
                       (Api.range_step (List.length ids) BATCH_SIZE))
                  [] t1 (Forall_nil _))
        as [(vs & t2 & -> & Hvs)|(e2 & t2 & -> & He2)].
      * unfold lift, ret.
        destruct (build_report _ vs now) as [r|e3|l] eqn:EB;
          intros H; try discriminate H. injection H as <- _.
        exact (build_report_raises _ vs now e3 Hvs EB).
      * intros H. injection H as <- _. destruct He2 as [->| ->]; reflexivity.
    + intros H. injection H as <- _. now rewrite (P e1 eq_refl).
    + discriminate.
  - intros H. injection H as <- _. reflexivity.
Qed.


(** An analysis that finds a channel, lists its uploads and fetches the
    videos gives the report built from them. *)
Lemma analyze_resolved_run fuel youtube now cid t it more uploads ids t1
      videos_meta t2 r :
  channels_list youtube cid = Returned (it :: more) ->
  present (ci_uploads it) = Some uploads ->
  Api.fetch_all_video_ids_from_playlist fuel youtube uploads
    (t ++ [CallChannels cid])%list = (Ok ids, t1) ->
  Api.fetch_videos_metadata youtube ids t1 = (Ok videos_meta, t2) ->
  build_report (profile cid it) videos_meta now = Ok r ->
  analyze_resolved fuel youtube now cid t = (Ok (Report r), t2).
Proof.
  intros Hc Hu Hi Hv Hb.
  unfold Analyzer.analyze_resolved, Api.fetch_channel_basic, bind, request.
  rewrite Hc. cbn [ret uploads_playlist]. rewrite Hu, Hi, Hv.
  unfold lift, ret. fold (profile cid it). now rewrite Hb.
Qed.

End WithClock.

(** *** The properties at the samples *)

Lemma one_video_built ch fmt :
  ShortNumber.short_number (subscribers ch) = Ok fmt ->
  exists r,
    Analyzer.build_report sample_fromisoformat ch [one_video] sample_now
    = Ok r.
Proof.
  intros Hs.
  assert (Hd : Forall (fun v => 0 <= duration_seconds v) [one_video])
    by (repeat constructor; discriminate).
  destruct (ScorerFacts.scorer_returns [one_video] Hd)
    as (score & sig & E & _).
  unfold Analyzer.build_report. rewrite E, Hs.
  eexists. reflexivity.
Qed.

Lemma one_video_analysis :
  exists r,
    Analyzer.analyze_channel_full sample_fromisoformat 1 one_video_service
      sample_now (Some one_id) []
    = (Ok (Report r), one_trace).
Proof.
  destruct (one_video_built (profile one_id one_item) "12" eq_refl)
    as [r Hr].
  exists r.
  change (Analyzer.analyze_channel_full sample_fromisoformat 1
            one_video_service sample_now (Some one_id) [])
    with (Analyzer.analyze_resolved sample_fromisoformat 1
            one_video_service sample_now one_id []).
  apply (analyze_resolved_run sample_fromisoformat 1 one_video_service
           sample_now one_id [] one_item [] "UU-one" ["vid1"]
           [CallChannels one_id; CallPlaylistItems "UU-one" None]
           [one_video] one_trace r); try reflexivity.
  exact Hr.
Qed.

Lemma views_are_partitioned_witness :
  exists r,
    Analyzer.build_report sample_fromisoformat
      (profile "UC-first" sample_item) [one_video] sample_now = Ok r
    /\ r_total_shorts_views_lifetime r + r_total_long_views_lifetime r
       = total_views [one_video]
    /\ r_total_shorts_views_30d r + r_total_long_views_30d r
       = total_views (filter (recent_b sample_fromisoformat (cutoff sample_now))
                             [one_video]).
Proof.
  destruct (one_video_built (profile "UC-first" sample_item) "1.5K" eq_refl)
    as [r Hr].
  exists r. split; [exact Hr|].
  exact (views_are_partitioned sample_fromisoformat _ _ _ r Hr).
Defined.

Lemma recent_is_within_lifetime_witness :
  exists r,
    Analyzer.build_report sample_fromisoformat
      (profile "UC-first" sample_item) [one_video] sample_now = Ok r
    /\ r_shorts_30d_count r <= r_shorts_count r
    /\ r_videos_30d_count r <= r_videos_count r
    /\ r_total_shorts_views_30d r <= r_total_shorts_views_lifetime r
    /\ r_total_long_views_30d r <= r_total_long_views_lifetime r.
Proof.
  destruct (one_video_built (profile "UC-first" sample_item) "1.5K" eq_refl)
    as [r Hr].
  exists r. split; [exact Hr|].
  destruct (recent_is_within_lifetime sample_fromisoformat _ _ _ r Hr)
    as (H1 & H2 & H3).
  split; [exact H1|]. split; [exact H2|].
  apply H3. repeat constructor. discriminate.
Defined.

Lemma requests_go_forward_witness :
  exists s c p v,
    ([] ++ [CallSearch "UCvalid"; CallChannels "UC-first"])%list
    = ([] ++ s ++ c ++ p ++ v)%list
    /\ (List.length s <= 1)%nat /\ (List.length c <= 1)%nat
    /\ Forall (fun x => is_search x = true) s
    /\ Forall (fun x => is_channels x = true) c
    /\ Forall (fun x => is_playlist x = true) p
    /\ Forall (fun x => is_videos x = true) v
    /\ (c = [] -> p = [] /\ v = []).
Proof.
  exact (requests_go_forward sample_fromisoformat 1 (sample_service Failed)
           sample_now (Some "UCvalid") [] _ _
           (AnalyzerFacts.sample_first_analysis Failed sample_now [])).
Defined.

(** The second sample input, when its channel has no profile and when the
    request for its profile fails. *)
Lemma sample_second_absent :
  Analyzer.analyze_channel_full sample_fromisoformat 1
    (sample_service (Returned [])) sample_now (Some "UCinvalid") []
  = (Ok (AnalysisError not_found),
     [CallSearch "UCinvalid"; CallChannels "UC-second"]).
Proof. reflexivity. Qed.

Lemma sample_second_failed :
  Analyzer.analyze_channel_full sample_fromisoformat 1
    (sample_service Failed) sample_now (Some "UCinvalid") []
  = (Raise HttpError, [CallSearch "UCinvalid"; CallChannels "UC-second"]).
Proof. reflexivity. Qed.

Lemma errors_come_early_witness :
  (not_found = unresolved \/ not_found = not_found)
  /\ exists calls,
      [CallSearch "UCinvalid"; CallChannels "UC-second"]
      = ([] ++ calls)%list
      /\ (List.length calls <= 2)%nat
      /\ Forall (fun c => is_lookup c = true) calls.
Proof.
  exact (errors_come_early sample_fromisoformat 1
           (sample_service (Returned [])) sample_now (Some "UCinvalid") []
           not_found _ sample_second_absent).
Defined.

Lemma raw_id_needs_no_search_witness :
  Analyzer.analyze_channel_full sample_fromisoformat 1 one_video_service
    sample_now (Some "  UCabcdefghijklmnopqrstuv ") []
  = Analyzer.analyze_resolved sample_fromisoformat 1 one_video_service
      sample_now "UCabcdefghijklmnopqrstuv" []
  /\ forall o t',
      Analyzer.analyze_channel_full sample_fromisoformat 1 one_video_service
        sample_now (Some "  UCabcdefghijklmnopqrstuv ") [] = (o, t') ->
      exists rest,
        t' = ([] ++ CallChannels "UCabcdefghijklmnopqrstuv" :: rest)%list
        /\ Forall (fun c => is_listing c = true) rest.
Proof.
  exact (raw_id_needs_no_search sample_fromisoformat 1 one_video_service
           sample_now "  UCabcdefghijklmnopqrstuv " [] eq_refl).
Defined.

Lemma no_uploads_is_no_error_witness :
  Analyzer.analyze_resolved sample_fromisoformat 1 (sample_service Failed)
    sample_now "UC-first" []
  = (Ok (Report (empty_report (profile "UC-first" sample_item) "1.5K")),
     ([] ++ [CallChannels "UC-first"])%list).
Proof.
  exact (no_uploads_is_no_error sample_fromisoformat 1 (sample_service Failed)
           sample_now "UC-first" [] sample_item [] "1.5K"
           eq_refl eq_refl eq_refl).
Defined.


End ReportFacts.

(* ------------------------------------------------------------------ *)
(** ** The frequency texts                                              *)
(* ------------------------------------------------------------------ *)

Module FrequencyFacts.
Import Frequency FrequencyTerms.

Lemma agrees_checked : agrees_up_to 3000 = true.
Proof. vm_compute. reflexivity. Qed.

Lemma agrees_below n count :
  agrees_up_to n = true -> 0 <= count <= n -> agrees count = true.
Proof.
  unfold agrees_up_to. rewrite forallb_forall. intros A H. apply A.
  apply in_map_iff. exists (Z.to_nat count).
  split; [lia|]. apply in_seq. lia.
Qed.

Lemma agrees_freq count :
  agrees count = true -> freq count = Ok (frequency_text count).
Proof.
  unfold agrees. destruct (freq count) as [s|e|l]; try discriminate.
  intros H. apply String.eqb_eq in H. now rewrite H.
Qed.

(** X24.  For up to three thousand recent uploads the frequency text is the
    one that integer arithmetic gives, but for three uploads: no upload
    reads [Rarely uploads], one to four uploads read one upload every 30,
    15, 9 and 7 days, where three uploads in 30 days are one every 10 days,
    and five or more read seven thirtieths of the count, to one decimal. *)
Theorem frequency_texts count :
  0 <= count <= 3000 ->
  freq count = Ok (frequency_text count).
Proof.
  intros H. apply agrees_freq.
  exact (agrees_below 3000 count agrees_checked H).
Qed.

Lemma frequency_texts_witness :
  freq 3 = Ok "1 upload every 9 days".
Proof. apply (frequency_texts 3). lia. Defined.

End FrequencyFacts.

(* ------------------------------------------------------------------ *)
(** ** The preview route                                                *)
(* ------------------------------------------------------------------ *)

Module PreviewFacts.
Import PyStr Preview PreviewTerms Analyzer AnalyzerTerms ApiTerms ReportTerms.

Lemma present_some x c : present x = Some c -> present (Some c) = Some c.
Proof.
  destruct x as [s|]; [|discriminate]. cbn [present].
  destruct (truthy s) eqn:E; [|discriminate].
  intros H. injection H as <-. cbn [present]. now rewrite E.
Qed.

Lemma try_bind_ok {A B} (m : M A) (k : A -> M B) (h : M B) t a t1 :
  m t = (Ok a, t1) ->
  try_except (bind m k) h t = try_except (k a) h t1.
Proof. intros H. unfold try_except, bind. now rewrite H. Qed.

Lemma preview_lookup youtube c t :
  try_except
    (match present c with
     | None => ret (PreviewFailure 404 "Channel not found")
     | Some cid =>
         ch <- Api.fetch_channel_basic youtube cid ;;
         match ch with
         | None => ret (PreviewFailure 404 "Channel not found")
         | Some ch =>
             fmt <- lift (ShortNumber.short_number (subscribers ch)) ;;
             ret (PreviewOk (channel_id ch) (channel_title ch)
                            (profile_pic ch) (subscribers ch) fmt)
         end
     end)
    (ret (PreviewFailure 500 "Server error")) t
  = match present c with
    | None => (Ok (PreviewFailure 404 "Channel not found"), t)
    | Some cid => (answer youtube cid, (t ++ [CallChannels cid])%list)
    end.
Proof.
  destruct (present c) as [cid|]; [|reflexivity].
  unfold try_except, Api.fetch_channel_basic, bind, request, answer.
  destruct (channels_list youtube cid) as [[|it more]|]; try reflexivity.
  cbn [ret]. unfold lift, profile. cbn [subscribers].
  destruct (ShortNumber.short_number _) as [fmt|e|l]; reflexivity.
Qed.

(** The route on a string, by the cases of the parser and of the search. *)
Lemma preview_string youtube raw t :
  preview youtube (Some (Some raw)) t
  = let (cid0, canonical) := Resolver.extract_channel_from_input (Some raw) in
    match present cid0 with
    | Some cid => (answer youtube cid, (t ++ [CallChannels cid])%list)
    | None =>
        match or_else canonical (Some raw) with
        | None => (Ok (PreviewFailure 404 "Channel not found"), t)
        | Some x =>
            match present (first_item (search_list youtube (query x))) with
            | None => (Ok (PreviewFailure 404 "Channel not found"),
                       (t ++ [CallSearch (query x)])%list)
            | Some cid =>
                (answer youtube cid,
                 ((t ++ [CallSearch (query x)]) ++ [CallChannels cid])%list)
            end
        end
    end.
Proof.
  unfold preview. rewrite ParserFacts.extract_strip.
  destruct (Resolver.extract_channel_from_input (Some raw))
    as [cid0 canonical].
  destruct (present cid0) as [cid|] eqn:Ec.
  - rewrite (try_bind_ok _ _ _ t (Some cid) t eq_refl).
    rewrite preview_lookup. now rewrite (present_some _ _ Ec).
  - unfold or_else. destruct (present canonical) as [x|].
    + rewrite (try_bind_ok _ _ _ t _ _
                 (AnalyzerFacts.resolve_handle_some youtube x t)).
      now rewrite preview_lookup.
    + rewrite (try_bind_ok _ _ _ t _ _
                 (AnalyzerFacts.resolve_handle_some youtube (strip raw) t)).
      rewrite preview_lookup. now rewrite ParserFacts.query_strip.
Qed.


Lemma short_number_beyond n l :
  ShortNumber.short_number n = Beyond l -> l = ExponentRepr.
Proof.
  assert (R : forall v l0, Float.repr_round1 v = Beyond l0 ->
                           l0 = ExponentRepr).
  { intros [s|s| |s m ex] l0; unfold Float.repr_round1; try discriminate.
    destruct (10 ^ 17 <=? _); [|discriminate].
    intros H. now injection H as <-. }
  assert (T : forall v l0, Float.to_int v <> Beyond l0).
  { intros [s|s| |s m ex] l0; discriminate. }
  assert (N : forall v l0, Float.round_to_int v <> Beyond l0).
  { intros [s|s| |s m ex] l0; discriminate. }
  assert (S : forall us v, ShortNumber.scale us v = Beyond l ->
                           l = ExponentRepr).
  { induction us as [|u us IH]; intros v; cbn [ShortNumber.scale].
    - destruct (Float.repr_round1 v) as [x|e0|l0] eqn:E; cbn [obind];
        try discriminate. intros H. injection H as <-. now apply (R v).
    - destruct (Float.ltb (Float.abs v) (Float.nearest 1000)); [|apply IH].
      destruct (String.eqb u EmptyString).
      + destruct (Float.to_int v) as [x|e0|l0] eqn:E; cbn [obind];
          try discriminate. now elim (T v l0).
      + destruct (Float.geb v (Float.nearest 100)).
        * destruct (Float.round_to_int v) as [x|e0|l0] eqn:E; cbn [obind];
            try discriminate. now elim (N v l0).
        * destruct (Float.repr_round1 v) as [x|e0|l0] eqn:E; cbn [obind];
            try discriminate. intros H. injection H as <-. now apply (R v). }
  unfold ShortNumber.short_number. destruct (n <? 1000); [discriminate|].
  unfold Float.of_int.
  destruct (Float.nearest n) as [s|s| |s m ex]; cbn [obind];
    try apply S. discriminate.
Qed.

(** The answers of the route once the channel ID is known. *)
Lemma answer_cases youtube cid :
  (exists r, answer youtube cid = Ok r
             /\ is_response r = true
             /\ r <> PreviewFailure 400 "Invalid request")
  \/ answer youtube cid = Beyond ExponentRepr.
Proof.
  unfold answer.
  destruct (channels_list youtube cid) as [[|it more]|].
  - left. eexists. repeat split. discriminate.
  - destruct (ShortNumber.short_number _) as [fmt|e|l] eqn:E.
    + left. eexists. repeat split. discriminate.
    + left. eexists. repeat split. discriminate.
    + right. now rewrite (short_number_beyond _ l E).
  - left. eexists. repeat split. discriminate.
Qed.



Section WithClock.

Variable fromisoformat : string -> option datetime.

Local Abbreviation build_report := (build_report fromisoformat).
Local Abbreviation analyze_resolved := (analyze_resolved fromisoformat).
Local Abbreviation analyze_channel_full := (analyze_channel_full fromisoformat).

(** The analysis of a string, by the same cases. *)
Lemma analyze_string fuel youtube now raw t :
  analyze_channel_full fuel youtube now (Some raw) t
  = let (cid0, canonical) := Resolver.extract_channel_from_input (Some raw) in
    match present cid0 with
    | Some cid => analyze_resolved fuel youtube now cid t
    | None =>
        match or_else canonical (Some raw) with
        | None => (Ok (AnalysisError unresolved), t)
        | Some x =>
            match present (first_item (search_list youtube (query x))) with
            | None => (Ok (AnalysisError unresolved),
                       (t ++ [CallSearch (query x)])%list)
            | Some cid =>
                analyze_resolved fuel youtube now cid
                                 (t ++ [CallSearch (query x)])%list
            end
        end
    end.
Proof.
  unfold Analyzer.analyze_channel_full.
  destruct (Resolver.extract_channel_from_input (Some raw))
    as [cid0 canonical].
  destruct (present cid0) as [cid|]; [reflexivity|].
  unfold bind at 1. destruct (or_else canonical (Some raw)) as [x|].
  - rewrite AnalyzerFacts.resolve_handle_some.
    now destruct (present (first_item (search_list youtube (query x)))).
  - reflexivity.
Qed.

(** The entries of a report that come from the profile. *)
Lemma build_report_profile ch videos_meta now r :
  build_report ch videos_meta now = Ok r ->
  r_channel_id r = channel_id ch
  /\ r_title r = channel_title ch
  /\ r_profile_pic r = profile_pic ch
  /\ r_subscribers r = subscribers ch
  /\ ShortNumber.short_number (subscribers ch) = Ok (r_subscribers_fmt r).
Proof.
  unfold Analyzer.build_report.
  destruct (recent_split fromisoformat (cutoff now) videos_meta [] [])
    as [[s l]|e|b]; cbn [obind]; try discriminate.
  destruct (Originality.metadata_originality_analysis videos_meta)
    as [o|e|b]; cbn [obind]; try discriminate.
  repeat match goal with
  | |- context [obind (ShortNumber.short_number ?n) _] =>
      destruct (ShortNumber.short_number n); cbn [obind]; try discriminate
  end.
  intros H. injection H as <-. cbn. repeat split.
Qed.

(** The report on a channel that was found is built from its profile. *)
Lemma analyze_resolved_found fuel youtube now cid t it more r t' :
  channels_list youtube cid = Returned (it :: more) ->
  analyze_resolved fuel youtube now cid t = (Ok (Report r), t') ->
  exists videos_meta, build_report (profile cid it) videos_meta now = Ok r.
Proof.
  intros Hc. unfold Analyzer.analyze_resolved, Api.fetch_channel_basic,
               bind, request.
  rewrite Hc. cbn [ret]. fold (profile cid it).
  destruct (match present (uploads_playlist (profile cid it)) with
            | Some uploads =>
                Api.fetch_all_video_ids_from_playlist fuel youtube uploads
            | None => ret []
            end (t ++ [CallChannels cid])%list) as [[ids|e|b] t1];
    try discriminate.
  destruct (Api.fetch_videos_metadata youtube ids t1) as [[vm|e|b] t2];
    try discriminate.
  unfold lift, ret.
  destruct (build_report (profile cid it) vm now) as [r0|e|b] eqn:E;
    try discriminate.
  intros H. injection H as <- _. now exists vm.
Qed.

(** The route and the analysis on the same channel ID. *)
Lemma resolved_agree fuel youtube now cid t :
  (forall t',
      (answer youtube cid, (t ++ [CallChannels cid])%list)
      = (Ok (PreviewFailure 404 "Channel not found"), t')
      <-> exists e, analyze_resolved fuel youtube now cid t
                    = (Ok (AnalysisError e), t'))
  /\ (forall c title pic subs fmt o t'',
         answer youtube cid = Ok (PreviewOk c title pic subs fmt) ->
         analyze_resolved fuel youtube now cid t = (o, t'') ->
         (exists rest,
             t'' = ((t ++ [CallChannels cid]) ++ rest)%list
             /\ Forall (fun x => is_listing x = true) rest)
         /\ (forall e, o <> Ok (AnalysisError e))
         /\ (forall r, o = Ok (Report r) ->
                       r_channel_id r = c /\ r_title r = title
                       /\ r_profile_pic r = pic /\ r_subscribers r = subs
                       /\ r_subscribers_fmt r = fmt)).
Proof.
  split.
  - intros t'. split.
    + intros H. injection H as Ha <-. exists not_found.
      apply AnalyzerFacts.analyze_resolved_absent.
      unfold answer in Ha.
      destruct (channels_list youtube cid) as [[|it more]|];
        [reflexivity| |discriminate].
      destruct (ShortNumber.short_number _); discriminate.
    + intros (e & H).
      destruct (ReportFacts.analyze_resolved_shape fromisoformat _ _ _ _ _ _ _ H)
        as (p & v & -> & _ & _ & He).
      destruct (He e eq_refl) as (_ & -> & -> & Hc).
      unfold answer. now rewrite Hc.
  - intros c title pic subs fmt o t'' Ha H.
    unfold answer in Ha.
    destruct (channels_list youtube cid) as [[|it more]|] eqn:Hc;
      try discriminate.
    destruct (ShortNumber.short_number (subscribers (profile cid it)))
      as [fmt0|e0|l0] eqn:Hs; try discriminate.
    injection Ha as <- <- <- <- <-.
    destruct (ReportFacts.analyze_resolved_shape fromisoformat _ _ _ _ _ _ _ H)
      as (p & v & -> & Hp & Hv & He).
    split; [|split].
    + exists (p ++ v)%list. split; [now rewrite <- app_assoc|].
      apply Forall_app. split.
      * eapply Forall_impl; [|exact Hp]. intros x Hx. unfold is_listing.
        now rewrite Hx.
      * eapply Forall_impl; [|exact Hv]. intros x Hx. unfold is_listing.
        rewrite Hx. apply orb_true_r.
    + intros e Ho. destruct (He e Ho) as (_ & _ & _ & Hn). congruence.
    + intros r Ho. subst o.
      destruct (analyze_resolved_found _ _ _ _ _ it more r _ Hc H)
        as (vm & Hb).
      destruct (build_report_profile _ _ _ _ Hb) as (H1 & H2 & H3 & H4 & H5).
      rewrite Hs in H5. injection H5 as H5.
      repeat split; auto.
Qed.

(** X26.  The preview and the analysis of the same input agree.  The
    preview answers [Channel not found] exactly when the analysis ends in an
    error, and the two have then made the same requests.  When the preview
    shows a channel, the analysis starts with the requests of the preview
    and goes on with requests for the playlist and the videos only; it
    does not end in an error, and a report that it gives has the channel
    ID, title, picture, subscribers and formatted subscribers of the
    preview. *)
Theorem preview_agrees_with_analysis fuel youtube now raw t :
  (forall t',
      preview youtube (Some (Some raw)) t
      = (Ok (PreviewFailure 404 "Channel not found"), t')
      <-> exists e, analyze_channel_full fuel youtube now (Some raw) t
                    = (Ok (AnalysisError e), t'))
  /\ (forall cid title pic subs fmt t' o t'',
         preview youtube (Some (Some raw)) t
         = (Ok (PreviewOk cid title pic subs fmt), t') ->
         analyze_channel_full fuel youtube now (Some raw) t = (o, t'') ->
         (exists rest,
             t'' = (t' ++ rest)%list
             /\ Forall (fun x => is_listing x = true) rest)
         /\ (forall e, o <> Ok (AnalysisError e))
         /\ (forall r, o = Ok (Report r) ->
                       r_channel_id r = cid /\ r_title r = title
                       /\ r_profile_pic r = pic /\ r_subscribers r = subs
                       /\ r_subscribers_fmt r = fmt)).
Proof.
  rewrite preview_string, analyze_string.
  destruct (Resolver.extract_channel_from_input (Some raw))
    as [cid0 canonical].
  assert (Miss : forall t1 t' : trace,
             (Ok (PreviewFailure 404 "Channel not found"), t1)
             = (Ok (PreviewFailure 404 "Channel not found"), t')
             <-> exists e, (Ok (AnalysisError unresolved), t1)
                           = (Ok (AnalysisError e), t')).
  { intros t1 t'. split.
    - intros H. injection H as <-. now exists unresolved.
    - intros (e & H). now injection H as _ <-. }
  destruct (present cid0) as [cid|].
  - destruct (resolved_agree fuel youtube now cid t) as [A B]. split.
    + exact A.
    + intros c title pic subs fmt t' o t'' H. injection H as Ha <-.
      now apply B.
  - destruct (or_else canonical (Some raw)) as [x|].
    + destruct (present (first_item (search_list youtube (query x))))
        as [cid|].
      * destruct (resolved_agree fuel youtube now cid
                    (t ++ [CallSearch (query x)])%list) as [A B]. split.
        -- exact A.
        -- intros c title pic subs fmt t' o t'' H. injection H as Ha <-.
           now apply B.
      * split; [apply Miss|]. intros c title pic subs fmt t' o t'' H.
        discriminate H.
    + split; [apply Miss|]. intros c title pic subs fmt t' o t'' H.
      discriminate H.
Qed.

End WithClock.

Lemma one_video_preview :
  preview one_video_service (Some (Some one_id)) []
  = (Ok (PreviewOk one_id (Some "One") None 12 "12"),
     [CallChannels one_id]).
Proof. reflexivity. Qed.

Lemma preview_agrees_with_analysis_witness :
  exists r,
    Analyzer.analyze_channel_full sample_fromisoformat 1 one_video_service
      sample_now (Some one_id) []
    = (Ok (Report r), one_trace)
    /\ (exists rest,
           one_trace = ([CallChannels one_id] ++ rest)%list
           /\ Forall (fun x => is_listing x = true) rest)
    /\ r_channel_id r = one_id /\ r_title r = Some "One"
    /\ r_profile_pic r = None /\ r_subscribers r = 12
    /\ r_subscribers_fmt r = "12".
Proof.
  destruct ReportFacts.one_video_analysis as [r Hr]. exists r.
  split; [exact Hr|].
  destruct (proj2 (preview_agrees_with_analysis sample_fromisoformat 1
                     one_video_service sample_now one_id [])
              _ _ _ _ _ _ _ _ one_video_preview Hr) as (H1 & _ & H3).
  split; [exact H1|]. exact (H3 r eq_refl).
Defined.

End PreviewFacts.

(* ------------------------------------------------------------------ *)
(** ** The requests of a batch                                          *)
(* ------------------------------------------------------------------ *)

Module BatchFacts.
Import Analyzer AnalyzerTerms ApiTerms ReportTerms BatchTerms.

Lemma count_app p a b :
  count_calls p (a ++ b) = (count_calls p a + count_calls p b)%nat.
Proof. unfold count_calls. now rewrite filter_app, length_app. Qed.

Lemma count_le p l : (count_calls p l <= List.length l)%nat.
Proof. apply filter_length_le. Qed.

Lemma count_none p q l :
  Forall (fun x => q x = true) l ->
  (forall x, q x = true -> p x = false) ->
  count_calls p l = 0%nat.
Proof.
  intros Hl Hpq. unfold count_calls.
  induction Hl as [|x l Hx _ IH]; [reflexivity|].
  cbn [filter]. now rewrite (Hpq x Hx).
Qed.

Section WithClock.

Variable fromisoformat : string -> option datetime.

Local Abbreviation analyze_channel_full := (analyze_channel_full fromisoformat).
Local Abbreviation analyze_each := (analyze_each fromisoformat).
Local Abbreviation api_analyze := (api_analyze fromisoformat).

(** One analysis makes at most one search and one request for a channel. *)
Lemma analysis_budget fuel youtube now inp t o t' :
  analyze_channel_full fuel youtube now inp t = (o, t') ->
  exists calls,
    t' = (t ++ calls)%list
    /\ (count_calls is_search calls <= 1)%nat
    /\ (count_calls is_channels calls <= 1)%nat.
Proof.
  intros H.
  destruct (ReportFacts.analyze_shape fromisoformat _ _ _ _ _ _ _ H)
    as (s & c & p & v & -> & Hs & Hc & Fs & Fc & Fp & Fv & _).
  exists (s ++ c ++ p ++ v)%list. split; [reflexivity|].
  rewrite !count_app.
  pose proof (count_le is_search s). pose proof (count_le is_channels c).
  rewrite (count_none is_search is_channels c Fc),
          (count_none is_search is_playlist p Fp),
          (count_none is_search is_videos v Fv),
          (count_none is_channels is_search s Fs),
          (count_none is_channels is_playlist p Fp),
          (count_none is_channels is_videos v Fv);
    try (intros [] Hx; try discriminate Hx; reflexivity).
  lia.
Qed.

Lemma analyze_each_budget fuel youtube clock inputs :
  forall i rs es t o t',
    analyze_each fuel youtube clock i inputs rs es t = (o, t') ->
    exists calls,
      t' = (t ++ calls)%list
      /\ (count_calls is_search calls <= List.length inputs)%nat
      /\ (count_calls is_channels calls <= List.length inputs)%nat.
Proof.
  induction inputs as [|c rest IH]; intros i rs es t o t';
    cbn [Analyzer.analyze_each].
  - unfold ret. intros H. injection H as _ <-. exists [].
    rewrite app_nil_r. repeat split; cbn; lia.
  - unfold bind at 1.
    destruct (analyze_channel_full fuel youtube (clock i) c t)
      as [o1 t1] eqn:E1.
    destruct (analysis_budget _ _ _ _ _ _ _ E1) as (c1 & -> & Hs1 & Hc1).
    assert (Stop : forall o2 : outcome (list report * list (option string * string)),
               (o2, (t ++ c1)%list) = (o, t') ->
               exists calls,
                 t' = (t ++ calls)%list
                 /\ (count_calls is_search calls
                     <= List.length (c :: rest))%nat
                 /\ (count_calls is_channels calls
                     <= List.length (c :: rest))%nat).
    { intros o2 H. injection H as _ <-. exists c1.
      cbn [List.length]. repeat split; lia. }
    destruct o1 as [[e|r]|e|l]; try apply Stop.
    + intros H. apply IH in H. destruct H as (c2 & -> & Hs2 & Hc2).
      exists (c1 ++ c2)%list. rewrite <- app_assoc, !count_app.
      cbn [List.length]. repeat split; lia.
    + intros H. apply IH in H. destruct H as (c2 & -> & Hs2 & Hc2).
      exists (c1 ++ c2)%list. rewrite <- app_assoc, !count_app.
      cbn [List.length]. repeat split; lia.
Qed.

(** X27.  The batch route analyses the first five inputs and no more: the
    response and the requests are those of the batch cut to five inputs,
    whatever follows them, and the requests hold at most five searches and
    at most five requests for a channel.  The route raises nothing. *)
Theorem batch_is_cut_to_five fuel youtube clock inputs t o t' :
  api_analyze fuel youtube clock inputs t = (o, t') ->
  api_analyze fuel youtube clock (firstn MAX_CHANNELS inputs) t = (o, t')
  /\ (forall e, o <> Raise e)
  /\ exists calls,
      t' = (t ++ calls)%list
      /\ (count_calls is_search calls <= MAX_CHANNELS)%nat
      /\ (count_calls is_channels calls <= MAX_CHANNELS)%nat.
Proof.
  intros H. split; [|split].
  - unfold Analyzer.api_analyze in *. now rewrite firstn_firstn, Nat.min_id.
  - unfold Analyzer.api_analyze, try_except, bind in H.
    destruct (analyze_each fuel youtube clock 0
                (firstn MAX_CHANNELS inputs) [] [] t) as [[x|e0|l] t1];
      unfold ret in H; injection H as <- _; discriminate.
  - unfold Analyzer.api_analyze, try_except, bind in H.
    destruct (analyze_each fuel youtube clock 0
                (firstn MAX_CHANNELS inputs) [] [] t) as [o1 t1] eqn:E.
    apply analyze_each_budget in E. destruct E as (calls & -> & Hs & Hc).
    pose proof (firstn_le_length MAX_CHANNELS inputs) as Hn.
    exists calls.
    destruct o1 as [x|e0|l]; unfold ret in H; injection H as _ <-;
      repeat split; lia.
Qed.

End WithClock.

Lemma seven_inputs_batch :
  Analyzer.api_analyze sample_fromisoformat 1 two_pages (fun _ => sample_now)
    seven_inputs []
  = (Ok (Success [] (repeat (Some "nobody", unresolved) 5)),
     repeat (CallSearch "nobody") 5).
Proof. reflexivity. Qed.

Lemma batch_is_cut_to_five_witness :
  Analyzer.api_analyze sample_fromisoformat 1 two_pages (fun _ => sample_now)
    (firstn MAX_CHANNELS seven_inputs) []
  = (Ok (Success [] (repeat (Some "nobody", unresolved) 5)),
     repeat (CallSearch "nobody") 5)
  /\ exists calls,
      repeat (CallSearch "nobody") 5 = ([] ++ calls)%list
      /\ (count_calls is_search calls <= MAX_CHANNELS)%nat
      /\ (count_calls is_channels calls <= MAX_CHANNELS)%nat.
Proof.
  destruct (batch_is_cut_to_five sample_fromisoformat 1 two_pages
              (fun _ => sample_now) seven_inputs [] _ _ seven_inputs_batch)
    as (H1 & _ & H3).
  split; [exact H1|exact H3].
Defined.

End BatchFacts.

(* ------------------------------------------------------------------ *)
(** ** The texts of the average durations                               *)
(* ------------------------------------------------------------------ *)

Module AverageTextFacts.
Import Analyzer AnalyzerTerms ReportTerms.

Lemma short_total_bounds l :
  Forall (fun v => 0 <= duration_seconds v) l ->
  0 <= zsum (map duration_seconds (filter is_short l))
  <= 60 * zlen (filter is_short l).
Proof.
  unfold zlen, zsum. induction 1 as [|v l Hv _ IH]; [cbn; lia|].
  cbn [filter]. destruct (is_short v) eqn:E; [|exact IH].
  unfold is_short, SHORTS_MAX_SECONDS in E. apply Z.leb_le in E.
  cbn [map fold_right List.length]. lia.
Qed.

Lemma long_total_bounds l :
  61 * zlen (filter is_long l)
  <= zsum (map duration_seconds (filter is_long l)).
Proof.
  unfold zlen, zsum. induction l as [|v l IH]; [cbn; lia|].
  cbn [filter]. destruct (is_long v) eqn:E; [|exact IH].
  unfold is_long, SHORTS_MAX_SECONDS in E. apply Z.ltb_lt in E.
  cbn [map fold_right List.length]. lia.
Qed.

(** The text of an average from the floor of the average. *)
Lemma avg_human_floor lst :
  zsum (map duration_seconds lst) <> 0 ->
  lst <> [] ->
  avg_human (avg_duration lst)
  = (PyStr.of_int (zsum (map duration_seconds lst) / zlen lst / 60) ++ "m "
     ++ PyStr.of_int ((zsum (map duration_seconds lst) / zlen lst) mod 60)
     ++ "s")%string.
Proof.
  destruct lst as [|x lst]; [congruence|]. intros H _.
  exact (AverageFacts.avg_human_render x lst H).
Qed.

Section WithClock.

Variable fromisoformat : string -> option datetime.

Local Abbreviation build_report := (build_report fromisoformat).
Local Abbreviation analyze_resolved := (analyze_resolved fromisoformat).
Local Abbreviation analyze_channel_full := (analyze_channel_full fromisoformat).

(** A report of an analysis is built from videos whose durations are not
    negative. *)
Lemma analyze_resolved_built fuel youtube now cid t r t' :
  analyze_resolved fuel youtube now cid t = (Ok (Report r), t') ->
  exists ch videos_meta,
    Forall (fun v => 0 <= duration_seconds v) videos_meta
    /\ build_report ch videos_meta now = Ok r.
Proof.
  unfold Analyzer.analyze_resolved, bind.
  destruct (Api.fetch_channel_basic youtube cid t) as [[[ch|]|e|b] t1];
    try discriminate.
  destruct (match present (uploads_playlist ch) with
            | Some uploads =>
                Api.fetch_all_video_ids_from_playlist fuel youtube uploads
            | None => ret []
            end t1) as [[ids|e|b] t2]; try discriminate.
  unfold Api.fetch_videos_metadata.
  destruct (ApiFacts.fetch_batches_cases youtube
              (map (Api.batch_at ids)
                   (Api.range_step (List.length ids) BATCH_SIZE))
              [] t2 (Forall_nil _))
    as [(vs & t3 & -> & Hvs)|(e2 & t3 & -> & _)]; [|discriminate].
  unfold lift, ret.
  destruct (build_report ch vs now) as [r0|e|b] eqn:E; try discriminate.
  intros H. injection H as <- _. eauto.
Qed.

Lemma analyze_built fuel youtube now inp t r t' :
  analyze_channel_full fuel youtube now inp t = (Ok (Report r), t') ->
  exists ch videos_meta,
    Forall (fun v => 0 <= duration_seconds v) videos_meta
    /\ build_report ch videos_meta now = Ok r.
Proof.
  unfold Analyzer.analyze_channel_full.
  destruct (Resolver.extract_channel_from_input inp) as [cid0 canonical].
  destruct (present cid0) as [cid|].
  - apply analyze_resolved_built.
  - unfold bind at 1.
    destruct (Api.resolve_handle_to_channel_id youtube
                (or_else canonical inp) t) as [[cid|e|b] t1];
      try discriminate.
    destruct (present cid) as [cid'|]; [|discriminate].
    apply analyze_resolved_built.
Qed.

(** X28.  In the report of an analysis the average duration of the shorts
    reads [N/A], or [0m] and a number of seconds below 60, or [1m 0s]. *)
Theorem short_average_is_within_a_minute fuel youtube now inp t r t' :
  analyze_channel_full fuel youtube now inp t = (Ok (Report r), t') ->
  r_avg_short_duration_human r = "N/A"
  \/ r_avg_short_duration_human r = "1m 0s"
  \/ exists s, 0 <= s < 60
               /\ r_avg_short_duration_human r
                  = ("0m " ++ PyStr.of_int s ++ "s")%string.
Proof.
  intros H. destruct (analyze_built _ _ _ _ _ _ _ H) as (ch & vm & Hd & Hb).
  destruct (ReportFacts.build_report_totals fromisoformat ch vm now r Hb)
    as (_ & _ & _ & _ & _ & _ & _ & _ & _ & -> & _).
  pose proof (short_total_bounds vm Hd) as B.
  set (s := filter is_short vm) in *.
  destruct (Z.eq_dec (zsum (map duration_seconds s)) 0) as [E|E].
  { left. apply AverageFacts.avg_human_NA. now right. }
  destruct s as [|x lst] eqn:Es.
  { left. reflexivity. }
  rewrite (avg_human_floor (x :: lst) E ltac:(discriminate)).
  set (total := zsum (map duration_seconds (x :: lst))) in *.
  assert (Hl : 0 < zlen (x :: lst)) by (unfold zlen; cbn [List.length]; lia).
  set (n := zlen (x :: lst)) in *.
  assert (Ha : 0 <= total / n <= 60).
  { split; [apply Z.div_pos; lia|].
    apply Z.div_le_upper_bound; lia. }
  destruct (Z.eq_dec (total / n) 60) as [E60|E60].
  - right. left. rewrite E60. reflexivity.
  - right. right. exists (total / n). split; [lia|].
    rewrite (Z.div_small (total / n) 60) by lia.
    rewrite (Z.mod_small (total / n) 60) by lia. reflexivity.
Qed.

(** X29.  In every report the average duration of the long videos reads
    [N/A] exactly when there is no long video, and otherwise a number of
    minutes that is at least 1 and a number of seconds below 60. *)
Theorem long_average_has_minutes ch videos_meta now r :
  build_report ch videos_meta now = Ok r ->
  (r_avg_long_duration_human r = "N/A" <-> r_videos_count r = 0)
  /\ (0 < r_videos_count r ->
      exists m s,
        1 <= m /\ 0 <= s < 60
        /\ r_avg_long_duration_human r
           = (PyStr.of_int m ++ "m " ++ PyStr.of_int s ++ "s")%string).
Proof.
  intros Hb.
  destruct (ReportFacts.build_report_totals fromisoformat ch videos_meta now r Hb)
    as (_ & -> & _ & _ & _ & _ & _ & _ & _ & _ & -> & _).
  pose proof (long_total_bounds videos_meta) as B. split.
  - rewrite AverageFacts.avg_long_NA. unfold zlen.
    destruct (filter is_long videos_meta); cbn [List.length]; split;
      intros H; try reflexivity; try discriminate H; lia.
  - set (l := filter is_long videos_meta) in *. intros Hn.
    assert (Hne : l <> []) by (intros E; rewrite E in Hn; discriminate Hn).
    assert (Ht : zsum (map duration_seconds l) <> 0) by lia.
    rewrite (avg_human_floor l Ht Hne).
    set (total := zsum (map duration_seconds l)) in *.
    set (n := zlen l) in *.
    assert (Ha : 61 <= total / n) by (apply Z.div_le_lower_bound; lia).
    exists (total / n / 60), ((total / n) mod 60).
    split; [apply Z.div_le_lower_bound; lia|].
    split; [apply Z.mod_pos_bound; lia|reflexivity].
Qed.

End WithClock.

Lemma short_average_is_within_a_minute_witness :
  exists r,
    Analyzer.analyze_channel_full sample_fromisoformat 1 one_video_service
      sample_now (Some one_id) []
    = (Ok (Report r), one_trace)
    /\ (r_avg_short_duration_human r = "N/A"
        \/ r_avg_short_duration_human r = "1m 0s"
        \/ exists s, 0 <= s < 60
                     /\ r_avg_short_duration_human r
                        = ("0m " ++ PyStr.of_int s ++ "s")%string).
Proof.
  destruct ReportFacts.one_video_analysis as [r Hr]. exists r. split; [exact Hr|].
  exact (short_average_is_within_a_minute sample_fromisoformat 1
           one_video_service sample_now (Some one_id) [] r one_trace Hr).
Defined.

Lemma long_average_has_minutes_witness :
  exists r,
    Analyzer.build_report sample_fromisoformat (profile one_id one_item)
      [one_video] sample_now = Ok r
    /\ (r_avg_long_duration_human r = "N/A" <-> r_videos_count r = 0)
    /\ exists m s,
        1 <= m /\ 0 <= s < 60
        /\ r_avg_long_duration_human r
           = (PyStr.of_int m ++ "m " ++ PyStr.of_int s ++ "s")%string.
Proof.
  destruct (ReportFacts.one_video_built (profile one_id one_item) "12" eq_refl)
    as [r Hr].
  exists r. split; [exact Hr|].
  destruct (long_average_has_minutes sample_fromisoformat _ _ _ r Hr)
    as [H1 H2].
  split; [exact H1|]. apply H2.
  destruct (ReportFacts.build_report_totals sample_fromisoformat _ _ _ r Hr)
    as (_ & -> & _).
  reflexivity.
Defined.

End AverageTextFacts.
